(** * StackGAN orchestration: stack assembly, losses and train-op schedule

    A shallow embedding of the graph-construction code of [train.py],
    [namedtuples.py], [networks.py] and
    [tfstackgan/.../gan_estimator_impl.py].

    The Python code builds a TensorFlow graph.  What the orchestration
    decides at build time is modelled here:
    - tensors are symbolic handles with a name and a static shape;
    - the graph is the ordered collection of trainable variable names,
      threaded through the builders as explicit state, together with the
      list [gan_models] that the input closures read;
    - exceptions are values of [pyerr];
    - scalar losses are the rationals they denote (no rounding), and loss
      weights are Python numbers.

    The network functions, the loss functions, the data provider and the
    helpers of [util] are pluggable collaborators and enter as class
    members; a network function is taken to return, and to ask only for
    variables under the variable scope it is called in.  What the code
    uses of TensorFlow is modelled after TensorFlow 1.x:
    - a variable made under the scope [s] is named [s/local], and with
      [reuse=AUTO_REUSE] an existing name gives the existing variable;
    - [tf.trainable_variables(scope)] filters the collection with
      [re.match], a prefix test on the name;
    - [TensorShape.is_compatible_with] and [Tensor.set_shape];
    - [_validate_aux_loss_weight] and [_use_aux_loss] of [tfgan];
    - [tfgan.GANTrainOps] has the fields [generator_train_op],
      [discriminator_train_op] and [global_step_inc_op];
    - a [RunTrainOpsHook] runs [session.run(train_ops)] the given number
      of times before each step, and [gan_train] steps on
      [global_step_inc_op] with the hooks in list order.
    Summaries and printing are left out of the builders; the summary block
    of the estimator is modelled on its own in [Summaries], and the
    networks of [networks.py] at the level of static shapes in
    [Networks]. *)

From Stdlib Require Import List String Ascii Bool Arith Lia ZArith QArith Qround.
Import ListNotations.
Open Scope string_scope.
Open Scope list_scope.
Open Scope nat_scope.

Set Implicit Arguments.

(** ** Python exceptions and results *)

Inductive pyerr : Type :=
| ValueError (msg : string)
| TypeError (msg : string)
| NameError (name : string)
| IndexError
| AssertionError.

Inductive result (A : Type) : Type :=
| Ok (a : A)
| Err (e : pyerr).

Arguments Ok {A} a.
Arguments Err {A} e.


Definition rbind {A B} (r : result A) (k : A -> result B) : result B :=
  match r with
  | Ok a => k a
  | Err e => Err e
  end.

(** [xs[i]] for a non-negative index. *)
Definition py_index {A} (xs : list A) (i : nat) : result A :=
  match nth_error xs i with
  | Some x => Ok x
  | None => Err IndexError
  end.

(** [xs[-1]]. *)
Definition py_last {A} (xs : list A) : result A :=
  match xs with
  | [] => Err IndexError
  | _ => py_index xs (List.length xs - 1)
  end.

(** [range(n)]. *)
Definition range (n : nat) : list nat := seq 0 n.

(** ** [str(i)] for a non-negative integer, and string prefixes *)

Definition digit_char (d : nat) : ascii := ascii_of_nat (48 + d).

Fixpoint str_fuel (fuel n : nat) : string :=
  match fuel with
  | 0 => ""
  | S fuel' =>
      if n <? 10 then String (digit_char n) ""
      else (str_fuel fuel' (n / 10) ++ String (digit_char (n mod 10)) "")%string
  end.

Definition str (n : nat) : string := str_fuel (S n) n.

Definition is_digit (c : ascii) : bool :=
  let k := nat_of_ascii c in (48 <=? k) && (k <=? 57).

(** Reads the leading run of decimal digits of a string, most significant
    digit first, starting from [acc]. *)
Fixpoint read_digits (acc : nat) (s : string) : nat :=
  match s with
  | String c s' =>
      if is_digit c then read_digits (10 * acc + (nat_of_ascii c - 48)) s'
      else acc
  | EmptyString => acc
  end.

(** ** The graph under construction

    [tf.trainable_variables(scope)] returns the variables collected so far
    whose name matches [scope] with [re.match], that is, has [scope] as a
    prefix.  Variables created by a network function inside a variable
    scope are named [scope/local]; under [reuse=AUTO_REUSE] asking again
    for an existing name returns the existing variable. *)

Definition Graph : Type := list string.

Definition in_graph (v : string) (g : Graph) : bool :=
  existsb (String.eqb v) g.

(** The full name of [local_name] under the variable scope [scope]; the
    root scope has the empty name. *)
Definition scoped (scope local_name : string) : string :=
  if String.eqb scope "" then local_name
  else (scope ++ "/" ++ local_name)%string.

Fixpoint get_variables (scope : string) (locals : list string) (g : Graph) : Graph :=
  match locals with
  | [] => g
  | l :: ls =>
      let v := scoped scope l in
      get_variables scope ls (if in_graph v g then g else g ++ [v])
  end.

Definition trainable_variables (scope : string) (g : Graph) : list string :=
  filter (String.prefix scope) g.

(** The graph [g'] is [g] with further variables added. *)
Definition extends (g g' : Graph) : Prop := exists extra, g' = g ++ extra.

(** Builders run in a state-and-exception monad; the state holds the graph
    and the Python objects the closures of the builder share. *)
Definition M (S A : Type) : Type := S -> result (A * S).

Definition ret {S A} (a : A) : M S A := fun s => Ok (a, s).

Definition raise {S A} (e : pyerr) : M S A := fun _ => Err e.

Definition bind {S A B} (m : M S A) (k : A -> M S B) : M S B :=
  fun s =>
    match m s with
    | Ok (a, s') => k a s'
    | Err e => Err e
    end.

Definition lift {S A} (r : result A) : M S A :=
  fun s => match r with Ok a => Ok (a, s) | Err e => Err e end.

Definition gets {S A} (f : S -> A) : M S A := fun s => Ok (f s, s).

Definition modify {S} (f : S -> S) : M S unit := fun s => Ok (tt, f s).

Declare Scope build_scope.
Delimit Scope build_scope with build.
Notation "x <- m ;; k" := (bind m (fun x => k))
  (at level 100, m at next level, right associativity) : build_scope.
Notation "' pat <- m ;; k" := (bind m (fun x => match x with pat => k end))
  (at level 100, pat pattern, m at next level, right associativity) : build_scope.

(** ** Tensors and static shapes *)

(** A [TensorShape]: [None] is an unknown rank, a [None] dimension is an
    unknown size. *)
Definition TensorShape : Type := option (list (option nat)).

Definition dim_compatible (x y : option nat) : bool :=
  match x, y with
  | Some a, Some b => a =? b
  | _, _ => true
  end.

Fixpoint dims_compatible (xs ys : list (option nat)) : bool :=
  match xs, ys with
  | [], [] => true
  | x :: xs', y :: ys' => dim_compatible x y && dims_compatible xs' ys'
  | _, _ => false
  end.

Definition is_compatible_with (s t : TensorShape) : bool :=
  match s, t with
  | Some xs, Some ys => dims_compatible xs ys
  | _, _ => true
  end.

Record Tensor : Type := mkTensor {
  tensor_name : string;
  shape : TensorShape }.

(** What a generator receives: one tensor or a list of tensors
    ([_convert_tensor_or_l_or_d] keeps that structure). *)
Inductive GenInput : Type :=
| OneTensor (t : Tensor)
| TensorList (ts : list Tensor).

Definition _convert_tensor_or_l_or_d (i : GenInput) : GenInput := i.

(** The outcome of calling a network function inside a variable scope: its
    outputs and the local names of the variables it asked for. *)
Record NetCall (A : Type) : Type := mkNetCall {
  net_out : A;
  net_vars : list string }.

Record VariableScope : Type := mkScope {
  scope_name : string;
  original_name_scope : string }.

(** [Tensor.set_shape]: merges the given shape into the static one. *)
Definition merge_dim (x y : option nat) : option nat :=
  match x with Some _ => x | None => y end.

Fixpoint merge_dims (xs ys : list (option nat)) : list (option nat) :=
  match xs, ys with
  | x :: xs', y :: ys' => merge_dim x y :: merge_dims xs' ys'
  | _, _ => []
  end.

Definition set_shape (t : Tensor) (s : list (option nat)) : result Tensor :=
  if is_compatible_with (shape t) (Some s) then
    Ok (mkTensor (tensor_name t)
          (match shape t with
           | Some xs => Some (merge_dims xs s)
           | None => Some s
           end))
  else Err (ValueError "Shapes are not compatible").

(** ** [train.py] *)

Module TrainScript.

(** The command-line flags the orchestration reads. *)
Record Flags : Type := mkFlags {
  FLAGS_stack_depth : nat;
  FLAGS_batch_size : nat;
  FLAGS_noise_dim : nat;
  FLAGS_color_loss : Q;
  FLAGS_gradient_penalty : Q;
  FLAGS_apply_batch_norm : bool }.

Definition generator_fn_type : Type := GenInput -> nat -> bool -> NetCall (Tensor * Tensor).
Definition discriminator_fn_type : Type := Tensor -> bool -> NetCall Tensor.

(** [namedtuples.StackGANModel]: the fields of [tfgan.GANModel] followed by
    [generator_hidden_code] and [stage]. *)
Record StackGANModel : Type := mkStackGANModel {
  generator_inputs : GenInput;
  generated_data : Tensor;
  generator_variables : list string;
  generator_scope : VariableScope;
  generator_fn : generator_fn_type;
  real_data : Tensor;
  discriminator_real_outputs : Tensor;
  discriminator_gen_outputs : Tensor;
  discriminator_variables : list string;
  discriminator_scope : VariableScope;
  discriminator_fn : discriminator_fn_type;
  generator_hidden_code : Tensor;
  stage : nat }.

(** The state [main] builds in: the default graph and the list bound to
    [gan_models], which the input closures read when they are called. *)
Record World : Type := mkWorld {
  graph : Graph;
  gan_models : list StackGANModel }.

Definition B : Type -> Type := M World.

(** Calls a network function under the variable scope named [scope]. *)
Definition call_in_scope {A} (scope : string) (c : NetCall A) : B A :=
  fun w => Ok (net_out c,
               mkWorld (get_variables scope (net_vars c) (graph w)) (gan_models w)).

Definition append_model (m : StackGANModel) : B unit :=
  modify (fun w => mkWorld (graph w) (gan_models w ++ [m])).

(** [gan_models = []]. *)
Definition reset_models : B unit :=
  modify (fun w => mkWorld (graph w) []).

(** The collaborators of the script: the networks of [networks.py], the
    images of [data_provider] and [tf.image.resize_images]. *)
Class Collaborators : Type := {
  generator : generator_fn_type;
  discriminator : discriminator_fn_type;
  images : Tensor;
  resize_images : Tensor -> nat -> nat -> Tensor;
  random_normal : list nat -> Tensor }.

Section Build.

Context (FLAGS : Flags) {C : Collaborators}.

Local Open Scope build_scope.

Definition _get_or_create_gen_super_scope (super_scope : option VariableScope)
  : VariableScope :=
  match super_scope with
  | None => mkScope "Generator" "Generator/"
  | Some sc => sc
  end.

(** The resolution handed to the generator of a stage. *)
Definition final_size (stage : nat) : nat := 2 ^ (5 + stage).

(** The error of the shape check of [gan_model]. *)
Definition shape_mismatch : pyerr :=
  ValueError "Generator output shape must be the same shape as real data".

(** The shape check of [gan_model], on a finished stage model. *)
Definition shapes_match (m : StackGANModel) : bool :=
  is_compatible_with (shape (generated_data m)) (shape (real_data m)).

Definition gan_model
    (generator_fn : generator_fn_type)
    (discriminator_fn : discriminator_fn_type)
    (real_data : Tensor)
    (generator_input_fn : B GenInput)
    (stage : nat)
    (generator_super_scope : option VariableScope)
    (check_shapes : bool) : B StackGANModel :=
  let current_stage_generator_scope := ("Generator_stage_" ++ str stage)%string in
  let current_stage_discriminator_scope := ("Discriminator_stage_" ++ str stage)%string in
  let generator_super_scope := _get_or_create_gen_super_scope generator_super_scope in
  let current_gen_scope :=
    scoped (scope_name generator_super_scope) current_stage_generator_scope in
  generator_inputs <- generator_input_fn ;;
  let generator_inputs := _convert_tensor_or_l_or_d generator_inputs in
  '(generated_data, generator_hidden_code) <-
     call_in_scope current_gen_scope
       (generator_fn generator_inputs (final_size stage) (FLAGS_apply_batch_norm FLAGS)) ;;
  let dis_scope :=
    mkScope current_stage_discriminator_scope
            (current_stage_discriminator_scope ++ "/")%string in
  discriminator_gen_outputs <-
     call_in_scope (scope_name dis_scope)
       (discriminator_fn generated_data (FLAGS_apply_batch_norm FLAGS)) ;;
  discriminator_real_outputs <-
     call_in_scope (scope_name dis_scope)
       (discriminator_fn real_data (FLAGS_apply_batch_norm FLAGS)) ;;
  _ <- (if check_shapes then
          if negb (is_compatible_with (shape generated_data) (shape real_data))
          then raise shape_mismatch
          else ret tt
        else ret tt) ;;
  generator_variables <-
     gets (fun w => trainable_variables (scope_name generator_super_scope) (graph w)) ;;
  discriminator_variables <-
     gets (fun w => trainable_variables (scope_name dis_scope) (graph w)) ;;
  ret (mkStackGANModel
         generator_inputs
         generated_data
         generator_variables
         generator_super_scope
         generator_fn
         real_data
         discriminator_real_outputs
         discriminator_gen_outputs
         discriminator_variables
         dis_scope
         discriminator_fn
         generator_hidden_code
         stage).

(** The closure [get_input] made by [_get_generator_input_for_stage(i, noise)];
    it reads [gan_models] when it is called. *)
Definition _get_generator_input_for_stage (i : nat) (noise : Tensor) : B GenInput :=
  if 0 <? i then
    models <- gets gan_models ;;
    prev <- lift (py_index models (i - 1)) ;;
    ret (TensorList [generator_hidden_code prev; noise])
  else ret (OneTensor noise).

Definition _get_real_data_for_stage (i : nat) : result Tensor :=
  let resolution := 2 ^ (5 + i) in
  let current_res_images := resize_images images resolution resolution in
  set_shape current_res_images
    [Some (FLAGS_batch_size FLAGS); Some resolution; Some resolution; Some 3].

(** One iteration of the loop of [main] over [range(FLAGS.stack_depth)]. *)
Definition build_stage (check_shapes : bool) (noise : Tensor) (i : nat) : B unit :=
  let generator_input_fn := _get_generator_input_for_stage i noise in
  real_data <- lift (_get_real_data_for_stage i) ;;
  generator_super_scope <-
     (if 0 <? i then
        models <- gets gan_models ;;
        last <- lift (py_last models) ;;
        ret (Some (generator_scope last))
      else ret None) ;;
  current_model <-
     gan_model generator discriminator real_data generator_input_fn i
               generator_super_scope check_shapes ;;
  append_model current_model.

Fixpoint build_stages (check_shapes : bool) (noise : Tensor) (stages : list nat) : B unit :=
  match stages with
  | [] => ret tt
  | i :: rest => _ <- build_stage check_shapes noise i ;; build_stages check_shapes noise rest
  end.

(** The stack [main] assembles: [gan_model] is called with [check_shapes]
    left at its default. *)
Definition build_with (check_shapes : bool) : B (list StackGANModel) :=
  let noise := random_normal [FLAGS_batch_size FLAGS; FLAGS_noise_dim FLAGS] in
  _ <- reset_models ;;
  _ <- build_stages check_shapes noise (range (FLAGS_stack_depth FLAGS)) ;;
  gets gan_models.

Definition build_stack : B (list StackGANModel) := build_with true.

Definition empty_world : World := mkWorld [] [].

(** *** What the build maintains *)

Definition dis_scope_name (i : nat) : string := ("Discriminator_stage_" ++ str i)%string.

Definition the_noise : Tensor :=
  random_normal [FLAGS_batch_size FLAGS; FLAGS_noise_dim FLAGS].

(** The name of the variable [l] of the discriminator of stage [k]. *)
Definition dis_name (k : nat) (l : string) : string := scoped (dis_scope_name k) l.

Definition default_scope : VariableScope := mkScope "Generator" "Generator/".

(** What holds of the store after the stages [0 .. i-1] were built. *)
Record built (noise : Tensor) (i : nat) (w : World) : Prop := mkBuilt {
  built_length : List.length (gan_models w) = i;
  built_stage : forall k m, nth_error (gan_models w) k = Some m -> stage m = k;
  built_inputs : forall k m, nth_error (gan_models w) k = Some m ->
      match k with
      | 0 => generator_inputs m = OneTensor noise
      | S k' => exists prev, nth_error (gan_models w) k' = Some prev
                  /\ generator_inputs m = TensorList [generator_hidden_code prev; noise]
      end;
  built_scope : forall k m, nth_error (gan_models w) k = Some m ->
      generator_scope m = default_scope;
  built_shapes : forall k m, nth_error (gan_models w) k = Some m ->
      _get_real_data_for_stage k = Ok (real_data m)
}.

(** What holds of the variables, when the graph had no variable under a
    discriminator stage scope before the first stage. *)
Record collected (i : nat) (w : World) : Prop := mkCollected {
  built_graph : Forall (fun v => String.prefix "Discriminator_stage_" v = false
                                 \/ exists k l, k < i /\ v = dis_name k l) (graph w);
  built_gen_vars : forall k m, nth_error (gan_models w) k = Some m ->
      exists g, generator_variables m = trainable_variables "Generator" g
                /\ extends g (graph w);
  built_gen_nested : forall a b ma mb, a <= b ->
      nth_error (gan_models w) a = Some ma -> nth_error (gan_models w) b = Some mb ->
      exists more, generator_variables mb = generator_variables ma ++ more;
  built_dis_vars : forall k m, nth_error (gan_models w) k = Some m ->
      Forall (fun v => exists l, v = dis_name k l) (discriminator_variables m);
  built_gen_last : forall m, py_last (gan_models w) = Ok m ->
      generator_variables m = trainable_variables "Generator" (graph w)
}.

End Build.

(** *** Losses *)

(** An auxiliary loss weight: [None] or a Python number.  The script only
    passes flags, so tensor-valued weights are not modelled. *)
Definition Weight : Type := option Q.

Definition Qlt_bool (x y : Q) : bool := negb (Qle_bool y x).

(** [tensorflow.contrib.gan.python.train._validate_aux_loss_weight]. *)
Definition _validate_aux_loss_weight (aux_loss_weight : Weight) (name : string)
  : result Weight :=
  match aux_loss_weight with
  | Some q =>
      if Qlt_bool q 0 then Err (ValueError (name ++ " must be greater than 0"))
      else Ok aux_loss_weight
  | None => Ok aux_loss_weight
  end.

(** [tensorflow.contrib.gan.python.train._use_aux_loss]. *)
Definition _use_aux_loss (aux_loss_weight : Weight) : bool :=
  match aux_loss_weight with
  | Some q => Qlt_bool 0 q
  | None => false
  end.

(** Truth value of a weight in a Python condition. *)
Definition truthy (w : Weight) : bool :=
  match w with
  | Some q => negb (Qeq_bool q 0)
  | None => false
  end.

Definition weight_value (w : Weight) : Q :=
  match w with Some q => q | None => 0%Q end.

(** A weight that is a negative number, a positive number, [None] or zero. *)
Definition negative (w : Weight) : Prop := exists q, w = Some q /\ (q < 0)%Q.
Definition positive (w : Weight) : Prop := exists q, w = Some q /\ (0 < q)%Q.
Definition zero_or_none (w : Weight) : Prop :=
  w = None \/ exists q, w = Some q /\ (q == 0)%Q.

(** The class of the object passed as [model], for [isinstance]. *)
Inductive ModelClass : Type :=
| StackGANModelClass
| GANModelClass
| InfoGANModelClass
| ACGANModelClass.

Definition is_InfoGANModel (c : ModelClass) : bool :=
  match c with InfoGANModelClass => true | _ => false end.

Definition is_ACGANModel (c : ModelClass) : bool :=
  match c with ACGANModelClass => true | _ => false end.

Record DiscriminatorLoss : Type := mkDiscriminatorLoss { discriminator_loss : Q }.
Record GeneratorLoss : Type := mkGeneratorLoss { generator_loss : Q }.

Definition loss_fn_type : Type := StackGANModel -> Q.
Definition tensor_pool_fn_type : Type := Tensor * GenInput -> Tensor * GenInput.

(** The loss functions of [tfgan.losses] and [tf.losses] and the helpers
    of [util]. *)
Class LossLibrary : Type := {
  wasserstein_discriminator_loss : loss_fn_type;
  wasserstein_generator_loss : loss_fn_type;
  wasserstein_gradient_penalty : StackGANModel -> Q -> Q;
  mutual_information_penalty : loss_fn_type;
  acgan_generator_loss : loss_fn_type;
  acgan_discriminator_loss : loss_fn_type;
  get_regularization_loss : string -> Q;
  get_regularization_loss_of : VariableScope -> Q;
  mean_squared_error : Tensor -> Tensor -> Q;
  _compute_mean_covariance : Tensor -> Tensor * Tensor;
  _tensor_pool_adjusted_model : StackGANModel -> option tensor_pool_fn_type -> StackGANModel }.

Section Losses.

Context (FLAGS : Flags) {L : LossLibrary}.

Local Open Scope Q_scope.

Notation "x <- r ;; k" := (rbind r (fun x => k))
  (at level 100, r at next level, right associativity).

(** The second loop of [color_loss], over [range(stack_depth - 1)]. *)
Fixpoint color_loss_pairs (means covariances : list Tensor) (indices : list nat)
    (total_color_loss : Q) : result Q :=
  match indices with
  | [] => Ok total_color_loss
  | i :: rest =>
      mu_i <- py_index means i ;;
      mu_j <- py_index means (i + 1) ;;
      let like_mu := FLAGS_color_loss FLAGS * mean_squared_error mu_i mu_j in
      cov_i <- py_index covariances i ;;
      cov_j <- py_index covariances (i + 1) ;;
      let like_cov := FLAGS_color_loss FLAGS * 5 * mean_squared_error cov_i cov_j in
      color_loss_pairs means covariances rest (total_color_loss + (like_mu + like_cov))
  end.

Definition color_loss (models : list StackGANModel) : result Q :=
  let stats := map (fun gan_model => _compute_mean_covariance (generated_data gan_model)) models in
  let means := map fst stats in
  let covariances := map snd stats in
  let stack_depth := FLAGS_stack_depth FLAGS in
  if (List.length means =? List.length covariances)%nat
     && (List.length covariances =? stack_depth)%nat then
    total_color_loss <- color_loss_pairs means covariances (range (stack_depth - 1)) 0 ;;
    Ok (FLAGS_color_loss FLAGS * total_color_loss)
  else Err AssertionError.

Definition dis_loss
    (model_class : ModelClass) (model : StackGANModel)
    (discriminator_loss_fn : loss_fn_type)
    (gradient_penalty_weight : Weight)
    (gradient_penalty_epsilon : Q)
    (mutual_information_penalty_weight : Weight)
    (aux_cond_generator_weight : Weight)
    (aux_cond_discriminator_weight : Weight)
    (tensor_pool_fn : option tensor_pool_fn_type) : result DiscriminatorLoss :=
  gradient_penalty_weight <-
    _validate_aux_loss_weight gradient_penalty_weight "gradient_penalty_weight" ;;
  mutual_information_penalty_weight <-
    _validate_aux_loss_weight mutual_information_penalty_weight "infogan_weight" ;;
  aux_cond_generator_weight <-
    _validate_aux_loss_weight aux_cond_generator_weight "aux_cond_generator_weight" ;;
  aux_cond_discriminator_weight <-
    _validate_aux_loss_weight aux_cond_discriminator_weight "aux_cond_discriminator_weight" ;;
  if _use_aux_loss mutual_information_penalty_weight
     && negb (is_InfoGANModel model_class) then
    Err (ValueError "When mutual_information_penalty_weight is provided, model must be an InfoGANModel")
  else if (_use_aux_loss aux_cond_generator_weight
           || _use_aux_loss aux_cond_discriminator_weight)
          && negb (is_ACGANModel model_class) then
    Err (ValueError "When aux_cond_generator_weight or aux_cond_discriminator_weight is provided, model must be an ACGANModel")
  else
    let dis_loss := discriminator_loss_fn (_tensor_pool_adjusted_model model tensor_pool_fn) in
    let dis_loss :=
      if _use_aux_loss gradient_penalty_weight then
        dis_loss + weight_value gradient_penalty_weight
                   * wasserstein_gradient_penalty model gradient_penalty_epsilon
      else dis_loss in
    let dis_loss :=
      if _use_aux_loss mutual_information_penalty_weight then
        dis_loss + weight_value mutual_information_penalty_weight
                   * mutual_information_penalty model
      else dis_loss in
    (* with [aux_cond_generator_weight] in use the code computes
       [acgan_generator_loss] here and leaves it out of the sum *)
    let dis_loss :=
      if _use_aux_loss aux_cond_discriminator_weight then
        dis_loss + weight_value aux_cond_discriminator_weight
                   * acgan_discriminator_loss model
      else dis_loss in
    (* [model.discriminator_scope] is a scope object, hence true *)
    let dis_reg_loss := get_regularization_loss (scope_name (discriminator_scope model)) in
    Ok (mkDiscriminatorLoss (dis_loss + dis_reg_loss)).

(** Evaluating the name [model] inside [gen_loss]: it is no parameter or
    local of [gen_loss], no local of [main] and no global of the module. *)
Definition lookup_model_in_gen_loss : result ModelClass := Err (NameError "model").

(** The value of [w and b]. *)
Inductive AndValue : Type :=
| LeftOperand (w : Weight)
| RightOperand (b : bool).

Definition _use_aux_loss_of (v : AndValue) : bool :=
  match v with
  | LeftOperand w => _use_aux_loss w
  | RightOperand b => b
  end.

(** The loop of [gen_loss] over [range(FLAGS.stack_depth)]. *)
Fixpoint gen_loss_stages (models : list StackGANModel) (generator_loss_fn : loss_fn_type)
    (mutual_information_penalty_weight aux_cond_generator_weight : Weight)
    (indices : list nat) (gen_loss : Q) : result Q :=
  match indices with
  | [] => Ok gen_loss
  | i :: rest =>
      model_i <- py_index models i ;;
      let gen_loss := gen_loss + generator_loss_fn model_i in
      let gen_loss :=
        if _use_aux_loss mutual_information_penalty_weight then
          gen_loss + weight_value mutual_information_penalty_weight
                     * mutual_information_penalty model_i
        else gen_loss in
      let gen_loss :=
        if _use_aux_loss aux_cond_generator_weight then
          gen_loss + weight_value aux_cond_generator_weight * acgan_generator_loss model_i
        else gen_loss in
      gen_loss_stages models generator_loss_fn mutual_information_penalty_weight
                      aux_cond_generator_weight rest gen_loss
  end.

Definition gen_loss
    (models : list StackGANModel)
    (generator_loss_fn : loss_fn_type)
    (mutual_information_penalty_weight : Weight)
    (aux_cond_generator_weight : Weight) : result GeneratorLoss :=
  mutual_information_penalty_weight <-
    _validate_aux_loss_weight mutual_information_penalty_weight "infogan_weight" ;;
  aux_cond_generator_weight <-
    _validate_aux_loss_weight aux_cond_generator_weight "aux_cond_generator_weight" ;;
  info_misconfigured <-
    (if _use_aux_loss mutual_information_penalty_weight then
       model <- lookup_model_in_gen_loss ;;
       Ok (negb (is_InfoGANModel model))
     else Ok false) ;;
  if (info_misconfigured : bool) then
    Err (ValueError "When mutual_information_penalty_weight is provided, model must be an InfoGANModel")
  else
    acgan_argument <-
      (if truthy aux_cond_generator_weight then
         model <- lookup_model_in_gen_loss ;;
         Ok (RightOperand (negb (is_ACGANModel model)))
       else Ok (LeftOperand aux_cond_generator_weight)) ;;
    if _use_aux_loss_of acgan_argument then
      Err (ValueError "When aux_cond_generator_weight or aux_cond_discriminator_weight is provided, model must be an ACGANModel")
    else
      color_loss_value <-
        (if Qlt_bool 0 (FLAGS_color_loss FLAGS) then color_loss models else Ok 0) ;;
      let gen_loss := 0 + color_loss_value in
      gen_loss <-
        gen_loss_stages models generator_loss_fn mutual_information_penalty_weight
                        aux_cond_generator_weight (range (FLAGS_stack_depth FLAGS)) gen_loss ;;
      last <- py_last models ;;
      (* [models[-1].generator_scope] is a scope object, hence true *)
      let gen_reg_loss := get_regularization_loss_of (generator_scope last) in
      Ok (mkGeneratorLoss (gen_loss + gen_reg_loss)).

(** The losses [main] instantiates. *)
Fixpoint dis_losses_of (models : list StackGANModel) (indices : list nat)
  : result (list DiscriminatorLoss) :=
  match indices with
  | [] => Ok []
  | i :: rest =>
      model_i <- py_index models i ;;
      current_stage_dis_loss <-
        dis_loss StackGANModelClass model_i wasserstein_discriminator_loss
                 (Some (FLAGS_gradient_penalty FLAGS)) (1 # 10000000000)
                 None None None None ;;
      others <- dis_losses_of models rest ;;
      Ok (current_stage_dis_loss :: others)
  end.

Definition gen_loss_tuple_of (models : list StackGANModel) : result GeneratorLoss :=
  gen_loss models wasserstein_generator_loss None None.

End Losses.

(** The (mean, covariance) pairs of the stages, in order. *)
Definition stage_statistics {L : LossLibrary} (models : list StackGANModel)
  : list (Tensor * Tensor) :=
  map (fun gan_model => _compute_mean_covariance (generated_data gan_model)) models.

(** The colour-consistency loss in the words of the specification: over
    the adjacent stage pairs, [w * MSE(mean_i, mean_j) + 5 * w * MSE(cov_i, cov_j)]
    summed, for the (mean, covariance) pairs of the stages in order. *)
Fixpoint specified_color_loss {L : LossLibrary} (w : Q) (stats : list (Tensor * Tensor)) : Q :=
  match stats with
  | s1 :: (s2 :: _) as rest =>
      (w * mean_squared_error (fst s1) (fst s2)
       + 5 * w * mean_squared_error (snd s1) (snd s2)
       + specified_color_loss w rest)%Q
  | _ => 0%Q
  end.

(** *** Train ops *)

(** The operation [training.create_train_op] returns. *)
Record TrainOp : Type := mkTrainOp {
  op_name_scope : string;
  op_total_loss : Q;
  op_variables_to_train : list string;
  op_update_ops : list string }.

Inductive Op : Type :=
| Train (t : TrainOp)
| GlobalStepInc.

(** The Python values that travel from the train-op builders to the
    hooks: operations, lists, and the named tuples of [namedtuples.py]. *)
#[local] Unset Elimination Schemes.
Inductive pyval : Type :=
| PyOp (o : Op)
| PyList (items : list pyval)
| PyNamedTuple (fields : list string) (items : list pyval).
#[local] Set Elimination Schemes.

Definition GANTrainOps_fields : list string :=
  ["generator_train_op"; "discriminator_train_op"; "global_step_inc_op"].

Definition not_among (excluded : list string) (field : string) : bool :=
  negb (existsb (String.eqb field) excluded).

(** [namedtuples.DiscriminatorTrainOps] and [namedtuples.GeneratorTrainOp]
    keep the fields of [tfgan.GANTrainOps] that are not excluded. *)
Definition DiscriminatorTrainOps_fields : list string :=
  filter (not_among ["generator_train_op"; "global_step_inc_op"]) GANTrainOps_fields.

Definition GeneratorTrainOp_fields : list string :=
  filter (not_among ["discriminator_train_op"; "global_step_inc_op"]) GANTrainOps_fields.

(** Calling a named tuple class with positional arguments. *)
Definition new_namedtuple (fields : list string) (args : list pyval) : result pyval :=
  if List.length args =? List.length fields then Ok (PyNamedTuple fields args)
  else Err (TypeError "__new__() got the wrong number of arguments").

Definition DiscriminatorTrainOps (args : list pyval) : result pyval :=
  new_namedtuple DiscriminatorTrainOps_fields args.

Definition GeneratorTrainOp (args : list pyval) : result pyval :=
  new_namedtuple GeneratorTrainOp_fields args.

Definition GANTrainOps (args : list pyval) : result pyval :=
  new_namedtuple GANTrainOps_fields args.

Fixpoint field_lookup (fields : list string) (items : list pyval) (name : string)
  : option pyval :=
  match fields, items with
  | f :: fs, v :: vs => if String.eqb f name then Some v else field_lookup fs vs name
  | _, _ => None
  end.

(** [v.name]. *)
Definition getattr (v : pyval) (name : string) : result pyval :=
  match v with
  | PyNamedTuple fields items =>
      match field_lookup fields items name with
      | Some x => Ok x
      | None => Err (TypeError "no such attribute")
      end
  | _ => Err (TypeError "no such attribute")
  end.

(** The values [for x in v] visits: a named tuple is a tuple. *)
Definition py_iter (v : pyval) : result (list pyval) :=
  match v with
  | PyList items => Ok items
  | PyNamedTuple _ items => Ok items
  | PyOp _ => Err (TypeError "object is not iterable")
  end.

Definition is_list_or_tuple (v : pyval) : bool :=
  match v with
  | PyOp _ => false
  | _ => true
  end.

(** The operations one [session.run(fetches)] executes. *)
Fixpoint fetched_ops (v : pyval) : list Op :=
  match v with
  | PyOp o => [o]
  | PyList items => flat_map fetched_ops items
  | PyNamedTuple _ items => flat_map fetched_ops items
  end.

(** [tensorflow.contrib.gan.python.train.RunTrainOpsHook]. *)
Record Hook : Type := mkHook {
  _train_ops : pyval;
  _train_steps : nat }.

Definition RunTrainOpsHook (train_ops : pyval) (train_steps : nat) : Hook :=
  mkHook (if is_list_or_tuple train_ops then train_ops else PyList [train_ops]) train_steps.

(** What a training step does, as the sequence of its [session.run]
    calls; each call is given by the operations it fetches together. *)
Definition SessionRun : Type := list Op.

Definition before_run (h : Hook) : list SessionRun :=
  repeat (fetched_ops (_train_ops h)) (_train_steps h).

(** [tfgan.GANTrainSteps]. *)
Record GANTrainSteps : Type := mkGANTrainSteps {
  generator_train_steps : nat;
  discriminator_train_steps : nat }.

Definition default_train_steps : GANTrainSteps := mkGANTrainSteps 1 1.

Section TrainOps.

Context (FLAGS : Flags).

(** The [UPDATE_OPS] collection of the finished graph. *)
Context (update_ops_collection : list string).

Notation "x <- r ;; k" := (rbind r (fun x => k))
  (at level 100, r at next level, right associativity).

Definition _get_dis_update_ops (dis_scope : string) : list string :=
  let update_ops := update_ops_collection in
  let all_dis_ops := filter (String.prefix dis_scope) update_ops_collection in
  filter (fun o => existsb (String.eqb o) update_ops) all_dis_ops.

Definition _get_gen_update_ops (gen_scope : string) : list string :=
  let update_ops := update_ops_collection in
  let all_gen_ops := filter (String.prefix gen_scope) update_ops_collection in
  filter (fun o => existsb (String.eqb o) update_ops) all_gen_ops.

Definition generator_train_op (model : StackGANModel) (loss : GeneratorLoss) : result pyval :=
  let gen_update_ops := _get_gen_update_ops (scope_name (generator_scope model)) in
  let gen_train_op :=
    mkTrainOp "generator_train" (generator_loss loss) (generator_variables model)
              gen_update_ops in
  GeneratorTrainOp [PyOp (Train gen_train_op)].

(** The first loop of [discriminator_train_ops]. *)
Fixpoint dis_update_ops_of (models : list StackGANModel) (indices : list nat)
  : result (list (list string)) :=
  match indices with
  | [] => Ok []
  | i :: rest =>
      model_i <- py_index models i ;;
      let current_dis_update_ops :=
        _get_dis_update_ops (scope_name (discriminator_scope model_i)) in
      others <- dis_update_ops_of models rest ;;
      Ok (current_dis_update_ops :: others)
  end.

(** The second loop of [discriminator_train_ops]. *)
Fixpoint disc_train_ops_of (models : list StackGANModel) (losses : list DiscriminatorLoss)
    (dis_update_ops : list (list string)) (indices : list nat) : result (list Op) :=
  match indices with
  | [] => Ok []
  | i :: rest =>
      loss_i <- py_index losses i ;;
      model_i <- py_index models i ;;
      update_ops_i <- py_index dis_update_ops i ;;
      let current_disc_train_op :=
        mkTrainOp "discriminator_train" (discriminator_loss loss_i)
                  (discriminator_variables model_i) update_ops_i in
      others <- disc_train_ops_of models losses dis_update_ops rest ;;
      Ok (Train current_disc_train_op :: others)
  end.

Definition discriminator_train_ops (models : list StackGANModel)
    (losses : list DiscriminatorLoss) : result pyval :=
  dis_update_ops <- dis_update_ops_of models (range (FLAGS_stack_depth FLAGS)) ;;
  disc_train_ops <-
    disc_train_ops_of models losses dis_update_ops (range (FLAGS_stack_depth FLAGS)) ;;
  DiscriminatorTrainOps [PyList (map PyOp disc_train_ops)].

(** [train_ops] as [main] binds it. *)
Definition train_ops_of (models : list StackGANModel) (dis_losses : list DiscriminatorLoss)
    (gen_loss_tuple : GeneratorLoss) : result pyval :=
  last <- py_last models ;;
  gen_train_op <- generator_train_op last gen_loss_tuple ;;
  disc_train_ops <- discriminator_train_ops models dis_losses ;;
  GANTrainOps [gen_train_op; disc_train_ops; PyOp GlobalStepInc].

(** The function [get_hooks] that [get_sequential_train_hooks(train_steps)]
    returns. *)
Definition get_hooks (train_steps : GANTrainSteps) (train_ops : pyval) : result (list Hook) :=
  discriminator_train_op <- getattr train_ops "discriminator_train_op" ;;
  visited <- py_iter discriminator_train_op ;;
  let hooks :=
    map (fun train_op => RunTrainOpsHook train_op (discriminator_train_steps train_steps))
        visited in
  generator_train_op <- getattr train_ops "generator_train_op" ;;
  let generator_hook :=
    RunTrainOpsHook generator_train_op (generator_train_steps train_steps) in
  Ok (hooks ++ [generator_hook]).

(** One iteration of the loop of [tfgan.gan_train]: the hooks run in list
    order before the step operation, [train_ops.global_step_inc_op]. *)
Definition training_step (train_steps : GANTrainSteps) (train_ops : pyval)
  : result (list SessionRun) :=
  new_hooks <- get_hooks train_steps train_ops ;;
  global_step_inc_op <- getattr train_ops "global_step_inc_op" ;;
  Ok (flat_map before_run new_hooks ++ [fetched_ops global_step_inc_op]).

(** *** The operations and the value of [train_ops], by name *)

(** The train operation of the discriminator of one stage. *)
Definition stage_train_op (model : StackGANModel) (loss : DiscriminatorLoss) : Op :=
  Train (mkTrainOp "discriminator_train" (discriminator_loss loss)
           (discriminator_variables model)
           (_get_dis_update_ops (scope_name (discriminator_scope model)))).

(** The generator train operation, built from the last stage model. *)
Definition stack_train_op (last : StackGANModel) (loss : GeneratorLoss) : Op :=
  Train (mkTrainOp "generator_train" (generator_loss loss) (generator_variables last)
           (_get_gen_update_ops (scope_name (generator_scope last)))).

(** The value [main] binds to [train_ops]. *)
Definition train_ops_value (gen_op : Op) (disc_ops : list Op) : pyval :=
  PyNamedTuple GANTrainOps_fields
    [PyNamedTuple GeneratorTrainOp_fields [PyOp gen_op];
     PyNamedTuple DiscriminatorTrainOps_fields [PyList (map PyOp disc_ops)];
     PyOp GlobalStepInc].

End TrainOps.

(** The schedule in the words of the specification: every discriminator
    stage operation in stage order, each the configured number of times,
    then the generator operation the configured number of times, then the
    increment of the global step; every operation in a run of its own. *)
Definition specified_training_step (train_steps : GANTrainSteps)
    (disc_ops : list Op) (gen_op : Op) : list SessionRun :=
  flat_map (fun d => repeat [d] (discriminator_train_steps train_steps)) disc_ops
  ++ repeat [gen_op] (generator_train_steps train_steps)
  ++ [[GlobalStepInc]].

End TrainScript.

(** ** [tfstackgan/python/estimator/python/gan_estimator_impl.py] *)

Module Estimator.

Inductive ModeKeys : Type := TRAIN | EVAL | PREDICT.

(** An element of the list a generator of the estimator receives. *)
Inductive PyItem : Type :=
| IBool (b : bool)
| ITensor (t : Tensor).

Definition _convert_tensor_or_l_or_d (xs : list Tensor) : list PyItem := map ITensor xs.

Definition net_generator_type : Type := list PyItem -> nat -> bool -> NetCall (Tensor * Tensor).

(** A network function as the estimator receives it: whether its
    signature has an argument called [mode], and the function. *)
Record GeneratorFn : Type := mkGeneratorFn {
  gen_has_mode_arg : bool;
  gen_call : option ModeKeys -> net_generator_type }.

Record DiscriminatorFn : Type := mkDiscriminatorFn {
  dis_has_mode_arg : bool;
  dis_call : option ModeKeys -> Tensor -> Tensor -> bool -> NetCall Tensor }.

(** [functools.partial(fn, mode=mode)] when [fn] has the argument. *)
Definition generator_with_mode (fn : GeneratorFn) (mode : ModeKeys) : GeneratorFn :=
  if gen_has_mode_arg fn then mkGeneratorFn false (fun _ => gen_call fn (Some mode)) else fn.

Definition discriminator_with_mode (fn : DiscriminatorFn) (mode : ModeKeys) : DiscriminatorFn :=
  if dis_has_mode_arg fn then mkDiscriminatorFn false (fun _ => dis_call fn (Some mode)) else fn.

(** The record [tfstackgan.python.namedtuples.StackGANModel] of the
    estimator, with the fields [_make_prediction_gan_model] fills in. *)
Record StackGANModel : Type := mkStackGANModel {
  generator_inputs : list PyItem;
  generated_data : Tensor;
  generator_variables : list string;
  generator_scope : VariableScope;
  generator_fn : GeneratorFn;
  generator_hidden_code : Tensor;
  stage : nat;
  real_data : option Tensor;
  discriminator_real_outputs : option Tensor;
  discriminator_gen_outputs : option Tensor;
  discriminator_variables : option (list string);
  discriminator_scope : option VariableScope;
  discriminator_fn : option DiscriminatorFn;
  disc_real_outputs_uncond : option Tensor;
  disc_gen_outputs_uncond : option Tensor;
  mu : Tensor;
  logvar : Tensor }.

(** The graph and the list object bound to [gan_models], which the input
    closures receive by reference. *)
Record World : Type := mkWorld {
  graph : Graph;
  gan_models : list StackGANModel }.

Definition B : Type -> Type := M World.

Definition empty_world : World := mkWorld [] [].

Definition call_in_scope {A} (scope : string) (c : NetCall A) : B A :=
  fun w => Ok (net_out c,
               mkWorld (get_variables scope (net_vars c) (graph w)) (gan_models w)).

Definition append_model (m : StackGANModel) : B unit :=
  modify (fun w => mkWorld (graph w) (gan_models w ++ [m])).

(** [gan_models = []]. *)
Definition reset_models : B unit :=
  modify (fun w => mkWorld (graph w) []).

(** The value of [labels]: [None], one tensor, or a list of tensors. *)
Inductive Labels : Type :=
| NoLabels
| LabelTensor (t : Tensor)
| LabelList (ts : list Tensor).

Definition is_None (l : Labels) : bool :=
  match l with NoLabels => true | _ => false end.

(** What the functions of this file return or pass around where Python
    does not fix the type: a function object or a 3-tuple. *)
Inductive PyObject : Type :=
| Function (call : B (bool * Tensor * Tensor))
| Tuple3 (a : bool) (b c : Tensor).

Definition unpack_error : pyerr := TypeError "cannot unpack non-iterable function object".

(** [x, y, z = o]. *)
Definition unpack3 (o : PyObject) : result (bool * Tensor * Tensor) :=
  match o with
  | Function _ => Err unpack_error
  | Tuple3 a b c => Ok (a, b, c)
  end.

(** The keyword arguments [_make_gan_models] passes to
    [tfstackgan.python.train.gan_model]. *)
Record GanModelKwargs : Type := mkKwargs {
  kw_discriminator_inputs : Labels * Tensor;
  kw_generator_inputs : PyObject;
  kw_stage : nat;
  kw_generator_super_scope : option VariableScope;
  kw_mu : Tensor;
  kw_logvar : Tensor;
  kw_apply_batch_norm : bool;
  kw_check_shapes : bool }.

(** What this file imports and calls but does not define: [networks.augment],
    [random_ops.random_normal], the stage builder
    [tfstackgan.python.train.gan_model], subscripting a label tensor, and
    the head's [create_estimator_spec].  The stage builder adds to the
    graph; the list [gan_models] it only reads, through the input closure. *)
Class Collaborators : Type := {
  augment : Tensor -> NetCall (Tensor * Tensor * Tensor);
  random_normal : list nat -> Tensor;
  gan_model : GeneratorFn -> DiscriminatorFn -> GanModelKwargs ->
              World -> result (StackGANModel * Graph);
  tensor_getitem : Tensor -> nat -> result Tensor;
  EstimatorSpec : Type;
  create_estimator_spec : ModeKeys -> list StackGANModel + StackGANModel -> result EstimatorSpec }.

Section Builders.

Context {C : Collaborators}.

Local Open Scope build_scope.

(** [if not super_scope]: [None] and the empty string both create the
    scope. *)
Definition _get_or_create_gen_super_scope (super_scope : option VariableScope)
  : VariableScope :=
  match super_scope with
  | None => mkScope "Generator" "Generator/"
  | Some sc => sc
  end.

(** [_get_generator_input_for_stage(models, stage, noise_sample, conditioning)]
    returns the closure [get_input]; [models] is the list [gan_models]. *)
Definition get_input (stage : nat) (noise_sample conditioning : Tensor)
  : B (bool * Tensor * Tensor) :=
  let is_init_stage := negb (0 <? stage) in
  noise <- (if is_init_stage then ret noise_sample
            else models <- gets gan_models ;;
                 prev <- lift (py_index models (stage - 1)) ;;
                 ret (generator_hidden_code prev)) ;;
  ret (is_init_stage, noise, conditioning).

Definition _get_generator_input_for_stage (stage : nat) (noise_sample conditioning : Tensor)
  : PyObject :=
  Function (get_input stage noise_sample conditioning).

(** A call of the stage builder. *)
Definition call_gan_model (generator_fn : GeneratorFn) (discriminator_fn : DiscriminatorFn)
    (kwargs : GanModelKwargs) : B StackGANModel :=
  fun w =>
    match gan_model generator_fn discriminator_fn kwargs w with
    | Ok (m, g) => Ok (m, mkWorld g (gan_models w))
    | Err e => Err e
    end.

(** [discriminator_inputs[stage]]. *)
Definition labels_getitem (l : Labels) (i : nat) : result Labels :=
  match l with
  | NoLabels => Err (TypeError "'NoneType' object is not subscriptable")
  | LabelTensor t => rbind (tensor_getitem t i) (fun x => Ok (LabelTensor x))
  | LabelList ts => rbind (py_index ts i) (fun x => Ok (LabelTensor x))
  end.

(** The super scope argument: [gan_models[-1].generator_scope if stage > 0
    else None]. *)
Definition previous_generator_scope (stage : nat) : B (option VariableScope) :=
  if 0 <? stage then
    models <- gets gan_models ;;
    last <- lift (py_last models) ;;
    ret (Some (generator_scope last))
  else ret None.

(** The keyword arguments of one iteration of the loop of
    [_make_gan_models]. *)
Definition stage_kwargs (stack_depth : nat) (discriminator_inputs : Labels)
    (noise augmented_conditioning mu logvar : Tensor) (apply_batch_norm : bool)
    (stage : nat) : B GanModelKwargs :=
  real <- lift (if stack_depth =? 1 then Ok discriminator_inputs
                else labels_getitem discriminator_inputs stage) ;;
  let generator_inputs := _get_generator_input_for_stage stage noise augmented_conditioning in
  generator_super_scope <- previous_generator_scope stage ;;
  ret (mkKwargs (real, mu) generator_inputs stage generator_super_scope mu logvar
                apply_batch_norm false).

Fixpoint make_stages (stack_depth : nat) (generator_fn : GeneratorFn)
    (discriminator_fn : DiscriminatorFn) (discriminator_inputs : Labels)
    (noise augmented_conditioning mu logvar : Tensor) (apply_batch_norm : bool)
    (stages : list nat) : B unit :=
  match stages with
  | [] => ret tt
  | stage :: rest =>
      kwargs <- stage_kwargs stack_depth discriminator_inputs noise augmented_conditioning
                             mu logvar apply_batch_norm stage ;;
      current_model <- call_gan_model generator_fn discriminator_fn kwargs ;;
      _ <- append_model current_model ;;
      make_stages stack_depth generator_fn discriminator_fn discriminator_inputs
                  noise augmented_conditioning mu logvar apply_batch_norm rest
  end.

Definition _make_gan_models (stack_depth batch_size noise_dim : nat)
    (generator_fn : GeneratorFn) (discriminator_fn : DiscriminatorFn)
    (discriminator_inputs : Labels) (generator_inputs : Tensor)
    (generator_scope : VariableScope) (apply_batch_norm : bool) (mode : ModeKeys)
  : B (list StackGANModel) :=
  let generator_fn := generator_with_mode generator_fn mode in
  let discriminator_fn := discriminator_with_mode discriminator_fn mode in
  let noise := random_normal [batch_size; noise_dim] in
  let text_embedding := generator_inputs in
  '(augmented_conditioning, mu, logvar) <- call_in_scope "" (augment text_embedding) ;;
  _ <- reset_models ;;
  _ <- make_stages stack_depth generator_fn discriminator_fn discriminator_inputs
                   noise augmented_conditioning mu logvar apply_batch_norm
                   (range stack_depth) ;;
  gets gan_models.

Definition _make_train_gan_models (stack_depth batch_size noise_dim : nat)
    (generator_fn : GeneratorFn) (discriminator_fn : DiscriminatorFn)
    (discriminator_inputs : Labels) (generator_inputs : Tensor)
    (generator_scope : VariableScope) (apply_batch_norm : bool)
  : B (list StackGANModel) :=
  _make_gan_models stack_depth batch_size noise_dim generator_fn discriminator_fn
                   discriminator_inputs generator_inputs generator_scope
                   apply_batch_norm TRAIN.

Definition _make_eval_gan_models (stack_depth batch_size noise_dim : nat)
    (generator_fn : GeneratorFn) (discriminator_fn : DiscriminatorFn)
    (discriminator_inputs : Labels) (generator_inputs : Tensor)
    (generator_scope : VariableScope) (apply_batch_norm : bool)
  : B (list StackGANModel) :=
  _make_gan_models stack_depth batch_size noise_dim generator_fn discriminator_fn
                   discriminator_inputs generator_inputs generator_scope
                   apply_batch_norm EVAL.

(** The resolution handed to the generator of a stage in prediction. *)
Definition final_size (stage : nat) : nat := 2 ^ (6 + stage).

(** One iteration of the loop of [_make_prediction_gan_model]; it returns
    the tensor the name [noise] is bound to afterwards. *)
Definition predict_stage (stack_depth : nat) (generator_fn : GeneratorFn)
    (apply_batch_norm : bool) (augmented_conditioning mu logvar : Tensor)
    (stage : nat) (noise : Tensor) : B Tensor :=
  let current_stage_generator_scope := ("Generator_stage_" ++ str stage)%string in
  generator_super_scope <- previous_generator_scope stage ;;
  let generator_super_scope := _get_or_create_gen_super_scope generator_super_scope in
  '(is_init_stage, noise, conditioning) <-
     lift (unpack3 (_get_generator_input_for_stage stage noise augmented_conditioning)) ;;
  let generator_inputs := _convert_tensor_or_l_or_d [noise; conditioning] in
  let generator_inputs := [IBool is_init_stage] ++ generator_inputs in
  '(generated_data, generator_hidden_code) <-
     call_in_scope (scoped (scope_name generator_super_scope) current_stage_generator_scope)
       (gen_call generator_fn None generator_inputs (final_size stage) apply_batch_norm) ;;
  generator_variables <-
     gets (fun w => trainable_variables (scope_name generator_super_scope) (graph w)) ;;
  let current_model :=
    mkStackGANModel generator_inputs generated_data generator_variables
                    generator_super_scope generator_fn generator_hidden_code
                    stack_depth
                    None None None None None None None None mu logvar in
  _ <- append_model current_model ;;
  ret noise.

Fixpoint predict_stages (stack_depth : nat) (generator_fn : GeneratorFn)
    (apply_batch_norm : bool) (augmented_conditioning mu logvar : Tensor)
    (stages : list nat) (noise : Tensor) : B unit :=
  match stages with
  | [] => ret tt
  | stage :: rest =>
      noise <- predict_stage stack_depth generator_fn apply_batch_norm
                             augmented_conditioning mu logvar stage noise ;;
      predict_stages stack_depth generator_fn apply_batch_norm augmented_conditioning
                     mu logvar rest noise
  end.

Definition _make_prediction_gan_model (stack_depth batch_size noise_dim : nat)
    (generator_fn : GeneratorFn) (generator_inputs : Tensor)
    (generator_scope : VariableScope) (apply_batch_norm : bool) : B StackGANModel :=
  let generator_fn := generator_with_mode generator_fn PREDICT in
  let text_embedding := generator_inputs in
  '(augmented_conditioning, mu, logvar) <- call_in_scope "" (augment text_embedding) ;;
  let noise := random_normal [batch_size; noise_dim] in
  _ <- reset_models ;;
  _ <- predict_stages stack_depth generator_fn apply_batch_norm augmented_conditioning
                      mu logvar (range stack_depth) noise ;;
  models <- gets gan_models ;;
  lift (py_last models).

(** What [_gan_model_fn] binds to [gan_models] and hands to the head as
    [logits]: the list of stage models, or the single prediction model. *)
Definition _gan_model_fn_models (stack_depth batch_size noise_dim : nat)
    (features : Tensor) (labels : Labels) (mode : ModeKeys)
    (generator_fn : GeneratorFn) (discriminator_fn : DiscriminatorFn)
    (generator_scope_name : option VariableScope) (apply_batch_norm : bool)
  : B (list StackGANModel + StackGANModel) :=
  let discriminator_inputs := labels in
  let generator_inputs := features in
  let generator_scope_name := _get_or_create_gen_super_scope generator_scope_name in
  match mode with
  | TRAIN =>
      gan_models <- _make_train_gan_models stack_depth batch_size noise_dim generator_fn
                      discriminator_fn discriminator_inputs generator_inputs
                      generator_scope_name apply_batch_norm ;;
      ret (inl gan_models)
  | EVAL =>
      gan_models <- _make_eval_gan_models stack_depth batch_size noise_dim generator_fn
                      discriminator_fn discriminator_inputs generator_inputs
                      generator_scope_name apply_batch_norm ;;
      ret (inl gan_models)
  | PREDICT =>
      if negb (is_None discriminator_inputs) then
        raise (ValueError "`labels` must be `None` when mode is `predict`.")
      else
        gan_model <- _make_prediction_gan_model stack_depth batch_size noise_dim
                       generator_fn generator_inputs generator_scope_name
                       apply_batch_norm ;;
        ret (inr gan_model)
  end.

Definition _gan_model_fn (stack_depth batch_size noise_dim : nat)
    (features : Tensor) (labels : Labels) (mode : ModeKeys)
    (generator_fn : GeneratorFn) (discriminator_fn : DiscriminatorFn)
    (generator_scope_name : option VariableScope) (apply_batch_norm : bool)
  : B EstimatorSpec :=
  gan_models <- _gan_model_fn_models stack_depth batch_size noise_dim features labels mode
                  generator_fn discriminator_fn generator_scope_name apply_batch_norm ;;
  lift (create_estimator_spec mode gan_models).

(** What the loop of [_make_gan_models] appends: one result of the stage_index
    builder per stage_index, each called with [stage_index] the position and
    [check_shapes] off. *)
Definition built_by (generator_fn : GeneratorFn) (discriminator_fn : DiscriminatorFn)
    (noise augmented : Tensor) (before : list StackGANModel) (m : StackGANModel) : Prop :=
  exists kw wa g,
    gan_model generator_fn discriminator_fn kw wa = Ok (m, g)
    /\ gan_models wa = before
    /\ kw_stage kw = List.length before
    /\ kw_check_shapes kw = false
    /\ kw_generator_inputs kw = Function (get_input (List.length before) noise augmented).

End Builders.

End Estimator.

(** ** [train.py]: from the stack to the training loop *)

Module TrainMain.
Import TrainScript.

(** The sum of [f] over a list of stage models. *)
Definition Qsum {A} (f : A -> Q) (xs : list A) : Q :=
  fold_right (fun x acc => (f x + acc)%Q) 0%Q xs.

Section Main.

Context (FLAGS : Flags) {C : Collaborators} {L : LossLibrary}.

(** The [UPDATE_OPS] collection of the finished graph. *)
Context (update_ops_collection : list string).

Notation "x <- r ;; k" := (rbind r (fun x => k))
  (at level 100, r at next level, right associativity).

(** What [main] does with the stack once it is built: the losses, the
    train operations and, with the hooks of
    [get_sequential_train_hooks()], one iteration of the loop of
    [tfgan.gan_train]. *)
Definition train_with (gan_models : list StackGANModel) : result (list SessionRun) :=
  dis_losses <- dis_losses_of FLAGS gan_models (range (FLAGS_stack_depth FLAGS)) ;;
  (* [with tf.variable_scope(gan_models[-1].generator_scope)] *)
  _ <- py_last gan_models ;;
  gen_loss_tuple <- gen_loss_tuple_of FLAGS gan_models ;;
  train_ops <- train_ops_of FLAGS update_ops_collection gan_models dis_losses gen_loss_tuple ;;
  training_step default_train_steps train_ops.

(** The discriminator loss of one stage in the words of [main]: the
    Wasserstein loss, the gradient penalty weighted by
    [FLAGS.gradient_penalty], and the regularization loss of the stage's
    discriminator scope. *)
Definition stage_dis_loss (m : StackGANModel) : Q :=
  (wasserstein_discriminator_loss (_tensor_pool_adjusted_model m None)
   + FLAGS_gradient_penalty FLAGS * wasserstein_gradient_penalty m (1 # 10000000000)
   + get_regularization_loss (scope_name (discriminator_scope m)))%Q.

(** [main]: the stack, then the rest. *)
Definition main : B (list SessionRun) :=
  bind (build_stack FLAGS) (fun gan_models => lift (train_with gan_models)).

End Main.

End TrainMain.

(** ** The estimator: what each stage builder call receives, and summaries *)

Module EstimatorCalls.
Import Estimator.

(** The real data of a stage: [discriminator_inputs if stack_depth == 1
    else discriminator_inputs[stage]]. *)
Definition stage_real_data {C : Collaborators} (stack_depth : nat)
    (discriminator_inputs : Labels) (stage : nat) : result Labels :=
  if stack_depth =? 1 then Ok discriminator_inputs
  else labels_getitem discriminator_inputs stage.

(** The keyword arguments of the stage that follows the models [before]. *)
Definition kwargs_after (before : list StackGANModel) (real : Labels)
    (noise augmented_conditioning mu logvar : Tensor) (apply_batch_norm : bool)
  : GanModelKwargs :=
  mkKwargs (real, mu)
           (Function (get_input (List.length before) noise augmented_conditioning))
           (List.length before)
           (match py_last before with
            | Ok last => Some (generator_scope last)
            | Err _ => None
            end)
           mu logvar apply_batch_norm false.

End EstimatorCalls.

Module Summaries.

(** [SummaryType], an [IntEnum]. *)
Inductive SummaryType : Type := NONE | VARIABLES | IMAGES | IMAGE_COMPARISON.

Definition SummaryType_value (s : SummaryType) : nat :=
  match s with
  | NONE => 0
  | VARIABLES => 1
  | IMAGES => 2
  | IMAGE_COMPARISON => 3
  end.

(** The functions of [tfgan_summaries] that [_summary_type_map] holds. *)
Inductive SummaryFn : Type :=
| add_gan_model_summaries
| add_gan_model_image_summaries
| add_image_comparison_summaries.

(** [_summary_type_map.get]: the dictionary has no key [NONE]. *)
Definition _summary_type_map (s : SummaryType) : option SummaryFn :=
  match s with
  | VARIABLES => Some add_gan_model_summaries
  | IMAGES => Some add_gan_model_image_summaries
  | IMAGE_COMPARISON => Some add_image_comparison_summaries
  | NONE => None
  end.

(** The value of [add_summaries]: [None], a single [SummaryType], or a
    list (or tuple) of them. *)
Inductive AddSummaries : Type :=
| NoSummaries
| OneSummary (s : SummaryType)
| ManySummaries (l : list SummaryType).

(** [bool(add_summaries)]. *)
Definition truthy (a : AddSummaries) : bool :=
  match a with
  | NoSummaries => false
  | OneSummary s => negb (SummaryType_value s =? 0)
  | ManySummaries l => negb (List.length l =? 0)
  end.

(** How the summary block of one stage ends: with the summary functions
    it applied to the stage model and the value [add_summaries] is bound
    to afterwards, or with the [KeyError] of a missing key, after the
    functions applied before it. *)
Inductive Outcome : Type :=
| Summarized (applied : list SummaryFn) (add_summaries : AddSummaries)
| KeyError (applied : list SummaryFn) (key : SummaryType).

(** [for summary_type in add_summaries: _summary_type_map[summary_type](current_model)]. *)
Fixpoint apply_summaries (types : list SummaryType) (applied : list SummaryFn)
  : list SummaryFn + list SummaryFn * SummaryType :=
  match types with
  | [] => inl applied
  | summary_type :: rest =>
      match _summary_type_map summary_type with
      | Some f => apply_summaries rest (applied ++ [f])
      | None => inr (applied, summary_type)
      end
  end.

(** The summary block at the end of one iteration of the loop of
    [_make_gan_models]. *)
Definition add_stage_summaries (add_summaries : AddSummaries) : Outcome :=
  if truthy add_summaries then
    let types :=
      match add_summaries with
      | ManySummaries l => l
      | OneSummary s => [s]
      | NoSummaries => []
      end in
    match apply_summaries types [] with
    | inl applied => Summarized applied (ManySummaries types)
    | inr (applied, key) => KeyError applied key
    end
  else Summarized [] add_summaries.

(** The summary blocks of the stages [0 .. n-1], for stage builder calls
    that return: the functions applied at each stage so far, and the
    stage and key of the [KeyError] that stopped the loop, if any. *)
Fixpoint stage_summaries (n : nat) (add_summaries : AddSummaries)
  : list (list SummaryFn) * option SummaryType :=
  match n with
  | 0 => ([], None)
  | S n' =>
      match add_stage_summaries add_summaries with
      | Summarized applied add_summaries' =>
          let '(later, err) := stage_summaries n' add_summaries' in
          (applied :: later, err)
      | KeyError applied key => ([applied], Some key)
      end
  end.

End Summaries.

(** ** [networks.py], at the level of static shapes

    A tensor is represented by its static shape, of known rank; a [None]
    dimension is an unknown size.  The layers of [slim] follow the shape
    rules of TensorFlow 1.x: a transposed convolution multiplies the
    spatial sizes by the stride and, with [VALID] padding, adds the kernel
    size less the stride; a convolution divides them by the stride,
    rounding up; both need a rank-4 input whose channel dimension is
    known.  The value of [log] is a [float32]; what the session computes
    for a positive argument enters as [log2f]. *)

Module Networks.

Inductive exn : Type :=
| Value_error (msg : string)
| Key_error (key : string)
| Index_error
| Overflow_error.

Inductive outcome (A : Type) : Type :=
| Returns (a : A)
| Raises (e : exn).

Arguments Returns {A} a.
Arguments Raises {A} e.

Definition obind {A B} (r : outcome A) (k : A -> outcome B) : outcome B :=
  match r with
  | Returns a => k a
  | Raises e => Raises e
  end.

Declare Scope net_scope.
Delimit Scope net_scope with net.
Notation "x <- r ;; k" := (obind r (fun x => k))
  (at level 100, r at next level, right associativity) : net_scope.
Notation "' pat <- r ;; k" := (obind r (fun x => match x with pat => k end))
  (at level 100, pat pattern, r at next level, right associativity) : net_scope.

Definition Shape : Type := list (option nat).

(** What a generator receives: one tensor or a list of tensors. *)
Inductive Inputs : Type :=
| One (t : Shape)
| Several (ts : list Shape).

Inductive Padding : Type := SAME | VALID.

(** The keys of [end_points]: ['deconv%i' % i], ['conv%i' % i], ['logits']. *)
Inductive Key : Type :=
| deconv (i : Z)
| conv (i : Z)
| logits.

Definition Key_eqb (a b : Key) : bool :=
  match a, b with
  | deconv i, deconv j => Z.eqb i j
  | conv i, conv j => Z.eqb i j
  | logits, logits => true
  | _, _ => false
  end.

(** ['%i' % i]. *)
Definition format_i (i : Z) : string :=
  match i with
  | Z0 => "0"
  | Zpos p => str (Pos.to_nat p)
  | Zneg p => ("-" ++ str (Pos.to_nat p))%string
  end.

Definition Key_name (k : Key) : string :=
  match k with
  | deconv i => ("deconv" ++ format_i i)%string
  | conv i => ("conv" ++ format_i i)%string
  | logits => "logits"
  end.

(** A dictionary: the latest assignment of a key first. *)
Definition EndPoints : Type := list (Key * Shape).

Definition setitem (end_points : EndPoints) (k : Key) (v : Shape) : EndPoints :=
  (k, v) :: end_points.

Fixpoint getitem (end_points : EndPoints) (k : Key) : outcome Shape :=
  match end_points with
  | [] => Raises (Key_error (Key_name k))
  | (k', v) :: rest => if Key_eqb k' k then Returns v else getitem rest k
  end.

(** A [float32] value: a rational, or minus infinity. *)
Inductive float : Type :=
| NegInf
| Finite (q : Q).

(** [range(a, b)]. *)
Definition zrange (a b : Z) : list Z :=
  map (fun k => (a + Z.of_nat k)%Z) (seq 0 (Z.to_nat (b - a))).

(** [shape[i]] for [i >= 0], and [shape[-1]]. *)
Definition get_dim (s : Shape) (i : nat) : outcome (option nat) :=
  match nth_error s i with
  | Some d => Returns d
  | None => Raises Index_error
  end.

Definition get_last_dim (s : Shape) : outcome (option nat) :=
  match s with
  | [] => Raises Index_error
  | _ => get_dim s (List.length s - 1)
  end.

(** [tf.expand_dims(t, 1)]. *)
Definition expand_dims_1 (s : Shape) : outcome Shape :=
  match s with
  | [] => Raises (Value_error "dim 1 not in the interval [-1, 0]")
  | d :: rest => Returns (d :: Some 1 :: rest)
  end.

Definition mul_dim (d : option nat) (m : nat) : option nat :=
  match d with
  | Some n => Some (n * m)
  | None => None
  end.

(** [tf.tile(t, multiples)], the multiples being dimensions. *)
Fixpoint tile_dims (s : Shape) (multiples : list nat) : Shape :=
  match s, multiples with
  | d :: s', m :: ms => mul_dim d m :: tile_dims s' ms
  | _, _ => []
  end.

Definition tile (s : Shape) (multiples : list (option nat)) : outcome Shape :=
  match fold_right (fun m acc => match m, acc with
                                 | Some n, Some l => Some (n :: l)
                                 | _, _ => None
                                 end) (Some []) multiples with
  | None => Raises (Value_error "Cannot convert an unknown Dimension to a Tensor")
  | Some ms =>
      if List.length s =? List.length ms then Returns (tile_dims s ms)
      else Raises (Value_error "Shape must be rank 4")
  end.

Definition add_dim (x y : option nat) : option nat :=
  match x, y with
  | Some a, Some b => Some (a + b)
  | _, _ => None
  end.

(** [tf.concat([a, b], -1)]. *)
Fixpoint concat_dims (a b : Shape) : option Shape :=
  match a, b with
  | [x], [y] => Some [add_dim x y]
  | x :: a', y :: b' =>
      if dim_compatible x y then
        match concat_dims a' b' with
        | Some rest => Some (merge_dim x y :: rest)
        | None => None
        end
      else None
  | _, _ => None
  end.

Definition concat_last (a b : Shape) : outcome Shape :=
  match concat_dims a b with
  | Some s => Returns s
  | None => Raises (Value_error "Dimensions of the inputs to concat should match")
  end.

(** [utils.deconv_output_length] and [utils.conv_output_length]. *)
Definition deconv_output_length (input_length : option nat) (filter_size : nat)
    (padding : Padding) (stride : nat) : option nat :=
  match input_length with
  | None => None
  | Some n =>
      Some (match padding with
            | VALID => n * stride + Nat.max (filter_size - stride) 0
            | SAME => n * stride
            end)
  end.

Definition conv_output_length (input_length : option nat) (filter_size : nat)
    (padding : Padding) (stride : nat) : option nat :=
  match input_length with
  | None => None
  | Some n =>
      Some (match padding with
            | VALID => (n - filter_size + 1 + stride - 1) / stride
            | SAME => (n + stride - 1) / stride
            end)
  end.

(** [slim.conv2d_transpose(net, num_outputs, kernel_size, stride, padding)]. *)
Definition conv2d_transpose (net : Shape) (num_outputs kernel_size stride : nat)
    (padding : Padding) : outcome Shape :=
  match net with
  | [b; h; w; c] =>
      match c with
      | None => Raises (Value_error "The channel dimension of the inputs should be defined")
      | Some _ =>
          Returns [b; deconv_output_length h kernel_size padding stride;
                   deconv_output_length w kernel_size padding stride; Some num_outputs]
      end
  | _ => Raises (Value_error "Input is incompatible with the layer: expected ndim=4")
  end.

(** [slim.conv2d(net, num_outputs, kernel_size, stride, padding)]. *)
Definition conv2d (net : Shape) (num_outputs kernel_size stride : nat)
    (padding : Padding) : outcome Shape :=
  match net with
  | [b; h; w; c] =>
      match c with
      | None => Raises (Value_error "The channel dimension of the inputs should be defined")
      | Some _ =>
          Returns [b; conv_output_length h kernel_size padding stride;
                   conv_output_length w kernel_size padding stride; Some num_outputs]
      end
  | _ => Raises (Value_error "Input is incompatible with the layer: expected ndim=4")
  end.

(** [tf.reshape(t, [-1, 1])]. *)
Definition reshape_rows (s : Shape) : Shape :=
  [fold_right (fun d acc => match d, acc with
                            | Some n, Some m => Some (n * m)
                            | _, _ => None
                            end) (Some 1) s;
   Some 1].

Section Net.

(** The quotient [tf.log(x) / tf.log(2.)] the session computes for a
    positive [x]. *)
Context (log2f : nat -> Q).

Local Open Scope net_scope.

Definition log (x : nat) : float :=
  if x =? 0 then NegInf else Finite (log2f x).

(** [log(d)] for a dimension [d]. *)
Definition log_dim (d : option nat) : outcome float :=
  match d with
  | Some n => Returns (log n)
  | None => Raises (Value_error "Cannot convert an unknown Dimension to a Tensor")
  end.

(** [int(x)]: truncation towards zero. *)
Definition int (x : float) : outcome Z :=
  match x with
  | NegInf => Raises Overflow_error
  | Finite q => Returns (if Qle_bool 0 q then Qfloor q else Qceiling q)
  end.

(** [x != n]. *)
Definition ne (x : float) (n : Z) : bool :=
  match x with
  | NegInf => true
  | Finite q => negb (Qeq_bool q (inject_Z n))
  end.

(** The loop of [dcgan_generator] over [range(2, num_layers)]. *)
Fixpoint deconv_layers (depth : nat) (num_layers : Z) (indices : list Z)
    (net : Shape) (end_points : EndPoints) : outcome (Shape * EndPoints) :=
  match indices with
  | [] => Returns (net, end_points)
  | i :: rest =>
      let scope := deconv i in
      let current_depth := depth * 2 ^ Z.to_nat (num_layers - i) in
      net <- conv2d_transpose net current_depth 4 2 SAME ;;
      deconv_layers depth num_layers rest net (setitem end_points scope net)
  end.

Definition dcgan_generator (inputs : Shape) (depth final_size num_outputs : nat)
    (is_training : bool) : outcome (Shape * EndPoints) :=
  truncated <- int (log final_size) ;;
  if ne (log final_size) truncated then
    Raises (Value_error "`final_size` must be a power of 2.")
  else if final_size <? 8 then
    Raises (Value_error "`final_size` must be greater than 8.")
  else
    let end_points : EndPoints := [] in
    '(num_layers, net) <-
       (if List.length inputs =? 2 then
          (* Init stage. *)
          a <- int (log final_size) ;;
          net <- expand_dims_1 inputs ;;
          net <- expand_dims_1 net ;;
          Returns ((a - 1)%Z, net)
        else
          (* Next stage. *)
          a <- int (log final_size) ;;
          d <- get_dim inputs 1 ;;
          l <- log_dim d ;;
          b <- int l ;;
          Returns ((a - (b - 1) - 1)%Z, inputs)) ;;
    '(net, end_points) <-
       (if (1 <? num_layers)%Z then
          (* First upscaling is different because it takes the input vector. *)
          let current_depth := depth * 2 ^ Z.to_nat (num_layers - 1) in
          let scope := deconv 1 in
          net <- conv2d_transpose net current_depth 4 1 VALID ;;
          Returns (net, setitem end_points scope net)
        else Returns (net, end_points)) ;;
    '(net, end_points) <-
       deconv_layers depth num_layers (zrange 2 num_layers) net end_points ;;
    (* Last layer has different normalizer and activation. *)
    let scope := deconv num_layers in
    net <- conv2d_transpose net depth 4 2 SAME ;;
    let end_points := setitem end_points scope net in
    (* Convert to proper channels. *)
    let scope := logits in
    logits_ <- conv2d net num_outputs 1 1 VALID ;;
    let end_points := setitem end_points scope logits_ in
    (* [assert_has_rank(4)] holds of every output of [conv2d] *)
    if dims_compatible logits_ [None; Some final_size; Some final_size; Some num_outputs]
    then Returns (logits_, end_points)
    else Raises (Value_error "Shapes are incompatible").

Definition generator (inputs : Inputs) (final_size : nat) (apply_batch_norm : bool)
  : outcome (Shape * Shape) :=
  '(noise, num_layers) <-
     match inputs with
     | Several ts =>
         (* Next stage. *)
         match ts with
         | [hidden_code; noise] =>
             h_code_depth <- get_last_dim hidden_code ;;
             h_code_final_size <- get_dim hidden_code 1 ;;
             noise <- expand_dims_1 noise ;;
             noise <- expand_dims_1 noise ;;
             noise <- tile noise [Some 1; h_code_final_size; h_code_final_size; Some 1] ;;
             noise <- concat_last noise hidden_code ;;
             a <- int (log final_size) ;;
             d <- get_dim noise 1 ;;
             l <- log_dim d ;;
             b <- int l ;;
             Returns (noise, (a - (b - 1) - 1)%Z)
         | _ => Raises (Value_error "wrong number of values to unpack")
         end
     | One noise =>
         (* Init stage. *)
         a <- int (log final_size) ;;
         Returns (noise, (a - 1)%Z)
     end ;;
  '(images, end_points) <- dcgan_generator noise 64 final_size 3 apply_batch_norm ;;
  hidden_code <- getitem end_points (deconv num_layers) ;;
  (* [tf.tanh] keeps the shape. *)
  Returns (images, hidden_code).

Definition _validate_image_inputs (inputs : Shape) : outcome unit :=
  match inputs with
  | [b; h; w; c] =>
      match h, w with
      | Some height, Some width_ =>
          if negb (height =? width_) then
            Raises (Value_error "Input tensor does not have equal width and height")
          else
            let width := height in
            truncated <- int (log width) ;;
            if ne (log width) truncated then
              Raises (Value_error "Input tensor `width` is not a power of 2")
            else Returns tt
      | _, _ => Raises (Value_error "Shape is not fully defined")
      end
  | _ => Raises (Value_error "Shape must have rank 4")
  end.

(** The loop of [dcgan_discriminator] over [range(int(log(inp_shape)))]. *)
Fixpoint conv_layers (depth : nat) (indices : list Z) (net : Shape)
    (end_points : EndPoints) : outcome (Shape * EndPoints) :=
  match indices with
  | [] => Returns (net, end_points)
  | i :: rest =>
      let scope := conv (i + 1) in
      let current_depth := depth * 2 ^ Z.to_nat i in
      net <- conv2d net current_depth 4 2 SAME ;;
      conv_layers depth rest net (setitem end_points scope net)
  end.

Definition dcgan_discriminator (inputs : Shape) (depth : nat) (is_training : bool)
  : outcome (Shape * EndPoints) :=
  _ <- _validate_image_inputs inputs ;;
  inp_shape <- get_dim inputs 1 ;;
  let end_points : EndPoints := [] in
  let net := inputs in
  l <- log_dim inp_shape ;;
  n <- int l ;;
  '(net, end_points) <- conv_layers depth (zrange 0 n) net end_points ;;
  logits_ <- conv2d net 1 1 1 VALID ;;
  let logits_ := reshape_rows logits_ in
  let end_points := setitem end_points logits logits_ in
  Returns (logits_, end_points).

Definition discriminator (img : Shape) (apply_batch_norm : bool) : outcome Shape :=
  '(logits_, _) <- dcgan_discriminator img 64 apply_batch_norm ;;
  Returns logits_.

End Net.

(** A [log] that is exact on the powers of two and not integral
    elsewhere. *)
Definition exact_log2f (x : nat) : Q :=
  if x =? 2 ^ Nat.log2 x then inject_Z (Z.of_nat (Nat.log2 x))
  else (inject_Z (Z.of_nat (Nat.log2 x)) + (1 # 2))%Q.

End Networks.

(** ** Concrete collaborators, for evaluating the builders *)

Module Demo.

Definition image_shape (batch size : nat) : TensorShape :=
  Some [Some batch; Some size; Some size; Some 3].

(** A generator that makes images of the requested size and one variable
    per call. *)
Definition sized_generator : TrainScript.generator_fn_type :=
  fun _ final_size _ =>
    mkNetCall (mkTensor "generated" (image_shape 8 final_size),
               mkTensor "hidden" (Some [Some 8; Some final_size; Some final_size; Some 64]))
              ["weights"].


Definition logits_discriminator : TrainScript.discriminator_fn_type :=
  fun _ _ => mkNetCall (mkTensor "logits" (Some [None; Some 1])) ["weights"].

Definition provider_images : Tensor := mkTensor "images" (image_shape 8 32).

Definition resize (t : Tensor) (h w : nat) : Tensor :=
  mkTensor "resized" (Some [Some 8; Some h; Some w; Some 3]).

Definition normal (dims : list nat) : Tensor :=
  mkTensor "random_normal" (Some (map Some dims)).

Definition sized_script : TrainScript.Collaborators :=
  TrainScript.Build_Collaborators sized_generator logits_discriminator
    provider_images resize normal.


Definition flags (depth : nat) (color_loss : Q) : TrainScript.Flags :=
  TrainScript.mkFlags depth 8 64 color_loss 1 false.

(** Statistics whose means differ between tensors of different names and
    whose covariances agree. *)
Definition losses : TrainScript.LossLibrary :=
  TrainScript.Build_LossLibrary
    (fun _ => 1%Q) (fun _ => 1%Q) (fun _ _ => 0%Q)
    (fun _ => 0%Q) (fun _ => 0%Q) (fun _ => 0%Q)
    (fun _ => 0%Q) (fun _ => 0%Q)
    (fun a b => if String.eqb (tensor_name a) (tensor_name b) then 0%Q else 1%Q)
    (fun t => (mkTensor (String.append (tensor_name t) "/mean") (Some [Some 3]),
               mkTensor "covariance" (Some [Some 3; Some 3])))
    (fun m _ => m).

(** A stage model whose generated data has the given name. *)
Definition stage_model (name : string) (stage : nat) : TrainScript.StackGANModel :=
  TrainScript.mkStackGANModel
    (OneTensor (normal [8; 64]))
    (mkTensor name (image_shape 8 (2 ^ (5 + stage))))
    [] (mkScope "Generator" "Generator/") sized_generator
    (mkTensor "real" (image_shape 8 (2 ^ (5 + stage))))
    (mkTensor "logits" (Some [None; Some 1]))
    (mkTensor "logits" (Some [None; Some 1]))
    []
    (mkScope (String.append "Discriminator_stage_" (str stage))
             (String.append "Discriminator_stage_" (String.append (str stage) "/")))
    logits_discriminator
    (mkTensor "hidden" None)
    stage.

Definition two_stages : list TrainScript.StackGANModel :=
  [stage_model "generated_0" 0; stage_model "generated_1" 1].

(** Collaborators for the estimator; the stage builder records what it is
    given and runs the input closure. *)
Definition estimator_generator : Estimator.GeneratorFn :=
  Estimator.mkGeneratorFn true
    (fun _ _ final_size _ =>
       mkNetCall (mkTensor "generated" (image_shape 8 final_size),
                  mkTensor "hidden" None) ["weights"]).

Definition estimator_discriminator : Estimator.DiscriminatorFn :=
  Estimator.mkDiscriminatorFn false
    (fun _ _ _ _ => mkNetCall (mkTensor "logits" None) ["weights"]).

Definition recording_builder (g : Estimator.GeneratorFn) (d : Estimator.DiscriminatorFn)
    (kw : Estimator.GanModelKwargs) (w : Estimator.World)
  : result (Estimator.StackGANModel * Graph) :=
  match Estimator.kw_generator_inputs kw with
  | Estimator.Function call =>
      match call w with
      | Ok ((is_init, noise, conditioning), w') =>
          Ok (Estimator.mkStackGANModel
                [Estimator.IBool is_init; Estimator.ITensor noise;
                 Estimator.ITensor conditioning]
                (mkTensor "generated" None) []
                (Estimator._get_or_create_gen_super_scope
                   (Estimator.kw_generator_super_scope kw))
                g (mkTensor "hidden" None) (Estimator.kw_stage kw)
                None None None None None (Some d) None None
                (Estimator.kw_mu kw) (Estimator.kw_logvar kw),
              Estimator.graph w')
      | Err e => Err e
      end
  | Estimator.Tuple3 _ _ _ => Err (TypeError "object is not callable")
  end.

Definition estimator : Estimator.Collaborators :=
  Estimator.Build_Collaborators
    (fun t => mkNetCall (mkTensor "augmented" None, mkTensor "mu" None,
                         mkTensor "logvar" None) ["augment/weights"])
    normal
    recording_builder
    (fun t _ => Ok t)
    (fun _ _ => Ok tt).

Definition text_embedding : Tensor := mkTensor "text_embedding" (Some [Some 8; Some 1024]).

End Demo.

(** * Properties *)

(** ** Decimal names and prefixes *)

Section Strings.

Local Open Scope string_scope.

Lemma str_fuel_enough : forall fuel fuel' n,
  n < fuel -> n < fuel' -> str_fuel fuel n = str_fuel fuel' n.
Proof.
  induction fuel as [|fuel IH]; intros fuel' n Hf Hf'; [lia|].
  destruct fuel' as [|fuel']; [lia|].
  cbn [str_fuel]. destruct ((n <? 10)%nat) eqn:E; [reflexivity|].
  apply Nat.ltb_ge in E.
  assert (n / 10 < n) by (apply Nat.div_lt; lia).
  rewrite (IH fuel' (n / 10)) by lia. reflexivity.
Qed.

Lemma str_unfold : forall n,
  str n = if (n <? 10)%nat then String (digit_char n) ""
          else str (n / 10) ++ String (digit_char (n mod 10)) "".
Proof.
  intros n. unfold str at 1. cbn [str_fuel].
  destruct ((n <? 10)%nat) eqn:E; [reflexivity|].
  apply Nat.ltb_ge in E.
  assert (n / 10 < n) by (apply Nat.div_lt; lia).
  unfold str. rewrite (str_fuel_enough (fuel:=n) (fuel':=S (n / 10))) by lia.
  reflexivity.
Qed.

Lemma digit_char_is_digit : forall d,
  d < 10 -> is_digit (digit_char d) = true /\ nat_of_ascii (digit_char d) - 48 = d.
Proof.
  intros d Hd.
  do 10 (destruct d as [|d]; [split; reflexivity|]). lia.
Qed.

Lemma append_assoc : forall a b c : string, (a ++ b) ++ c = a ++ (b ++ c).
Proof.
  induction a as [|x a IH]; intros b c; simpl; [reflexivity|].
  now rewrite IH.
Qed.

Lemma read_digits_str : forall n s, read_digits 0 (str n ++ s) = read_digits n s.
Proof.
  intros n. induction n as [n IH] using lt_wf_ind. intros s.
  rewrite str_unfold. destruct ((n <? 10)%nat) eqn:E.
  - apply Nat.ltb_lt in E. destruct (digit_char_is_digit E) as [Hd Hv].
    cbn [append read_digits]. rewrite Hd, Hv. f_equal.
  - apply Nat.ltb_ge in E.
    assert (Hlt : n / 10 < n) by (apply Nat.div_lt; lia).
    assert (Hm : n mod 10 < 10) by (apply Nat.mod_upper_bound; lia).
    destruct (digit_char_is_digit Hm) as [Hd Hv].
    rewrite append_assoc, (IH _ Hlt). cbn [append read_digits]. rewrite Hd, Hv.
    f_equal. pose proof (Nat.div_mod_eq n 10). lia.
Qed.

Lemma read_digits_ge : forall s acc, acc <= read_digits acc s.
Proof.
  induction s as [|c s IH]; intros acc; cbn [read_digits]; [lia|].
  destruct (is_digit c); [|lia].
  specialize (IH (10 * acc + (nat_of_ascii c - 48))). lia.
Qed.

Lemma prefix_app : forall a b, prefix a b = true -> exists c, b = a ++ c.
Proof.
  induction a as [|x a IH]; intros b H.
  - exists b. reflexivity.
  - destruct b as [|y b]; simpl in H; [discriminate|].
    destruct (ascii_dec x y) as [->|]; [|discriminate].
    destruct (IH _ H) as [c ->]. exists c. reflexivity.
Qed.

Lemma app_prefix : forall a c, prefix a (a ++ c) = true.
Proof.
  induction a as [|x a IH]; intros c; simpl.
  - destruct c; reflexivity.
  - destruct (ascii_dec x x); [apply IH|congruence].
Qed.

Lemma prefix_trans : forall a b c,
  prefix a b = true -> prefix b c = true -> prefix a c = true.
Proof.
  intros a b c Hab Hbc.
  destruct (prefix_app _ _ Hab) as [x ->].
  destruct (prefix_app _ _ Hbc) as [y ->].
  rewrite append_assoc. apply app_prefix.
Qed.

(** A decimal name that is a prefix of [str k ++ "/" ++ rest] denotes at
    most [k]. *)
Lemma str_prefix_le : forall j k rest,
  prefix (str j) (str k ++ String "/" rest) = true -> j <= k.
Proof.
  intros j k rest H.
  destruct (prefix_app _ _ H) as [y Hy].
  assert (E : read_digits 0 (str k ++ String "/" rest) = k)
    by (rewrite read_digits_str; reflexivity).
  rewrite Hy, read_digits_str in E.
  pose proof (read_digits_ge y j). lia.
Qed.

End Strings.

(** ** The graph only grows *)

Lemma extends_refl : forall g, extends g g.
Proof. intros g. exists []. now rewrite app_nil_r. Qed.

Lemma extends_trans : forall g1 g2 g3, extends g1 g2 -> extends g2 g3 -> extends g1 g3.
Proof.
  intros g1 g2 g3 [a ->] [b ->]. exists (a ++ b). now rewrite app_assoc.
Qed.

Lemma get_variables_grows : forall scope locals g,
  exists extra,
    get_variables scope locals g = g ++ extra
    /\ Forall (fun v => exists l, v = scoped scope l) extra.
Proof.
  intros scope locals. induction locals as [|l ls IH]; intros g; simpl.
  - exists []. split; [now rewrite app_nil_r | constructor].
  - destruct (in_graph (scoped scope l) g).
    + apply IH.
    + destruct (IH (g ++ [scoped scope l])) as [extra [E F]].
      exists (scoped scope l :: extra). split.
      * rewrite E, <- app_assoc. reflexivity.
      * constructor; [now exists l | exact F].
Qed.

Lemma trainable_variables_app : forall scope g extra,
  trainable_variables scope (g ++ extra)
  = trainable_variables scope g ++ trainable_variables scope extra.
Proof. intros. unfold trainable_variables. apply filter_app. Qed.

Lemma trainable_variables_extends : forall scope g g',
  extends g g' ->
  exists more, trainable_variables scope g' = trainable_variables scope g ++ more.
Proof.
  intros scope g g' [extra ->]. rewrite trainable_variables_app. eauto.
Qed.

Lemma in_trainable_variables : forall scope g v,
  In v (trainable_variables scope g) <-> In v g /\ String.prefix scope v = true.
Proof. intros. unfold trainable_variables. apply filter_In. Qed.

(** ** Running the builders *)

Lemma py_index_length : forall A (xs : list A) i,
  i < List.length xs -> exists x, py_index xs i = Ok x /\ nth_error xs i = Some x.
Proof.
  intros A xs i H. unfold py_index.
  destruct (nth_error xs i) eqn:E; [eauto|].
  apply nth_error_None in E. lia.
Qed.

Lemma py_last_snoc : forall A (xs : list A) x, py_last (xs ++ [x]) = Ok x.
Proof.
  intros A xs x. unfold py_last, py_index.
  destruct (xs ++ [x]) eqn:E; [now destruct xs|].
  rewrite <- E, length_app. simpl.
  replace (List.length xs + 1 - 1) with (List.length xs) by lia.
  rewrite nth_error_app2, Nat.sub_diag by lia. reflexivity.
Qed.

Lemma py_last_nth : forall A (xs : list A) x,
  py_last xs = Ok x -> nth_error xs (List.length xs - 1) = Some x.
Proof.
  intros A xs x. unfold py_last, py_index. destruct xs as [|y ys]; [discriminate|].
  destruct (nth_error (y :: ys) (List.length (y :: ys) - 1)); congruence.
Qed.

(** ** The stack [train.py] builds *)

Module TrainBuildFacts.
Import TrainScript.

Ltac run_builder :=
  unfold call_in_scope, append_model, reset_models in *;
  unfold bind, lift, gets, ret, raise, modify in *.

Section Stage.

Context (FLAGS : Flags) {C : Collaborators}.

Lemma build_stage_inv : forall check noise i w w',
  build_stage FLAGS check noise i w = Ok (tt, w') ->
  exists m,
    gan_models w' = gan_models w ++ [m]
    /\ stage m = i
    /\ _get_real_data_for_stage FLAGS i = Ok (real_data m)
    /\ (if 0 <? i then
          exists prev, nth_error (gan_models w) (i - 1) = Some prev
                       /\ generator_inputs m = TensorList [generator_hidden_code prev; noise]
        else generator_inputs m = OneTensor noise)
    /\ (if 0 <? i then
          exists last, nth_error (gan_models w) (List.length (gan_models w) - 1) = Some last
                       /\ generator_scope m = generator_scope last
        else generator_scope m = mkScope "Generator" "Generator/")
    /\ scope_name (discriminator_scope m) = dis_scope_name i
    /\ generated_data m
       = fst (net_out (generator (generator_inputs m) (final_size i) (FLAGS_apply_batch_norm FLAGS)))
    /\ generator_hidden_code m
       = snd (net_out (generator (generator_inputs m) (final_size i) (FLAGS_apply_batch_norm FLAGS)))
    /\ graph w'
       = get_variables (dis_scope_name i)
           (net_vars (discriminator (real_data m) (FLAGS_apply_batch_norm FLAGS)))
           (get_variables (dis_scope_name i)
              (net_vars (discriminator (generated_data m) (FLAGS_apply_batch_norm FLAGS)))
              (get_variables
                 (scoped (scope_name (generator_scope m)) ("Generator_stage_" ++ str i)%string)
                 (net_vars (generator (generator_inputs m) (final_size i)
                                      (FLAGS_apply_batch_norm FLAGS)))
                 (graph w)))
    /\ generator_variables m = trainable_variables (scope_name (generator_scope m)) (graph w')
    /\ discriminator_variables m = trainable_variables (dis_scope_name i) (graph w')
    /\ (check = true -> shapes_match m = true).
Proof.
  intros check noise i w w' H.
  unfold build_stage, gan_model, _get_generator_input_for_stage in H.
  run_builder.
  destruct (_get_real_data_for_stage FLAGS i) as [real|] eqn:Ereal; [|discriminate].
  unfold _convert_tensor_or_l_or_d, shapes_match, dis_scope_name in *.
  destruct (0 <? i) eqn:Ei.
  - destruct (py_last (gan_models w)) as [last|] eqn:Elast; [|discriminate].
    destruct (py_index (gan_models w) (i - 1)) as [prev|] eqn:Eprev; [|discriminate].
    cbn [net_out graph gan_models scope_name _get_or_create_gen_super_scope] in H.
    destruct (net_out (generator (TensorList [generator_hidden_code prev; noise])
                (final_size i) (FLAGS_apply_batch_norm FLAGS))) as [gd hc] eqn:Egen.
    assert (Hc : check = true -> is_compatible_with (shape gd) (shape real) = true).
    { intros ->. destruct (is_compatible_with (shape gd) (shape real)); [reflexivity|].
      discriminate H. }
    assert (Hnth : nth_error (gan_models w) (i - 1) = Some prev).
    { unfold py_index in Eprev. destruct (nth_error (gan_models w) (i - 1)); congruence. }
    apply py_last_nth in Elast.
    destruct check; [rewrite (Hc eq_refl) in H|];
      cbn [negb graph gan_models] in H;
      injection H as <-; eexists;
      cbn [stage real_data generator_inputs generator_scope discriminator_scope
           generated_data generator_hidden_code generator_variables
           discriminator_variables graph gan_models scope_name];
      (repeat split; cbn [generator_inputs generated_data]; rewrite ?Egen; eauto).
  - cbn [net_out graph gan_models scope_name _get_or_create_gen_super_scope] in H.
    destruct (net_out (generator (OneTensor noise)
                (final_size i) (FLAGS_apply_batch_norm FLAGS))) as [gd hc] eqn:Egen.
    assert (Hc : check = true -> is_compatible_with (shape gd) (shape real) = true).
    { intros ->. destruct (is_compatible_with (shape gd) (shape real)); [reflexivity|].
      discriminate H. }
    destruct check; [rewrite (Hc eq_refl) in H|];
      cbn [negb graph gan_models] in H;
      injection H as <-; eexists;
      cbn [stage real_data generator_inputs generator_scope discriminator_scope
           generated_data generator_hidden_code generator_variables
           discriminator_variables graph gan_models scope_name];
      (repeat split; cbn [generator_inputs generated_data]; rewrite ?Egen; eauto).
Qed.

Lemma nth_error_snoc : forall A (xs : list A) x k y,
  nth_error (xs ++ [x]) k = Some y ->
  (k < List.length xs /\ nth_error xs k = Some y) \/ (k = List.length xs /\ y = x).
Proof.
  intros A xs x k y H.
  destruct (Nat.lt_ge_cases k (List.length xs)) as [Hlt|Hge].
  - left. rewrite nth_error_app1 in H by assumption. auto.
  - right. rewrite nth_error_app2 in H by assumption.
    destruct (k - List.length xs) as [|d] eqn:E.
    + simpl in H. split; [lia | congruence].
    + simpl in H. destruct d; discriminate.
Qed.

Lemma Forall_extended : forall (P Q : string -> Prop) g,
  (forall v, P v -> Q v) -> Forall P g -> Forall Q g.
Proof. intros P Q g HPQ H. eapply Forall_impl; eauto. Qed.

Lemma dis_prefix_of_generator_name : forall i l,
  String.prefix "Discriminator_stage_"
    (scoped (scoped "Generator" ("Generator_stage_" ++ str i)%string) l) = false.
Proof. intros i l. reflexivity. Qed.

Lemma dis_name_prefix : forall j k l,
  String.prefix (dis_scope_name j) (dis_name k l) = true -> j <= k.
Proof.
  intros j k l H. unfold dis_name, dis_scope_name, scoped in H.
  cbn [append String.eqb Ascii.eqb Bool.eqb] in H.
  repeat (cbn [prefix] in H;
          match type of H with
          | (if ascii_dec ?a ?b then _ else _) = true =>
              destruct (ascii_dec a b); [|discriminate]
          end).
  apply (str_prefix_le _ _ _ H).
Qed.

Lemma dis_scope_prefix_dis_name : forall k l,
  String.prefix (dis_scope_name k) (dis_name k l) = true.
Proof.
  intros k l. unfold dis_name, scoped, dis_scope_name.
  cbn [append String.eqb Ascii.eqb Bool.eqb].
  change (String.prefix ("Discriminator_stage_" ++ str k)%string
            (("Discriminator_stage_" ++ str k) ++ String "/" l)%string = true).
  apply app_prefix.
Qed.

Lemma dis_name_stage : forall a b l l', dis_name a l = dis_name b l' -> a = b.
Proof.
  intros a b l l' E.
  pose proof (dis_scope_prefix_dis_name a l) as Ha.
  pose proof (dis_scope_prefix_dis_name b l') as Hb.
  rewrite E in Ha. rewrite <- E in Hb.
  apply dis_name_prefix in Ha. apply dis_name_prefix in Hb. lia.
Qed.

Lemma stage_prefix_of_dis_scope : forall i,
  String.prefix "Discriminator_stage_" (dis_scope_name i) = true.
Proof. intros i. unfold dis_scope_name. apply app_prefix. Qed.

Lemma built_step : forall check noise i w w',
  built FLAGS noise i w ->
  build_stage FLAGS check noise i w = Ok (tt, w') ->
  built FLAGS noise (S i) w'.
Proof.
  intros check noise i w w' Hb H.
  destruct (build_stage_inv _ _ _ _ H)
    as (m & Hms & Hst & Hreal & Hin & Hsc & _).
  destruct Hb as [Hlen Hstage Hinputs Hscope Hshape].
  assert (Hdef : generator_scope m = default_scope).
  { destruct (0 <? i); [|exact Hsc].
    destruct Hsc as (last & Hl & ->). eapply Hscope; eauto. }
  constructor.
  - rewrite Hms, length_app. simpl. lia.
  - intros k x Hk. rewrite Hms in Hk.
    destruct (nth_error_snoc _ _ _ Hk) as [[_ Hold]|[-> ->]]; [eauto | congruence].
  - intros k x Hk. rewrite Hms in Hk |- *.
    destruct (nth_error_snoc _ _ _ Hk) as [[Hlt Hold]|[-> ->]].
    + specialize (Hinputs _ _ Hold). destruct k as [|k']; [exact Hinputs|].
      destruct Hinputs as (prev & Hp & Hi). exists prev. split; [|exact Hi].
      rewrite nth_error_app1 by lia. exact Hp.
    + rewrite Hlen. destruct i as [|i']; [exact Hin|].
      cbn [Nat.ltb Nat.leb] in Hin. destruct Hin as (prev & Hp & Hi).
      exists prev. split; [|exact Hi].
      rewrite nth_error_app1 by lia.
      replace (S i' - 1) with i' in Hp by lia. exact Hp.
  - intros k x Hk. rewrite Hms in Hk.
    destruct (nth_error_snoc _ _ _ Hk) as [[_ Hold]|[-> ->]]; [eauto | exact Hdef].
  - intros k x Hk. rewrite Hms in Hk.
    destruct (nth_error_snoc _ _ _ Hk) as [[_ Hold]|[-> ->]]; [eauto|].
    rewrite Hlen. exact Hreal.
Qed.

Lemma collected_step : forall check noise i w w',
  built FLAGS noise i w -> collected i w ->
  build_stage FLAGS check noise i w = Ok (tt, w') ->
  collected (S i) w'.
Proof.
  intros check noise i w w' Hb Hc H.
  pose proof (@built_step check noise i w w' Hb H) as Hb'.
  destruct (build_stage_inv _ _ _ _ H)
    as (m & Hms & Hst & Hreal & Hin & Hsc & Hds & Hgd & Hhc & Hg & Hgv & Hdv & _).
  destruct Hb as [Hlen _ _ _ _].
  destruct Hc as [Hgraph Hgen Hnest Hdis _].
  assert (Hdef : generator_scope m = default_scope).
  { eapply built_scope with (k := i); [exact Hb'|]. rewrite Hms, nth_error_app2 by lia.
    rewrite Hlen, Nat.sub_diag. reflexivity. }
  rewrite Hdef in Hg, Hgv. cbn [scope_name default_scope] in Hg, Hgv.
  assert (Hext : extends (graph w) (graph w')).
  { rewrite Hg.
    destruct (get_variables_grows (scoped "Generator" ("Generator_stage_" ++ str i)%string)
                (net_vars (generator (generator_inputs m) (final_size i)
                                     (FLAGS_apply_batch_norm FLAGS))) (graph w))
      as (e1 & -> & _).
    match goal with |- extends _ (get_variables ?s ?l (get_variables ?s' ?l' ?g)) =>
      destruct (get_variables_grows s' l' g) as (e2 & -> & _);
      destruct (get_variables_grows s l ((graph w ++ e1) ++ e2)) as (e3 & -> & _)
    end.
    exists (e1 ++ e2 ++ e3). now rewrite !app_assoc. }
  assert (Hgraph' : Forall (fun v => String.prefix "Discriminator_stage_" v = false
                              \/ exists k l, k < S i /\ v = dis_name k l) (graph w')).
  { rewrite Hg.
    destruct (get_variables_grows (scoped "Generator" ("Generator_stage_" ++ str i)%string)
                (net_vars (generator (generator_inputs m) (final_size i)
                                     (FLAGS_apply_batch_norm FLAGS))) (graph w))
      as (e1 & -> & F1).
    match goal with |- Forall _ (get_variables ?s ?l (get_variables ?s' ?l' ?g)) =>
      destruct (get_variables_grows s' l' g) as (e2 & -> & F2);
      destruct (get_variables_grows s l ((graph w ++ e1) ++ e2)) as (e3 & -> & F3)
    end.
    apply Forall_app; split; [apply Forall_app; split; [apply Forall_app; split|]|].
    - eapply Forall_impl; [|exact Hgraph]. intros v [Hv|(k & l & Hk & ->)]; [now left|].
      right. exists k, l. split; [lia | reflexivity].
    - eapply Forall_impl; [|exact F1]. intros v (l & ->). left.
      apply dis_prefix_of_generator_name.
    - eapply Forall_impl; [|exact F2]. intros v (l & ->). right. exists i, l. auto.
    - eapply Forall_impl; [|exact F3]. intros v (l & ->). right. exists i, l. auto. }
  constructor.
  - exact Hgraph'.
  - intros k x Hk. rewrite Hms in Hk.
    destruct (nth_error_snoc _ _ _ Hk) as [[_ Hold]|[-> ->]].
    + destruct (Hgen _ _ Hold) as (g & Eg & Hg'). exists g. split; [exact Eg|].
      eapply extends_trans; eauto.
    + exists (graph w'). split; [exact Hgv | apply extends_refl].
  - intros a b ma mb Hab Ha Hb2. rewrite Hms in Ha, Hb2.
    destruct (nth_error_snoc _ _ _ Hb2) as [[Hltb Holdb]|[-> ->]].
    + destruct (nth_error_snoc _ _ _ Ha) as [[_ Holda]|[-> ->]]; [eauto | lia].
    + destruct (nth_error_snoc _ _ _ Ha) as [[_ Holda]|[_ ->]].
      * destruct (Hgen _ _ Holda) as (g & Eg & Hg').
        rewrite Hgv, Eg. apply trainable_variables_extends.
        eapply extends_trans; eauto.
      * exists []. now rewrite app_nil_r.
  - intros k x Hk. rewrite Hms in Hk.
    destruct (nth_error_snoc _ _ _ Hk) as [[_ Hold]|[-> ->]]; [eauto|].
    rewrite Hdv, Hlen. apply Forall_forall. intros v Hv.
    apply in_trainable_variables in Hv. destruct Hv as [Hv Hp].
    rewrite Forall_forall in Hgraph'.
    destruct (Hgraph' _ Hv) as [Hno|(k & l & Hk' & ->)].
    + rewrite (prefix_trans _ _ _ (stage_prefix_of_dis_scope i) Hp) in Hno. discriminate.
    + apply dis_name_prefix in Hp. replace k with i by lia. now exists l.
  - intros x Hx. rewrite Hms, py_last_snoc in Hx. injection Hx as <-. exact Hgv.
Qed.

Lemma build_stages_built : forall check noise n i w w',
  built FLAGS noise i w ->
  build_stages FLAGS check noise (seq i n) w = Ok (tt, w') ->
  built FLAGS noise (i + n) w'.
Proof.
  intros check noise n. induction n as [|n IH]; intros i w w' Hb H.
  - cbn in H. injection H as <-. now rewrite Nat.add_0_r.
  - cbn [seq build_stages] in H. unfold bind in H.
    destruct (build_stage FLAGS check noise i w) as [[[] w1]|] eqn:E; [|discriminate].
    replace (i + S n) with (S i + n) by lia.
    eapply IH; [|exact H]. eapply built_step; eauto.
Qed.

Lemma build_stages_collected : forall check noise n i w w',
  built FLAGS noise i w -> collected i w ->
  build_stages FLAGS check noise (seq i n) w = Ok (tt, w') ->
  collected (i + n) w'.
Proof.
  intros check noise n. induction n as [|n IH]; intros i w w' Hb Hc H.
  - cbn in H. injection H as <-. now rewrite Nat.add_0_r.
  - cbn [seq build_stages] in H. unfold bind in H.
    destruct (build_stage FLAGS check noise i w) as [[[] w1]|] eqn:E; [|discriminate].
    replace (i + S n) with (S i + n) by lia.
    eapply IH; [| |exact H].
    + eapply built_step; eauto.
    + eapply collected_step; eauto.
Qed.

Lemma built_initially : forall w, built FLAGS (the_noise FLAGS) 0 (mkWorld (graph w) []).
Proof.
  intros w. constructor; cbn [gan_models]; try reflexivity;
    intros k m Hk; destruct k; discriminate.
Qed.

Lemma build_with_built : forall check w ms w',
  build_with FLAGS check w = Ok (ms, w') ->
  ms = gan_models w' /\ built FLAGS (the_noise FLAGS) (FLAGS_stack_depth FLAGS) w'.
Proof.
  intros check w ms w' H. unfold build_with, range in H. run_builder.
  destruct (build_stages FLAGS check _ _ _) as [[[] w1]|] eqn:E; [|discriminate].
  injection H as <- <-. split; [reflexivity|].
  eapply build_stages_built in E; [exact E | apply built_initially].
Qed.

Lemma build_with_collected : forall check w ms w',
  Forall (fun v => String.prefix "Discriminator_stage_" v = false) (graph w) ->
  build_with FLAGS check w = Ok (ms, w') ->
  collected (FLAGS_stack_depth FLAGS) w'.
Proof.
  intros check w ms w' Hclean H. unfold build_with, range in H. run_builder.
  destruct (build_stages FLAGS check _ _ _) as [[[] w1]|] eqn:E; [|discriminate].
  injection H as <- <-.
  eapply build_stages_collected in E; [exact E | apply built_initially |].
  constructor; cbn [gan_models graph].
  - eapply Forall_impl; [|exact Hclean]. intros v Hv. now left.
  - intros k m Hk; destruct k; discriminate.
  - intros a b ma mb _ Ha; destruct a; discriminate.
  - intros k m Hk; destruct k; discriminate.
  - discriminate.
Qed.

(** *** The shape check *)







End Stage.

End TrainBuildFacts.

(** ** The models the estimator builds *)

Module EstimatorFacts.
Import Estimator.

Ltac run_builder :=
  unfold call_in_scope, append_model, reset_models in *;
  unfold bind, lift, gets, ret, raise, modify in *.

Section Facts.

Context {C : Collaborators}.

(** The first iteration of the prediction loop stops at the unpacking of
    the closure. *)
Lemma predict_stage_raises : forall stack_depth gen_fn apply_batch_norm
    augmented_conditioning mu0 logvar0 noise w,
  predict_stage stack_depth gen_fn apply_batch_norm augmented_conditioning
                mu0 logvar0 0 noise w = Err unpack_error.
Proof. reflexivity. Qed.

Lemma _make_prediction_gan_model_raises : forall stack_depth batch_size noise_dim
    gen_fn features super_scope apply_batch_norm w,
  _make_prediction_gan_model stack_depth batch_size noise_dim gen_fn
      features super_scope apply_batch_norm w
  = Err (match stack_depth with 0 => IndexError | S _ => unpack_error end).
Proof.
  intros. unfold _make_prediction_gan_model. run_builder.
  cbn [net_out]. destruct (net_out (augment features)) as [[a m] l].
  destruct stack_depth as [|d]; reflexivity.
Qed.

Lemma stage_kwargs_inv : forall stack_depth discriminator_inputs noise augmented
    mu0 logvar0 apply_batch_norm stage_index w kw w',
  stage_kwargs stack_depth discriminator_inputs noise augmented mu0 logvar0
               apply_batch_norm stage_index w = Ok (kw, w') ->
  w' = w
  /\ kw_stage kw = stage_index
  /\ kw_check_shapes kw = false
  /\ kw_generator_inputs kw = Function (get_input stage_index noise augmented)
  /\ kw_mu kw = mu0 /\ kw_logvar kw = logvar0
  /\ kw_apply_batch_norm kw = apply_batch_norm.
Proof.
  intros until w'. intros H. unfold stage_kwargs, previous_generator_scope in H.
  run_builder.
  destruct (if stack_depth =? 1 then _ else _); [|discriminate].
  destruct (0 <? stage_index).
  - destruct (py_last (gan_models w)); [|discriminate].
    injection H as <- <-. repeat split.
  - injection H as <- <-. repeat split.
Qed.

Lemma make_stages_inv : forall stack_depth gen_fn dis_fn
    discriminator_inputs noise augmented mu0 logvar0 apply_batch_norm n i w w',
  List.length (gan_models w) = i ->
  make_stages stack_depth gen_fn dis_fn discriminator_inputs
              noise augmented mu0 logvar0 apply_batch_norm (seq i n) w = Ok (tt, w') ->
  exists new,
    gan_models w' = gan_models w ++ new
    /\ List.length new = n
    /\ forall k m, nth_error new k = Some m ->
         built_by gen_fn dis_fn noise augmented (gan_models w ++ firstn k new) m.
Proof.
  intros stack_depth gen_fn dis_fn discriminator_inputs noise
         augmented mu0 logvar0 apply_batch_norm n.
  induction n as [|n IH]; intros i w w' Hlen H.
  - cbn in H. injection H as <-. exists []. rewrite app_nil_r.
    repeat split. intros k m Hk. destruct k; discriminate.
  - cbn [seq make_stages] in H. unfold bind at 1 in H.
    destruct (stage_kwargs _ _ _ _ _ _ _ _ w) as [[kw w0]|] eqn:Ekw; [|discriminate].
    destruct (stage_kwargs_inv _ _ _ _ _ _ _ _ _ Ekw) as (-> & Hst & Hcs & Hgi & _).
    unfold bind at 1, call_gan_model in H.
    destruct (gan_model gen_fn dis_fn kw w) as [[m g1]|] eqn:Em;
      [|discriminate].
    unfold bind at 1, append_model, modify in H.
    cbn [gan_models graph] in H.
    apply IH in H; [|cbn [gan_models]; rewrite length_app; simpl; lia].
    destruct H as (new & Hnew & Hn & Hall).
    cbn [gan_models] in Hnew.
    exists (m :: new). repeat split.
    + rewrite Hnew, <- app_assoc. reflexivity.
    + simpl. lia.
    + intros k x Hk. destruct k as [|k].
      * injection Hk as <-. cbn [firstn]. rewrite app_nil_r.
        exists kw, w, g1. rewrite Hlen. repeat split; assumption.
      * cbn [firstn nth_error] in *. specialize (Hall _ _ Hk).
        cbn [gan_models] in Hall. rewrite <- app_assoc in Hall. exact Hall.
Qed.

Lemma _make_gan_models_inv : forall stack_depth batch_size noise_dim gen_fn
    dis_fn discriminator_inputs features super_scope
    apply_batch_norm mode w ms w',
  _make_gan_models stack_depth batch_size noise_dim gen_fn dis_fn
      discriminator_inputs features super_scope apply_batch_norm mode w
  = Ok (ms, w') ->
  List.length ms = stack_depth
  /\ forall k m, nth_error ms k = Some m ->
       built_by (generator_with_mode gen_fn mode)
                (discriminator_with_mode dis_fn mode)
                (random_normal [batch_size; noise_dim])
                (fst (fst (net_out (augment features)))) (firstn k ms) m.
Proof.
  intros until w'. intros H. unfold _make_gan_models, range in H. run_builder.
  cbn [net_out] in H. destruct (net_out (augment features)) as [[a mu0'] lv].
  destruct (make_stages _ _ _ _ _ _ _ _ _ _ _) as [[[] w1]|] eqn:E; [|discriminate].
  injection H as <- <-.
  apply make_stages_inv in E; [|reflexivity].
  destruct E as (new & Hnew & Hn & Hall). cbn [gan_models app] in Hnew.
  rewrite Hnew. split; [exact Hn|]. exact Hall.
Qed.

(** What the input closure of a stage_index returns when it is called with
    [stage_index] models in the list. *)
Lemma get_input_first : forall noise conditioning w,
  get_input 0 noise conditioning w = Ok ((true, noise, conditioning), w).
Proof. reflexivity. Qed.

Lemma get_input_next : forall stage_index noise conditioning w,
  0 < stage_index -> stage_index <= List.length (gan_models w) ->
  exists prev,
    nth_error (gan_models w) (stage_index - 1) = Some prev
    /\ get_input stage_index noise conditioning w
       = Ok ((false, generator_hidden_code prev, conditioning), w).
Proof.
  intros stage_index noise conditioning w H0 Hlen. unfold get_input. run_builder.
  apply Nat.ltb_lt in H0. rewrite H0. cbn [negb].
  destruct (@py_index_length _ (gan_models w) (stage_index - 1)) as (prev & E & Hn).
  { apply Nat.ltb_lt in H0. lia. }
  rewrite E. exists prev. split; [exact Hn | reflexivity].
Qed.

End Facts.

End EstimatorFacts.

(** ** Losses *)

Module LossFacts.
Import TrainScript.

Local Open Scope Q_scope.

Lemma Qlt_bool_iff : forall x y, Qlt_bool x y = true <-> x < y.
Proof.
  intros x y. unfold Qlt_bool. rewrite negb_true_iff.
  split; intros H.
  - apply Qnot_le_lt. intros Hle. apply Qle_bool_iff in Hle. congruence.
  - destruct (Qle_bool y x) eqn:E; [|reflexivity].
    apply Qle_bool_iff in E. exfalso. exact (Qlt_not_le _ _ H E).
Qed.

Lemma Qlt_bool_false : forall x y, Qlt_bool x y = false <-> ~ x < y.
Proof.
  intros x y. rewrite <- Qlt_bool_iff. destruct (Qlt_bool x y); split; congruence.
Qed.

Lemma validate_negative : forall w name,
  negative w -> exists msg, _validate_aux_loss_weight w name = Err (ValueError msg).
Proof.
  intros w name (q & -> & Hq). unfold _validate_aux_loss_weight.
  apply Qlt_bool_iff in Hq. rewrite Hq. eauto.
Qed.

Lemma validate_not_negative : forall w name,
  ~ negative w -> _validate_aux_loss_weight w name = Ok w.
Proof.
  intros w name H. unfold _validate_aux_loss_weight. destruct w as [q|]; [|reflexivity].
  destruct (Qlt_bool q 0) eqn:E; [|reflexivity].
  exfalso. apply H. exists q. split; [reflexivity | now apply Qlt_bool_iff].
Qed.

Lemma use_positive : forall w, _use_aux_loss w = true <-> positive w.
Proof.
  intros w. unfold _use_aux_loss, positive. destruct w as [q|].
  - rewrite Qlt_bool_iff. split; [eauto|]. now intros (q' & [= <-] & H).
  - split; [discriminate|]. now intros (q & [=] & _).
Qed.

Lemma positive_not_negative : forall w, positive w -> ~ negative w.
Proof.
  intros w (q & -> & Hq) (q' & [= <-] & Hq').
  exact (Qlt_irrefl _ (Qlt_trans _ _ _ Hq Hq')).
Qed.

Lemma zero_or_none_unused : forall w,
  zero_or_none w -> ~ negative w /\ _use_aux_loss w = false /\ truthy w = false.
Proof.
  intros w [->|(q & -> & Hq)].
  - repeat split. now intros (q & [=] & _).
  - repeat split.
    + intros (q' & [= <-] & Hq'). rewrite Hq in Hq'. exact (Qlt_irrefl _ Hq').
    + cbn. apply Qlt_bool_false. rewrite Hq. apply Qlt_irrefl.
    + cbn. apply negb_false_iff. now apply Qeq_bool_iff.
Qed.

Lemma positive_truthy : forall w, positive w -> truthy w = true.
Proof.
  intros w (q & -> & Hq). cbn. apply negb_true_iff.
  destruct (Qeq_bool q 0) eqn:E; [|reflexivity].
  apply Qeq_bool_iff in E. rewrite E in Hq. exfalso. exact (Qlt_irrefl _ Hq).
Qed.

End LossFacts.

Module DisLossFacts.
Import TrainScript LossFacts.

Section DisLoss.

Context {L : LossLibrary}.

Lemma validate_cases : forall w name,
  (negative w /\ exists msg, _validate_aux_loss_weight w name = Err (ValueError msg))
  \/ (~ negative w /\ _validate_aux_loss_weight w name = Ok w).
Proof.
  intros w name. unfold _validate_aux_loss_weight. destruct w as [q|].
  - destruct (Qlt_bool q 0) eqn:E.
    + left. split; [|eauto]. exists q. split; [reflexivity | now apply Qlt_bool_iff].
    + right. split; [|reflexivity]. intros (q' & [= <-] & Hq).
      apply Qlt_bool_iff in Hq. congruence.
  - right. split; [|reflexivity]. now intros (q & [=] & _).
Qed.

Ltac validated w name :=
  let Hneg := fresh "Hneg" in
  let Hval := fresh "Hval" in
  let msg := fresh "msg" in
  destruct (validate_cases w name) as [[Hneg [msg Hval]]|[Hneg Hval]];
  rewrite Hval; cbn [rbind].

Ltac invalid :=
  split; [intros _; eauto|];
  split; [intros; exfalso; tauto|];
  let H1 := fresh in let H2 := fresh in let H3 := fresh in let H4 := fresh in
  intros H1 H2 H3 H4; exfalso;
  pose proof (zero_or_none_unused H2);
  pose proof (zero_or_none_unused H3);
  pose proof (zero_or_none_unused H4); tauto.

(** The outcomes of [dis_loss], by the weights it is given. *)
Lemma dis_loss_outcomes : forall cls model fn gp eps mi acg acd pool,
  ((negative gp \/ negative mi \/ negative acg \/ negative acd) ->
   exists msg, dis_loss cls model fn gp eps mi acg acd pool = Err (ValueError msg))
  /\ (~ negative gp -> ~ negative mi -> ~ negative acg -> ~ negative acd ->
      (positive mi -> is_InfoGANModel cls = false ->
       exists msg, dis_loss cls model fn gp eps mi acg acd pool = Err (ValueError msg))
      /\ ((positive acg \/ positive acd) -> is_ACGANModel cls = false ->
          exists msg, dis_loss cls model fn gp eps mi acg acd pool = Err (ValueError msg)))
  /\ (~ negative gp -> zero_or_none mi -> zero_or_none acg -> zero_or_none acd ->
      exists loss, dis_loss cls model fn gp eps mi acg acd pool = Ok loss).
Proof.
  intros cls model fn gp eps mi acg acd pool. unfold dis_loss.
  validated gp "gradient_penalty_weight"; [invalid|].
  validated mi "infogan_weight"; [invalid|].
  validated acg "aux_cond_generator_weight"; [invalid|].
  validated acd "aux_cond_discriminator_weight"; [invalid|].
  split; [tauto|]. split.
  - intros _ _ _ _. split.
    + intros Hp Hc. apply use_positive in Hp. rewrite Hp, Hc. cbn. eauto.
    + intros Hp Hc.
      assert (Hu : _use_aux_loss acg || _use_aux_loss acd = true).
      { apply orb_true_iff. destruct Hp as [Hp|Hp]; apply use_positive in Hp; auto. }
      rewrite Hu, Hc. cbn [negb andb].
      destruct (_use_aux_loss mi && negb (is_InfoGANModel cls)); eauto.
  - intros _ Hmi Hacg Hacd.
    destruct (zero_or_none_unused Hmi) as (_ & -> & _).
    destruct (zero_or_none_unused Hacg) as (_ & -> & _).
    destruct (zero_or_none_unused Hacd) as (_ & -> & _).
    cbn [andb orb]. eauto.
Qed.

End DisLoss.

End DisLossFacts.

Module GenLossFacts.
Import TrainScript LossFacts.

Section GenLoss.

Context (FLAGS : Flags) {L : LossLibrary}.

Local Open Scope Q_scope.

Lemma skipn_nth_error : forall A (l : list A) i x,
  nth_error l i = Some x -> skipn i l = x :: skipn (S i) l.
Proof.
  intros A l. induction l as [|y l IH]; intros i x H.
  - destruct i; discriminate.
  - destruct i as [|i]; [injection H as ->; reflexivity|].
    cbn [skipn]. apply IH. exact H.
Qed.

Lemma py_index_map : forall A B (f : A -> B) l i x,
  nth_error l i = Some x -> py_index (map f l) i = Ok (f x).
Proof.
  intros A B f l i x H. unfold py_index. rewrite nth_error_map, H. reflexivity.
Qed.

Lemma color_loss_pairs_spec : forall stats n i acc,
  (i + n + 1 = List.length stats)%nat ->
  exists t,
    color_loss_pairs FLAGS (map fst stats) (map snd stats) (seq i n) acc = Ok t
    /\ t == acc + specified_color_loss (FLAGS_color_loss FLAGS) (skipn i stats).
Proof.
  intros stats n. induction n as [|n IH]; intros i acc Hlen.
  - exists acc. split; [reflexivity|].
    destruct (nth_error stats i) as [x|] eqn:E.
    2:{ apply nth_error_None in E. lia. }
    rewrite (skipn_nth_error _ _ E), skipn_all2 by lia. cbn. ring.
  - destruct (nth_error stats i) as [x|] eqn:Ex.
    2:{ apply nth_error_None in Ex. lia. }
    destruct (nth_error stats (S i)) as [y|] eqn:Ey.
    2:{ apply nth_error_None in Ey. lia. }
    cbn [seq color_loss_pairs].
    rewrite (py_index_map fst _ _ Ex), (py_index_map snd _ _ Ex).
    replace (i + 1)%nat with (S i) by lia.
    rewrite (py_index_map fst _ _ Ey), (py_index_map snd _ _ Ey).
    cbn [rbind].
    destruct (IH (S i)
                (acc + (FLAGS_color_loss FLAGS * mean_squared_error (fst x) (fst y)
                        + FLAGS_color_loss FLAGS * 5 * mean_squared_error (snd x) (snd y))))
      as (t & Ht & Et); [lia|].
    exists t. split; [exact Ht|].
    rewrite Et, (skipn_nth_error _ _ Ex), (skipn_nth_error _ _ Ey).
    cbn [specified_color_loss]. ring.
Qed.

(** The colour loss the code computes is the specified sum multiplied by
    the weight once more. *)
Lemma color_loss_spec : forall models,
  List.length models = FLAGS_stack_depth FLAGS ->
  exists t,
    color_loss FLAGS models = Ok t
    /\ t == FLAGS_color_loss FLAGS
            * specified_color_loss (FLAGS_color_loss FLAGS) (stage_statistics models).
Proof.
  intros models Hlen. unfold color_loss.
  rewrite !length_map, Hlen, !Nat.eqb_refl. cbn [andb].
  fold (stage_statistics models).
  destruct (FLAGS_stack_depth FLAGS) as [|d] eqn:Ed.
  - destruct models; [|discriminate]. cbn. exists (FLAGS_color_loss FLAGS * 0).
    split; reflexivity.
  - replace (S d - 1)%nat with d by lia. unfold range.
    destruct (@color_loss_pairs_spec (stage_statistics models) d 0%nat 0) as (t & -> & Et).
    { unfold stage_statistics. rewrite length_map. lia. }
    cbn [rbind].
    exists (FLAGS_color_loss FLAGS * t). split; [reflexivity|].
    rewrite Et. cbn [skipn]. ring.
Qed.

Lemma gen_loss_stages_total : forall models fn mi aux indices acc,
  (forall i, In i indices -> (i < List.length models)%nat) ->
  exists t, gen_loss_stages models fn mi aux indices acc = Ok t.
Proof.
  intros models fn mi aux indices. induction indices as [|i rest IH]; intros acc Hin.
  - eexists. reflexivity.
  - cbn [gen_loss_stages].
    destruct (@py_index_length _ models i) as (m & -> & _); [apply Hin; now left|].
    cbn [rbind]. apply IH. intros k Hk. apply Hin. now right.
Qed.

Lemma gen_loss_stages_unused : forall models fn mi aux indices acc,
  _use_aux_loss mi = false -> _use_aux_loss aux = false ->
  gen_loss_stages models fn mi aux indices acc
  = gen_loss_stages models fn None None indices acc.
Proof.
  intros models fn mi aux indices. induction indices as [|i rest IH]; intros acc Hm Ha.
  - reflexivity.
  - cbn [gen_loss_stages]. destruct (py_index models i); [|reflexivity].
    cbn [rbind]. rewrite Hm, Ha. cbn [_use_aux_loss]. now apply IH.
Qed.

Lemma gen_loss_outcomes : forall models fn mi aux,
  (negative mi -> exists msg, gen_loss FLAGS models fn mi aux = Err (ValueError msg))
  /\ (~ negative mi -> negative aux ->
      exists msg, gen_loss FLAGS models fn mi aux = Err (ValueError msg))
  /\ (positive mi -> ~ negative aux ->
      gen_loss FLAGS models fn mi aux = Err (NameError "model"))
  /\ (zero_or_none mi -> positive aux ->
      gen_loss FLAGS models fn mi aux = Err (NameError "model"))
  /\ (zero_or_none mi -> zero_or_none aux ->
      gen_loss FLAGS models fn mi aux = gen_loss FLAGS models fn None None).
Proof.
  intros models fn mi aux. unfold gen_loss. repeat apply conj.
  - intros H. destruct (validate_negative "infogan_weight" H) as (msg & ->).
    cbn. eauto.
  - intros Hm Ha. rewrite (validate_not_negative _ Hm). cbn [rbind].
    destruct (validate_negative "aux_cond_generator_weight" Ha) as (msg & ->).
    cbn. eauto.
  - intros Hm Ha.
    rewrite (validate_not_negative _ (positive_not_negative Hm)),
            (validate_not_negative _ Ha).
    cbn [rbind]. apply use_positive in Hm. rewrite Hm. reflexivity.
  - intros Hm Ha. destruct (zero_or_none_unused Hm) as (Hn & Hu & _).
    rewrite (validate_not_negative _ Hn),
            (validate_not_negative _ (positive_not_negative Ha)).
    cbn [rbind]. rewrite Hu, (positive_truthy Ha). reflexivity.
  - intros Hm Ha. destruct (zero_or_none_unused Hm) as (Hn & Hu & _).
    destruct (zero_or_none_unused Ha) as (Hn' & Hu' & Ht').
    rewrite (validate_not_negative _ Hn), (validate_not_negative _ Hn').
    cbn [rbind _validate_aux_loss_weight _use_aux_loss truthy].
    rewrite Hu, Ht'. cbn [rbind _use_aux_loss_of]. rewrite Hu'.
    cbn [_use_aux_loss]. destruct (if Qlt_bool 0 _ then _ else _); [|reflexivity].
    cbn [rbind]. rewrite (gen_loss_stages_unused _ _ _ _ _ _ Hu Hu'). reflexivity.
Qed.






Lemma gen_loss_default_returns : forall models fn,
  List.length models = FLAGS_stack_depth FLAGS ->
  (1 <= FLAGS_stack_depth FLAGS)%nat ->
  exists loss, gen_loss FLAGS models fn None None = Ok loss.
Proof.
  intros models fn Hlen Hd. unfold gen_loss.
  cbn [_validate_aux_loss_weight rbind _use_aux_loss truthy _use_aux_loss_of].
  assert (Hc : exists c, (if Qlt_bool 0 (FLAGS_color_loss FLAGS)
                          then color_loss FLAGS models else Ok 0) = Ok c).
  { destruct (Qlt_bool 0 (FLAGS_color_loss FLAGS)); [|eauto].
    destruct (color_loss_spec _ Hlen) as (t & -> & _). eauto. }
  destruct Hc as (c & ->). cbn [rbind].
  destruct (@gen_loss_stages_total models fn None None
              (range (FLAGS_stack_depth FLAGS)) (0 + c)) as (t & ->).
  { intros i Hi. apply in_seq in Hi. lia. }
  cbn [rbind].
  destruct models as [|m ms]; [simpl in Hlen; lia|].
  destruct (@exists_last _ (m :: ms)) as (xs & x & ->); [discriminate|].
  rewrite py_last_snoc. cbn [rbind]. eauto.
Qed.

End GenLoss.

End GenLossFacts.

(** ** Train ops and hooks *)

Module ScheduleFacts.
Import TrainScript.

Lemma DiscriminatorTrainOps_fields_eq :
  DiscriminatorTrainOps_fields = ["discriminator_train_op"].
Proof. reflexivity. Qed.

Lemma GeneratorTrainOp_fields_eq : GeneratorTrainOp_fields = ["generator_train_op"].
Proof. reflexivity. Qed.

Lemma fetched_ops_list : forall ops, fetched_ops (PyList (map PyOp ops)) = ops.
Proof.
  intros ops. cbn [fetched_ops]. induction ops as [|o ops IH]; [reflexivity|].
  cbn [map flat_map fetched_ops app]. now rewrite IH.
Qed.

Section Schedule.

Context (FLAGS : Flags) (update_ops_collection : list string).

Lemma dis_update_ops_of_inv : forall models indices ups,
  dis_update_ops_of update_ops_collection models indices = Ok ups ->
  List.length ups = List.length indices
  /\ forall k i model, nth_error indices k = Some i -> nth_error models i = Some model ->
       nth_error ups k
       = Some (_get_dis_update_ops update_ops_collection
                 (scope_name (discriminator_scope model))).
Proof.
  intros models indices. induction indices as [|i rest IH]; intros ups H.
  - injection H as <-. split; [reflexivity|]. intros k; destruct k; discriminate.
  - cbn [dis_update_ops_of] in H. unfold py_index in H.
    destruct (nth_error models i) as [m|] eqn:Em; [|discriminate]. cbn [rbind] in H.
    destruct (dis_update_ops_of _ models rest) as [others|]; [|discriminate].
    injection H as <-. destruct (IH _ eq_refl) as [Hl Hn].
    split; [simpl; lia|].
    intros k j model Hk Hj. destruct k as [|k].
    + injection Hk as <-. cbn. congruence.
    + cbn. eapply Hn; eauto.
Qed.

Lemma disc_train_ops_of_inv : forall models losses n ups start ops,
  (forall i model, start <= i < start + n -> nth_error models i = Some model ->
     nth_error ups i
     = Some (_get_dis_update_ops update_ops_collection
               (scope_name (discriminator_scope model)))) ->
  disc_train_ops_of models losses ups (seq start n) = Ok ops ->
  List.length ops = n
  /\ forall k op, nth_error ops k = Some op ->
       exists model loss,
         nth_error models (start + k) = Some model
         /\ nth_error losses (start + k) = Some loss
         /\ op = stage_train_op update_ops_collection model loss.
Proof.
  intros models losses n ups. induction n as [|n IH]; intros start ops Hups H.
  - injection H as <-. split; [reflexivity|]. intros k; destruct k; discriminate.
  - cbn [seq disc_train_ops_of] in H. unfold py_index in H.
    destruct (nth_error losses start) as [l|] eqn:El; [|discriminate]. cbn [rbind] in H.
    destruct (nth_error models start) as [m|] eqn:Em; [|discriminate]. cbn [rbind] in H.
    destruct (nth_error ups start) as [u|] eqn:Eu; [|discriminate]. cbn [rbind] in H.
    destruct (disc_train_ops_of models losses ups (seq (S start) n)) as [others|] eqn:Eo;
      [|discriminate].
    injection H as <-.
    destruct (IH (S start) others) as [Hl Hn]; [|exact Eo|].
    { intros i model Hi Hm. apply Hups; [lia | assumption]. }
    split; [simpl; lia|].
    intros k op Hk. destruct k as [|k].
    + injection Hk as <-. rewrite Nat.add_0_r. exists m, l. repeat split; try assumption.
      unfold stage_train_op. rewrite (Hups start m) in Eu by (lia || assumption).
      congruence.
    + replace (start + S k) with (S start + k) by lia. apply Hn. exact Hk.
Qed.

Lemma train_ops_of_inv : forall models dis_losses gen_loss_tuple train_ops,
  train_ops_of FLAGS update_ops_collection models dis_losses gen_loss_tuple = Ok train_ops ->
  exists last disc_ops,
    py_last models = Ok last
    /\ List.length disc_ops = FLAGS_stack_depth FLAGS
    /\ (forall k op, nth_error disc_ops k = Some op ->
          exists model loss,
            nth_error models k = Some model
            /\ nth_error dis_losses k = Some loss
            /\ op = stage_train_op update_ops_collection model loss)
    /\ train_ops = train_ops_value (stack_train_op update_ops_collection last gen_loss_tuple) disc_ops.
Proof.
  intros models dis_losses gen_loss_tuple train_ops H.
  unfold train_ops_of, generator_train_op, discriminator_train_ops in H.
  destruct (py_last models) as [last|] eqn:El; [|discriminate].
  cbn [rbind] in H. unfold GeneratorTrainOp, DiscriminatorTrainOps, GANTrainOps in H.
  rewrite GeneratorTrainOp_fields_eq, DiscriminatorTrainOps_fields_eq in H.
  cbn [new_namedtuple List.length Nat.eqb rbind] in H.
  destruct (dis_update_ops_of _ _ _) as [ups|] eqn:Eu; [|discriminate].
  cbn [rbind] in H.
  destruct (disc_train_ops_of _ _ _ _) as [ops|] eqn:Eo; [|discriminate].
  cbn [rbind] in H. injection H as <-.
  destruct (dis_update_ops_of_inv _ _ Eu) as [Hul Hun].
  unfold range in *.
  destruct (@disc_train_ops_of_inv models dis_losses (FLAGS_stack_depth FLAGS) ups 0 ops)
    as [Hl Hn]; [|exact Eo|].
  { intros i model Hi Hm. apply (Hun i i model); [|exact Hm].
    rewrite nth_error_seq. destruct (i <? FLAGS_stack_depth FLAGS) eqn:E; [reflexivity|].
    apply Nat.ltb_ge in E. lia. }
  exists last, ops. split; [reflexivity|]. split; [exact Hl|].
  split; [exact Hn | reflexivity].
Qed.

(** The hooks and the runs of one training step, for the value of
    [train_ops]. *)
Lemma schedule_of_train_ops : forall train_steps gen_op disc_ops,
  get_hooks train_steps (train_ops_value gen_op disc_ops)
  = Ok [mkHook (PyList (map PyOp disc_ops)) (discriminator_train_steps train_steps);
        mkHook (PyNamedTuple GeneratorTrainOp_fields [PyOp gen_op])
               (generator_train_steps train_steps)]
  /\ training_step train_steps (train_ops_value gen_op disc_ops)
     = Ok (repeat disc_ops (discriminator_train_steps train_steps)
           ++ repeat [gen_op] (generator_train_steps train_steps)
           ++ [[GlobalStepInc]]).
Proof.
  intros train_steps gen_op disc_ops.
  assert (Hh : get_hooks train_steps (train_ops_value gen_op disc_ops)
               = Ok [mkHook (PyList (map PyOp disc_ops))
                            (discriminator_train_steps train_steps);
                     mkHook (PyNamedTuple GeneratorTrainOp_fields [PyOp gen_op])
                            (generator_train_steps train_steps)]) by reflexivity.
  split; [exact Hh|].
  unfold training_step. rewrite Hh. cbn [rbind].
  change (getattr (train_ops_value gen_op disc_ops) "global_step_inc_op")
    with (Ok (PyOp GlobalStepInc)).
  cbn [rbind flat_map]. unfold before_run. cbn [_train_ops _train_steps].
  rewrite fetched_ops_list, app_nil_r, <- app_assoc. reflexivity.
Qed.

End Schedule.

End ScheduleFacts.

(** * The claims *)

(** ** Resolution schedule *)

(** C9, as stated: the final size handed to the generator is not the same
    function of the stage in [train.py] and in the prediction builder;
    they differ already at stage 0 (32 against 64). *)
Lemma resolution_schedules_differ_at_stage_0 :
  TrainScript.final_size 0 <> Estimator.final_size 0.
Proof. discriminate. Qed.

(** C9, amended: [gan_model] of [train.py] asks for [2^(5+stage)], the
    prediction builder for [2^(6+stage)]; at every stage the second is
    twice the first, which is the first at the next stage, so the two
    schedules agree at no stage. *)
Theorem resolution_schedules : forall stage,
  TrainScript.final_size stage = 2 ^ (5 + stage)
  /\ Estimator.final_size stage = 2 ^ (6 + stage)
  /\ Estimator.final_size stage = 2 * TrainScript.final_size stage
  /\ Estimator.final_size stage = TrainScript.final_size (S stage)
  /\ TrainScript.final_size stage <> Estimator.final_size stage.
Proof.
  intros stage. unfold TrainScript.final_size, Estimator.final_size.
  assert (E : 2 ^ (6 + stage) = 2 * 2 ^ (5 + stage)).
  { replace (6 + stage) with (S (5 + stage)) by lia. apply Nat.pow_succ_r'. }
  assert (0 < 2 ^ (5 + stage)).
  { pose proof (Nat.pow_nonzero 2 (5 + stage)). lia. }
  repeat split; try reflexivity; lia.
Qed.

(** ** Colour loss *)

(** C5, at stack depth 2 and weight 50, for two stages whose means differ
    with mean squared error 1 and whose covariances agree: the code returns
    2500, the specified sum is 50. *)
Theorem color_loss_applies_the_weight_twice :
  TrainScript.color_loss (L := Demo.losses) (Demo.flags 2 50) Demo.two_stages = Ok 2500%Q
  /\ TrainScript.specified_color_loss (L := Demo.losses) 50
       (TrainScript.stage_statistics (L := Demo.losses) Demo.two_stages) = 50%Q.
Proof. split; reflexivity. Qed.

(** ** Discriminator loss *)

(** C8, as stated: a mutual-information weight that is supplied, with the
    value 0, for a model that is no [InfoGANModel], raises nothing. *)
Lemma dis_loss_accepts_a_zero_weight :
  TrainScript.is_InfoGANModel TrainScript.StackGANModelClass = false
  /\ TrainScript.dis_loss (L := Demo.losses) TrainScript.StackGANModelClass
       (Demo.stage_model "generated_0" 0)
       (@TrainScript.wasserstein_discriminator_loss Demo.losses)
       None 0 (Some 0%Q) None None None
     = Ok (TrainScript.mkDiscriminatorLoss 1).
Proof. split; reflexivity. Qed.

(** C8, amended: [dis_loss] raises [ValueError] when a weight is a negative
    number; when a positive mutual-information weight comes with a model
    that is no [InfoGANModel]; and when a positive auxiliary-classifier
    weight comes with a model that is no [ACGANModel].  When the three
    weights are [None] or zero and the gradient penalty weight is not
    negative, it returns a [DiscriminatorLoss]. *)
Theorem dis_loss_configuration :
  forall (L : TrainScript.LossLibrary) cls model fn gp eps mi acg acd pool,
  ((TrainScript.negative gp \/ TrainScript.negative mi
    \/ TrainScript.negative acg \/ TrainScript.negative acd) ->
   exists msg,
     TrainScript.dis_loss cls model fn gp eps mi acg acd pool = Err (ValueError msg))
  /\ (~ TrainScript.negative gp -> ~ TrainScript.negative mi ->
      ~ TrainScript.negative acg -> ~ TrainScript.negative acd ->
      (TrainScript.positive mi -> TrainScript.is_InfoGANModel cls = false ->
       exists msg,
         TrainScript.dis_loss cls model fn gp eps mi acg acd pool = Err (ValueError msg))
      /\ ((TrainScript.positive acg \/ TrainScript.positive acd) ->
          TrainScript.is_ACGANModel cls = false ->
          exists msg,
            TrainScript.dis_loss cls model fn gp eps mi acg acd pool
            = Err (ValueError msg)))
  /\ (~ TrainScript.negative gp -> TrainScript.zero_or_none mi ->
      TrainScript.zero_or_none acg -> TrainScript.zero_or_none acd ->
      exists loss, TrainScript.dis_loss cls model fn gp eps mi acg acd pool = Ok loss).
Proof. intros. apply DisLossFacts.dis_loss_outcomes. Qed.

Lemma one_is_positive : TrainScript.positive (Some 1%Q).
Proof. exists 1%Q. split; reflexivity. Defined.

Lemma minus_one_is_negative : TrainScript.negative (Some (-1)%Q).
Proof. exists (-1)%Q. split; reflexivity. Defined.

Lemma one_is_not_negative : ~ TrainScript.negative (Some 1%Q).
Proof. intros (q & E & H). injection E as <-. discriminate H. Defined.

Lemma none_is_not_negative : ~ TrainScript.negative None.
Proof. intros (q & E & _). discriminate E. Defined.

Lemma none_is_unused : TrainScript.zero_or_none None.
Proof. left. reflexivity. Defined.


Lemma dis_loss_configuration_witness :
  let run := TrainScript.dis_loss (L := Demo.losses) TrainScript.StackGANModelClass
               (Demo.stage_model "generated_0" 0)
               (@TrainScript.wasserstein_discriminator_loss Demo.losses) in
  (exists msg, run (Some (-1)%Q) 0%Q None None None None = Err (ValueError msg))
  /\ (exists msg, run (Some 1%Q) 0%Q (Some 1%Q) None None None = Err (ValueError msg))
  /\ (exists msg, run (Some 1%Q) 0%Q None None (Some 1%Q) None = Err (ValueError msg))
  /\ (exists loss, run (Some 1%Q) 0%Q None None None None = Ok loss).
Proof.
  intros run. repeat apply conj.
  - apply (proj1 (dis_loss_configuration Demo.losses TrainScript.StackGANModelClass
                    (Demo.stage_model "generated_0" 0) _ (Some (-1)%Q) 0%Q
                    None None None None)).
    left. exact minus_one_is_negative.
  - apply (proj1 (proj1 (proj2 (dis_loss_configuration Demo.losses
                    TrainScript.StackGANModelClass (Demo.stage_model "generated_0" 0) _
                    (Some 1%Q) 0%Q (Some 1%Q) None None None))
                    one_is_not_negative one_is_not_negative
                    none_is_not_negative none_is_not_negative)).
    + exact one_is_positive.
    + reflexivity.
  - apply (proj2 (proj1 (proj2 (dis_loss_configuration Demo.losses
                    TrainScript.StackGANModelClass (Demo.stage_model "generated_0" 0) _
                    (Some 1%Q) 0%Q None None (Some 1%Q) None))
                    one_is_not_negative none_is_not_negative
                    none_is_not_negative one_is_not_negative)).
    + right. exact one_is_positive.
    + reflexivity.
  - apply (proj2 (proj2 (dis_loss_configuration Demo.losses
                    TrainScript.StackGANModelClass (Demo.stage_model "generated_0" 0) _
                    (Some 1%Q) 0%Q None None None None))
                 one_is_not_negative none_is_unused none_is_unused none_is_unused).
Defined.

(** ** Generator loss *)




(** ** Training schedule *)

(** C4, at stack depth 2 with the default train steps: [get_hooks] makes
    two hooks, not three, and the training step runs both discriminator
    train operations in one run, then the generator operation, then the
    increment; the specified step runs each discriminator operation in a
    run of its own. *)
Theorem training_step_runs_the_discriminators_together :
  exists train_ops hooks d0 d1 g,
    TrainScript.train_ops_of (Demo.flags 2 50) [] Demo.two_stages
      [TrainScript.mkDiscriminatorLoss 1; TrainScript.mkDiscriminatorLoss 2]
      (TrainScript.mkGeneratorLoss 3) = Ok train_ops
    /\ TrainScript.get_hooks TrainScript.default_train_steps train_ops = Ok hooks
    /\ List.length hooks = 2
    /\ TrainScript.training_step TrainScript.default_train_steps train_ops
       = Ok [[d0; d1]; [g]; [TrainScript.GlobalStepInc]]
    /\ TrainScript.specified_training_step TrainScript.default_train_steps [d0; d1] g
       = [[d0]; [d1]; [g]; [TrainScript.GlobalStepInc]]
    /\ d0 <> d1.
Proof.
  do 5 eexists. repeat apply conj; try (vm_compute; reflexivity). discriminate.
Qed.

(** ** Prediction mode *)

(** C7, at stack depth 1 with [labels] left [None]: the prediction build
    raises [TypeError] where it unpacks the closure that
    [_get_generator_input_for_stage] returns, and returns no model; with
    [labels] given it raises the [ValueError] of [_gan_model_fn]. *)
Theorem prediction_build_raises :
  Estimator._gan_model_fn_models (C := Demo.estimator) 1 8 64 Demo.text_embedding
    Estimator.NoLabels Estimator.PREDICT Demo.estimator_generator
    Demo.estimator_discriminator None false Estimator.empty_world
  = Err (TypeError "cannot unpack non-iterable function object")
  /\ Estimator._gan_model_fn_models (C := Demo.estimator) 1 8 64 Demo.text_embedding
       (Estimator.LabelTensor Demo.provider_images) Estimator.PREDICT
       Demo.estimator_generator Demo.estimator_discriminator None false
       Estimator.empty_world
     = Err (ValueError "`labels` must be `None` when mode is `predict`.").
Proof. split; reflexivity. Qed.

(** In prediction mode [_gan_model_fn] never gets a model to hand to the
    head, whatever the collaborators, the depth and the inputs. *)
Lemma prediction_never_returns :
  forall (C : Estimator.Collaborators) stack_depth batch_size noise_dim features labels
         gen_fn dis_fn scope_arg apply_batch_norm w,
  Estimator._gan_model_fn_models stack_depth batch_size noise_dim features labels
    Estimator.PREDICT gen_fn dis_fn scope_arg apply_batch_norm w
  = Err (if negb (Estimator.is_None labels)
         then ValueError "`labels` must be `None` when mode is `predict`."
         else match stack_depth with
              | 0 => IndexError
              | S _ => Estimator.unpack_error
              end).
Proof.
  intros. unfold Estimator._gan_model_fn_models.
  destruct (negb (Estimator.is_None labels)); [reflexivity|].
  unfold bind. rewrite EstimatorFacts._make_prediction_gan_model_raises. reflexivity.
Qed.

(** ** The assembled stack *)

Lemma map_index_seq : forall A (f : A -> nat) ms start,
  (forall k m, nth_error ms k = Some m -> f m = start + k) ->
  map f ms = seq start (List.length ms).
Proof.
  intros A f ms. induction ms as [|x ms IH]; intros start H; [reflexivity|].
  cbn [map List.length seq]. f_equal.
  - rewrite (H 0 x eq_refl). lia.
  - apply IH. intros k m Hk. rewrite (H (S k) m Hk). lia.
Qed.

Lemma recording_builder_keeps_stage : forall g d kw wa m gr,
  Demo.recording_builder g d kw wa = Ok (m, gr) ->
  Estimator.stage m = Estimator.kw_stage kw.
Proof.
  intros g d kw wa m gr H. unfold Demo.recording_builder in H.
  destruct (Estimator.kw_generator_inputs kw) as [call|]; [|discriminate].
  destruct (call wa) as [[[[a b] c] w']|]; [|discriminate].
  injection H as <- _. reflexivity.
Defined.

(** C1, as stated: in prediction mode, at stack depth 2, the build yields
    no stack of two stage models with the stage indices 0 and 1; it raises. *)
Lemma prediction_build_yields_no_stack :
  Estimator._gan_model_fn_models (C := Demo.estimator) 2 8 64 Demo.text_embedding
    Estimator.NoLabels Estimator.PREDICT Demo.estimator_generator
    Demo.estimator_discriminator None false Estimator.empty_world
  = Err (TypeError "cannot unpack non-iterable function object")
  /\ ~ exists ms w',
        Estimator._gan_model_fn_models (C := Demo.estimator) 2 8 64 Demo.text_embedding
          Estimator.NoLabels Estimator.PREDICT Demo.estimator_generator
          Demo.estimator_discriminator None false Estimator.empty_world
        = Ok (inl ms, w')
        /\ List.length ms = 2
        /\ map Estimator.stage ms = [0; 1].
Proof. split; [reflexivity|]. intros (ms & w' & H & _). discriminate H. Qed.

(** C1, amended: for every stack depth, the stack [train.py] builds, when
    the build returns, has exactly [stack_depth] stage models with the
    stage indices 0, 1, ..., [stack_depth - 1]; so has the list the
    estimator builds in training and in evaluation mode, given that the
    stage builder records the stage it is called with.  (The prediction
    build is made to return one model, not the stack.) *)
Theorem stack_has_one_model_per_stage :
  (forall (FLAGS : TrainScript.Flags) (C : TrainScript.Collaborators) w ms w',
     TrainScript.build_stack FLAGS w = Ok (ms, w') ->
     List.length ms = TrainScript.FLAGS_stack_depth FLAGS
     /\ map TrainScript.stage ms = range (TrainScript.FLAGS_stack_depth FLAGS))
  /\ (forall (C : Estimator.Collaborators) stack_depth batch_size noise_dim features
             labels mode gen_fn dis_fn scope_arg apply_batch_norm w ms w',
        (forall g d kw wa m gr,
           Estimator.gan_model g d kw wa = Ok (m, gr) ->
           Estimator.stage m = Estimator.kw_stage kw) ->
        Estimator._gan_model_fn_models stack_depth batch_size noise_dim features labels
          mode gen_fn dis_fn scope_arg apply_batch_norm w = Ok (inl ms, w') ->
        mode <> Estimator.PREDICT
        /\ List.length ms = stack_depth
        /\ map Estimator.stage ms = range stack_depth).
Proof.
  split.
  - intros FLAGS C w ms w' H.
    destruct (TrainBuildFacts.build_with_built FLAGS _ _ H) as [-> Hb].
    pose proof (TrainScript.built_length Hb) as Hl. split; [exact Hl|].
    unfold range. rewrite <- Hl. apply map_index_seq.
    intros k m Hk. apply (TrainScript.built_stage Hb _ Hk).
  - intros C stack_depth batch_size noise_dim features labels mode gen_fn dis_fn
           scope_arg apply_batch_norm w ms w' Hrec H.
    assert (Hm : exists md, md <> Estimator.PREDICT /\ mode = md
              /\ Estimator._make_gan_models stack_depth batch_size noise_dim gen_fn dis_fn
                   labels features (Estimator._get_or_create_gen_super_scope scope_arg)
                   apply_batch_norm md w = Ok (ms, w')).
    { unfold Estimator._gan_model_fn_models in H. destruct mode.
      - exists Estimator.TRAIN. repeat split; [discriminate|].
        unfold bind, Estimator._make_train_gan_models in H.
        destruct (Estimator._make_gan_models _ _ _ _ _ _ _ _ _ _ _) as [[x w1]|];
          [|discriminate].
        unfold ret in H. congruence.
      - exists Estimator.EVAL. repeat split; [discriminate|].
        unfold bind, Estimator._make_eval_gan_models in H.
        destruct (Estimator._make_gan_models _ _ _ _ _ _ _ _ _ _ _) as [[x w1]|];
          [|discriminate].
        unfold ret in H. congruence.
      - (* the prediction branch hands the head one model, never a list *)
        exfalso. destruct (negb (Estimator.is_None labels)); [discriminate|].
        unfold bind in H.
        destruct (Estimator._make_prediction_gan_model _ _ _ _ _ _ _ _) as [[x w1]|];
          discriminate. }
    destruct Hm as (md & Hmd & -> & Hrun). split; [exact Hmd|].
    destruct (EstimatorFacts._make_gan_models_inv _ _ _ _ _ _ _ _ _ _ _ Hrun) as [Hl Hall].
    split; [exact Hl|]. unfold range. rewrite <- Hl. apply map_index_seq.
    intros k m Hk. destruct (Hall _ _ Hk) as (kw & wa & g & Hg & _ & Hst & _).
    rewrite (Hrec _ _ _ _ _ _ Hg), Hst, length_firstn.
    assert (k < List.length ms) by (apply nth_error_Some; congruence). lia.
Qed.

Lemma stack_has_one_model_per_stage_witness :
  (exists ms w',
     TrainScript.build_stack (C := Demo.sized_script) (Demo.flags 3 50)
       TrainScript.empty_world = Ok (ms, w')
     /\ List.length ms = 3 /\ map TrainScript.stage ms = [0; 1; 2])
  /\ (exists ms w',
        Estimator._gan_model_fn_models (C := Demo.estimator) 2 8 64 Demo.text_embedding
          (Estimator.LabelList [Demo.provider_images; Demo.provider_images])
          Estimator.EVAL Demo.estimator_generator Demo.estimator_discriminator
          None false Estimator.empty_world = Ok (inl ms, w')
        /\ List.length ms = 2 /\ map Estimator.stage ms = [0; 1]).
Proof.
  split.
  - destruct (TrainScript.build_stack (C := Demo.sized_script) (Demo.flags 3 50)
                TrainScript.empty_world) as [[ms w']|e] eqn:E; [|discriminate E].
    exists ms, w'. split; [reflexivity|].
    exact (proj1 stack_has_one_model_per_stage (Demo.flags 3 50) Demo.sized_script
             TrainScript.empty_world ms w' E).
  - destruct (Estimator._gan_model_fn_models (C := Demo.estimator) 2 8 64
                Demo.text_embedding
                (Estimator.LabelList [Demo.provider_images; Demo.provider_images])
                Estimator.EVAL Demo.estimator_generator Demo.estimator_discriminator
                None false Estimator.empty_world) as [[[ms|m] w']|e] eqn:E;
      [|discriminate E|discriminate E].
    exists ms, w'. split; [reflexivity|].
    exact (proj2 (proj2 stack_has_one_model_per_stage Demo.estimator 2 8 64
                    Demo.text_embedding
                    (Estimator.LabelList [Demo.provider_images; Demo.provider_images])
                    Estimator.EVAL Demo.estimator_generator Demo.estimator_discriminator
                    None false Estimator.empty_world ms w'
                    recording_builder_keeps_stage E)).
Defined.

(** C2: in the stack [train.py] builds, the generator input of stage 0 is
    the noise sample, and the generator input of every stage [i > 0] is the
    list of the hidden code of stage [i - 1] and the noise.  In the
    estimator, the stage builder of stage [i] is called while the list
    holds the models of the stages before [i], with an input closure that
    returns the noise sample and the conditioning at stage 0, and the
    hidden code of stage [i - 1] and the conditioning at every later
    stage. *)
Theorem generator_inputs_thread_the_hidden_code :
  (forall (FLAGS : TrainScript.Flags) (C : TrainScript.Collaborators) w ms w',
     TrainScript.build_stack FLAGS w = Ok (ms, w') ->
     forall i m, nth_error ms i = Some m ->
       match i with
       | 0 => TrainScript.generator_inputs m
              = OneTensor (TrainScript.the_noise FLAGS)
       | S j => exists prev,
                  nth_error ms j = Some prev
                  /\ TrainScript.generator_inputs m
                     = TensorList [TrainScript.generator_hidden_code prev;
                                   TrainScript.the_noise FLAGS]
       end)
  /\ (forall (C : Estimator.Collaborators) stack_depth batch_size noise_dim gen_fn dis_fn
             labels features scope_arg apply_batch_norm mode w ms w',
        Estimator._make_gan_models stack_depth batch_size noise_dim gen_fn dis_fn
          labels features scope_arg apply_batch_norm mode w = Ok (ms, w') ->
        forall i m, nth_error ms i = Some m ->
          exists kw wa g call,
            Estimator.gan_model (Estimator.generator_with_mode gen_fn mode)
              (Estimator.discriminator_with_mode dis_fn mode) kw wa = Ok (m, g)
            /\ Estimator.kw_stage kw = i
            /\ Estimator.gan_models wa = firstn i ms
            /\ Estimator.kw_generator_inputs kw = Estimator.Function call
            /\ match i with
               | 0 => call wa
                      = Ok ((true, Estimator.random_normal [batch_size; noise_dim],
                             fst (fst (net_out (Estimator.augment features)))), wa)
               | S j => exists prev,
                          nth_error ms j = Some prev
                          /\ call wa
                             = Ok ((false, Estimator.generator_hidden_code prev,
                                    fst (fst (net_out (Estimator.augment features)))), wa)
               end).
Proof.
  split.
  - intros FLAGS C w ms w' H i m Hi.
    destruct (TrainBuildFacts.build_with_built FLAGS _ _ H) as [-> Hb].
    exact (TrainScript.built_inputs Hb _ Hi).
  - intros C stack_depth batch_size noise_dim gen_fn dis_fn labels features scope_arg
           apply_batch_norm mode w ms w' H i m Hi.
    destruct (EstimatorFacts._make_gan_models_inv _ _ _ _ _ _ _ _ _ _ _ H) as [Hl Hall].
    destruct (Hall _ _ Hi) as (kw & wa & g & Hg & Hbefore & Hst & _ & Hin).
    assert (Hlt : i < List.length ms) by (apply nth_error_Some; congruence).
    assert (Hlen : List.length (firstn i ms) = i) by (rewrite length_firstn; lia).
    rewrite Hlen in Hst, Hin.
    exists kw, wa, g, (Estimator.get_input i (Estimator.random_normal [batch_size; noise_dim])
                         (fst (fst (net_out (Estimator.augment features))))).
    repeat apply conj; try assumption.
    destruct i as [|j]; [apply EstimatorFacts.get_input_first|].
    destruct (@EstimatorFacts.get_input_next (S j)
                (Estimator.random_normal [batch_size; noise_dim])
                (fst (fst (net_out (Estimator.augment features)))) wa)
      as (prev & Hp & Hc); [lia | rewrite Hbefore, Hlen; lia |].
    exists prev. split; [|exact Hc].
    rewrite Hbefore in Hp. replace (S j - 1) with j in Hp by lia.
    rewrite nth_error_firstn in Hp.
    destruct (j <? S j) eqn:E; [exact Hp|]. apply Nat.ltb_ge in E. lia.
Qed.

Lemma generator_inputs_thread_the_hidden_code_witness :
  (exists ms w' m0 m1,
     TrainScript.build_stack (C := Demo.sized_script) (Demo.flags 2 50)
       TrainScript.empty_world = Ok (ms, w')
     /\ nth_error ms 0 = Some m0 /\ nth_error ms 1 = Some m1
     /\ TrainScript.generator_inputs m1
        = TensorList [TrainScript.generator_hidden_code m0; Demo.normal [8; 64]])
  /\ (exists ms w' m1,
        Estimator._make_gan_models (C := Demo.estimator) 2 8 64 Demo.estimator_generator
          Demo.estimator_discriminator
          (Estimator.LabelList [Demo.provider_images; Demo.provider_images])
          Demo.text_embedding (mkScope "Generator" "Generator/") false Estimator.TRAIN
          Estimator.empty_world = Ok (ms, w')
        /\ nth_error ms 1 = Some m1
        /\ exists kw wa g call prev,
             Estimator.gan_model (Collaborators := Demo.estimator)
               (Estimator.generator_with_mode Demo.estimator_generator Estimator.TRAIN)
               (Estimator.discriminator_with_mode Demo.estimator_discriminator
                  Estimator.TRAIN) kw wa = Ok (m1, g)
             /\ Estimator.kw_generator_inputs kw = Estimator.Function call
             /\ nth_error ms 0 = Some prev
             /\ call wa = Ok ((false, Estimator.generator_hidden_code prev,
                               mkTensor "augmented" None), wa)).
Proof.
  split.
  - destruct (TrainScript.build_stack (C := Demo.sized_script) (Demo.flags 2 50)
                TrainScript.empty_world) as [[ms w']|e] eqn:E; [|discriminate E].
    destruct (nth_error ms 1) as [m1|] eqn:E1.
    2:{ exfalso. revert E1. injection E as <- _. discriminate. }
    destruct (proj1 generator_inputs_thread_the_hidden_code (Demo.flags 2 50)
                Demo.sized_script TrainScript.empty_world ms w' E 1 m1 E1)
      as (prev & Hp & Hin).
    exists ms, w', prev, m1. repeat split; assumption.
  - destruct (Estimator._make_gan_models (C := Demo.estimator) 2 8 64
                Demo.estimator_generator Demo.estimator_discriminator
                (Estimator.LabelList [Demo.provider_images; Demo.provider_images])
                Demo.text_embedding (mkScope "Generator" "Generator/") false
                Estimator.TRAIN Estimator.empty_world) as [[ms w']|e] eqn:E;
      [|discriminate E].
    destruct (nth_error ms 1) as [m1|] eqn:E1.
    2:{ exfalso. revert E1. injection E as <- _. discriminate. }
    destruct (proj2 generator_inputs_thread_the_hidden_code Demo.estimator 2 8 64
                Demo.estimator_generator Demo.estimator_discriminator
                (Estimator.LabelList [Demo.provider_images; Demo.provider_images])
                Demo.text_embedding (mkScope "Generator" "Generator/") false
                Estimator.TRAIN Estimator.empty_world ms w' E 1 m1 E1)
      as (kw & wa & g & call & Hg & _ & _ & Hk & prev & Hp & Hc).
    exists ms, w', m1. split; [reflexivity|]. split; [exact E1|].
    exists kw, wa, g, call, prev. repeat split; assumption.
Defined.

(** ** Parameter sets *)

(** C3, as stated: at stack depth 2, with a generator that makes one
    variable per stage, the generator parameters recorded in the model of
    stage 0 are not those recorded in the model of stage 1. *)
Lemma generator_variables_differ_between_stages :
  exists ms w' m0 m1,
    TrainScript.build_stack (C := Demo.sized_script) (Demo.flags 2 50)
      TrainScript.empty_world = Ok (ms, w')
    /\ nth_error ms 0 = Some m0 /\ nth_error ms 1 = Some m1
    /\ TrainScript.generator_variables m0 = ["Generator/Generator_stage_0/weights"]
    /\ TrainScript.generator_variables m1
       = ["Generator/Generator_stage_0/weights"; "Generator/Generator_stage_1/weights"]
    /\ TrainScript.generator_variables m0 <> TrainScript.generator_variables m1.
Proof.
  do 4 eexists. repeat apply conj; try (vm_compute; reflexivity). discriminate.
Qed.

(** C3, amended: in the stack [train.py] builds, from a graph that has no
    variable under a discriminator stage scope, every stage model records
    the same generator scope; the generator parameters recorded at a stage
    are an initial part of those recorded at every later stage, and those
    recorded at the last stage are all the variables of the finished graph
    under the generator scope; the discriminator parameters of two
    distinct stages have no variable in common. *)
Theorem parameter_sets_of_the_stack :
  forall (FLAGS : TrainScript.Flags) (C : TrainScript.Collaborators) w ms w',
  Forall (fun v => String.prefix "Discriminator_stage_" v = false) (TrainScript.graph w) ->
  TrainScript.build_stack FLAGS w = Ok (ms, w') ->
  (forall m, In m ms -> TrainScript.generator_scope m = mkScope "Generator" "Generator/")
  /\ (forall a b ma mb, a <= b ->
        nth_error ms a = Some ma -> nth_error ms b = Some mb ->
        exists more,
          TrainScript.generator_variables mb = TrainScript.generator_variables ma ++ more)
  /\ (forall m, py_last ms = Ok m ->
        TrainScript.generator_variables m
        = trainable_variables "Generator" (TrainScript.graph w'))
  /\ (forall a b ma mb, a <> b ->
        nth_error ms a = Some ma -> nth_error ms b = Some mb ->
        forall v, In v (TrainScript.discriminator_variables ma) ->
                  ~ In v (TrainScript.discriminator_variables mb)).
Proof.
  intros FLAGS C w ms w' Hclean H.
  assert (Hc : TrainScript.collected (TrainScript.FLAGS_stack_depth FLAGS) w').
  { eapply TrainBuildFacts.build_with_collected; [exact Hclean | exact H]. }
  destruct (TrainBuildFacts.build_with_built FLAGS _ _ H) as [-> Hb].
  repeat apply conj.
  - intros m Hm. apply In_nth_error in Hm. destruct Hm as [k Hk].
    exact (TrainScript.built_scope Hb _ Hk).
  - exact (TrainScript.built_gen_nested Hc).
  - exact (TrainScript.built_gen_last Hc).
  - intros a b ma mb Hab Ha Hb' v Hva Hvb.
    pose proof (TrainScript.built_dis_vars Hc _ Ha) as Fa.
    pose proof (TrainScript.built_dis_vars Hc _ Hb') as Fb.
    rewrite Forall_forall in Fa, Fb.
    destruct (Fa _ Hva) as (l & ->). destruct (Fb _ Hvb) as (l' & E).
    apply Hab. exact (TrainBuildFacts.dis_name_stage E).
Qed.

Lemma parameter_sets_of_the_stack_witness :
  exists ms w' m0 m1,
    TrainScript.build_stack (C := Demo.sized_script) (Demo.flags 2 50)
      TrainScript.empty_world = Ok (ms, w')
    /\ nth_error ms 0 = Some m0 /\ nth_error ms 1 = Some m1
    /\ TrainScript.generator_scope m0 = TrainScript.generator_scope m1
    /\ (exists more,
          TrainScript.generator_variables m1 = TrainScript.generator_variables m0 ++ more)
    /\ TrainScript.generator_variables m1
       = trainable_variables "Generator" (TrainScript.graph w')
    /\ (forall v, In v (TrainScript.discriminator_variables m0) ->
                  ~ In v (TrainScript.discriminator_variables m1)).
Proof.
  destruct (TrainScript.build_stack (C := Demo.sized_script) (Demo.flags 2 50)
              TrainScript.empty_world) as [[ms w']|e] eqn:E; [|discriminate E].
  destruct (nth_error ms 0) as [m0|] eqn:E0.
  2:{ exfalso. revert E0. injection E as <- _. discriminate. }
  destruct (nth_error ms 1) as [m1|] eqn:E1.
  2:{ exfalso. revert E1. injection E as <- _. discriminate. }
  assert (El : py_last ms = Ok m1).
  { revert E0 E1. injection E as <- _. intros _ E1. injection E1 as <-. reflexivity. }
  destruct (parameter_sets_of_the_stack (Demo.flags 2 50) Demo.sized_script
              TrainScript.empty_world (Forall_nil _) E) as (Hs & Hn & Hl & Hd).
  exists ms, w', m0, m1. repeat apply conj; try reflexivity; try assumption.
  - rewrite (Hs m0 (nth_error_In _ _ E0)), (Hs m1 (nth_error_In _ _ E1)). reflexivity.
  - exact (Hn 0 1 m0 m1 (le_S _ _ (le_n 0)) E0 E1).
  - exact (Hl m1 El).
  - exact (Hd 0 1 m0 m1 (fun H => O_S _ H) E0 E1).
Defined.

(** ** The shape check *)




(** * Further properties of the code *)

(** ** Every stage model comes from one run of the stage builder *)

Module StackFacts.
Import TrainScript TrainBuildFacts.

Lemma in_get_variables : forall scope locals g v,
  In v (get_variables scope locals g)
  <-> In v g \/ exists l, In l locals /\ v = scoped scope l.
Proof.
  intros scope locals. induction locals as [|l ls IH]; intros g v; cbn [get_variables].
  - split; [auto|]. intros [H|(l & [] & _)]. exact H.
  - rewrite IH. destruct (in_graph (scoped scope l) g) eqn:E.
    + split.
      * intros [H|(x & Hx & ->)]; [auto|]. right. exists x. split; [now right | reflexivity].
      * intros [H|(x & [<-|Hx] & ->)]; [auto | | right; eauto].
        left. unfold in_graph in E. apply existsb_exists in E.
        destruct E as (y & Hy & Hxy). apply String.eqb_eq in Hxy. now subst y.
    + split.
      * intros [H|(x & Hx & ->)].
        -- apply in_app_iff in H. destruct H as [H|[<-|[]]]; [now left|].
           right. exists l. split; [now left | reflexivity].
        -- right. exists x. split; [now right | reflexivity].
      * intros [H|(x & [<-|Hx] & ->)].
        -- left. apply in_app_iff. now left.
        -- left. apply in_app_iff. right. now left.
        -- right. eauto.
Qed.

Section Trace.

Context (FLAGS : Flags) {C : Collaborators}.

Lemma build_stage_grows : forall check noise i w w',
  build_stage FLAGS check noise i w = Ok (tt, w') ->
  extends (graph w) (graph w') /\ exists m, gan_models w' = gan_models w ++ [m].
Proof.
  intros check noise i w w' H.
  destruct (build_stage_inv _ _ _ _ _ H) as (m & Hms & _ & _ & _ & _ & _ & _ & _ & Hg & _).
  split; [|eauto]. rewrite Hg.
  repeat match goal with
         | |- extends _ (get_variables ?s ?l ?g) =>
             destruct (get_variables_grows s l g) as (? & -> & _);
             eapply extends_trans; [|eexists; reflexivity]
         end.
  apply extends_refl.
Qed.

Lemma build_stages_grow : forall check noise stages w w',
  build_stages FLAGS check noise stages w = Ok (tt, w') ->
  extends (graph w) (graph w') /\ exists rest, gan_models w' = gan_models w ++ rest.
Proof.
  intros check noise stages. induction stages as [|i rest IH]; intros w w' H.
  - cbn in H. injection H as <-. split; [apply extends_refl|]. exists [].
    now rewrite app_nil_r.
  - cbn [build_stages] in H. unfold bind in H.
    destruct (build_stage FLAGS check noise i w) as [[[] w1]|] eqn:E; [|discriminate].
    destruct (build_stage_grows _ _ _ _ E) as (Hg & m & Hm).
    destruct (IH _ _ H) as (Hg' & more & Hmore).
    split; [eapply extends_trans; eauto|].
    exists (m :: more). rewrite Hmore, Hm, <- app_assoc. reflexivity.
Qed.

(** The run of [build_stage] that made the model at position [i + k]. *)
Lemma build_stages_trace : forall check noise n i w w',
  built FLAGS noise i w ->
  build_stages FLAGS check noise (seq i n) w = Ok (tt, w') ->
  forall k m, k < n -> nth_error (gan_models w') (i + k) = Some m ->
  exists wa wb,
    built FLAGS noise (i + k) wa
    /\ (collected i w -> collected (i + k) wa)
    /\ build_stage FLAGS check noise (i + k) wa = Ok (tt, wb)
    /\ gan_models wb = gan_models wa ++ [m]
    /\ extends (graph w) (graph wa)
    /\ extends (graph wb) (graph w').
Proof.
  intros check noise n. induction n as [|n IH]; intros i w w' Hb H k m Hk Hm; [lia|].
  cbn [seq build_stages] in H. unfold bind in H.
  destruct (build_stage FLAGS check noise i w) as [[[] w1]|] eqn:E; [|discriminate].
  destruct (build_stage_grows _ _ _ _ E) as (Hg1 & m0 & Hm0).
  destruct (build_stages_grow _ _ _ _ H) as (Hg2 & rest & Hrest).
  pose proof (built_length Hb) as Hlen.
  destruct k as [|k].
  - exists w, w1. rewrite Nat.add_0_r in *.
    repeat apply conj; try assumption; [tauto | | apply extends_refl].
    rewrite Hrest, Hm0, <- app_assoc, nth_error_app2, Hlen, Nat.sub_diag in Hm by lia.
    cbn in Hm. injection Hm as <-. exact Hm0.
  - replace (i + S k) with (S i + k) in * by lia.
    pose proof (@built_step _ _ check noise i w w1 Hb E) as Hb1.
    destruct (IH (S i) w1 w' Hb1 H k m ltac:(lia) Hm)
      as (wa & wb & Hba & Hca & Hrun & Hmb & Hga & Hgb).
    exists wa, wb. repeat apply conj; try assumption.
    + intros Hc. apply Hca. eapply collected_step; eauto.
    + eapply extends_trans; eauto.
Qed.

Lemma build_with_trace : forall check w ms w',
  build_with FLAGS check w = Ok (ms, w') ->
  forall k m, nth_error ms k = Some m ->
  exists wa wb,
    built FLAGS (the_noise FLAGS) k wa
    /\ (Forall (fun v => String.prefix "Discriminator_stage_" v = false) (graph w) ->
        collected k wa)
    /\ build_stage FLAGS check (the_noise FLAGS) k wa = Ok (tt, wb)
    /\ gan_models wb = gan_models wa ++ [m]
    /\ extends (graph w) (graph wa)
    /\ extends (graph wb) (graph w').
Proof.
  intros check w ms w' H k m Hk.
  destruct (build_with_built _ _ _ H) as [-> Hb].
  assert (Hlt : k < FLAGS_stack_depth FLAGS).
  { rewrite <- (built_length Hb). apply nth_error_Some. congruence. }
  unfold build_with, range in H. run_builder.
  destruct (build_stages FLAGS check _ _ _) as [[[] w1]|] eqn:E; [|discriminate].
  injection H as _ <-.
  destruct (@build_stages_trace check _ _ 0 _ w1 (built_initially FLAGS w) E k m Hlt Hk)
    as (wa & wb & Hba & Hca & Hrun & Hmb & Hga & Hgb).
  exists wa, wb. repeat apply conj; try assumption.
  intros Hclean. apply Hca. constructor; cbn [gan_models graph].
  - eapply Forall_impl; [|exact Hclean]. intros v Hv. now left.
  - intros j x Hj; destruct j; discriminate.
  - intros a b ma mb _ Ha; destruct a; discriminate.
  - intros j x Hj; destruct j; discriminate.
  - discriminate.
Qed.

(** The stage model that a run of [build_stage] appended. *)
Lemma build_stage_model : forall check noise i wa wb m,
  build_stage FLAGS check noise i wa = Ok (tt, wb) ->
  gan_models wb = gan_models wa ++ [m] ->
  stage m = i
  /\ scope_name (discriminator_scope m) = dis_scope_name i
  /\ graph wb
     = get_variables (dis_scope_name i)
         (net_vars (discriminator (real_data m) (FLAGS_apply_batch_norm FLAGS)))
         (get_variables (dis_scope_name i)
            (net_vars (discriminator (generated_data m) (FLAGS_apply_batch_norm FLAGS)))
            (get_variables
               (scoped (scope_name (generator_scope m)) ("Generator_stage_" ++ str i)%string)
               (net_vars (generator (generator_inputs m) (final_size i)
                                    (FLAGS_apply_batch_norm FLAGS)))
               (graph wa)))
  /\ generator_variables m = trainable_variables (scope_name (generator_scope m)) (graph wb)
  /\ discriminator_variables m = trainable_variables (dis_scope_name i) (graph wb)
  /\ (check = true -> shapes_match m = true).
Proof.
  intros check noise i wa wb m H Hm.
  destruct (build_stage_inv _ _ _ _ _ H)
    as (m' & Hms & Hst & _ & _ & _ & Hds & _ & _ & Hg & Hgv & Hdv & Hc).
  rewrite Hms in Hm. apply app_inj_tail in Hm. destruct Hm as [_ <-].
  repeat apply conj; assumption.
Qed.

(** The last stage model records the generator variables of the graph as
    the build leaves it. *)
Lemma build_stages_last : forall check noise stages w w',
  (forall m, py_last (gan_models w) = Ok m ->
     generator_variables m = trainable_variables (scope_name (generator_scope m)) (graph w)) ->
  build_stages FLAGS check noise stages w = Ok (tt, w') ->
  forall m, py_last (gan_models w') = Ok m ->
    generator_variables m = trainable_variables (scope_name (generator_scope m)) (graph w').
Proof.
  intros check noise stages. induction stages as [|i rest IH]; intros w w' Hw H.
  - cbn in H. injection H as <-. exact Hw.
  - cbn [build_stages] in H. unfold bind in H.
    destruct (build_stage FLAGS check noise i w) as [[[] w1]|] eqn:E; [|discriminate].
    apply (IH w1 w'); [|exact H].
    intros m Hm.
    destruct (build_stage_inv _ _ _ _ _ E)
      as (m' & Hms & _ & _ & _ & _ & _ & _ & _ & _ & Hgv & _).
    rewrite Hms, py_last_snoc in Hm. injection Hm as <-. exact Hgv.
Qed.

Lemma build_with_last : forall check w ms w',
  build_with FLAGS check w = Ok (ms, w') ->
  forall m, py_last ms = Ok m ->
    generator_variables m = trainable_variables (scope_name (generator_scope m)) (graph w').
Proof.
  intros check w ms w' H. unfold build_with in H. run_builder.
  destruct (build_stages FLAGS check _ _ _) as [[[] w1]|] eqn:E; [|discriminate].
  injection H as <- <-.
  eapply build_stages_last; [|exact E].
  cbn [gan_models]. intros m Hm. discriminate Hm.
Qed.

End Trace.

(** ** Static shapes *)

Lemma merge_dims_known : forall xs ys,
  dims_compatible xs ys = true -> Forall (fun y => y <> None) ys -> merge_dims xs ys = ys.
Proof.
  induction xs as [|x xs IH]; intros ys Hc Hk; destruct ys as [|y ys];
    try reflexivity; try discriminate.
  cbn [dims_compatible] in Hc. apply andb_true_iff in Hc. destruct Hc as [Hd Hc].
  inversion Hk as [|? ? Hy Hys]; subst. cbn [merge_dims]. f_equal.
  - destruct x as [a|], y as [b|]; cbn in *; try congruence.
    apply Nat.eqb_eq in Hd. now subst.
  - now apply IH.
Qed.

Lemma set_shape_known : forall t s t',
  set_shape t s = Ok t' -> Forall (fun y => y <> None) s -> shape t' = Some s.
Proof.
  intros t s t' H Hk. unfold set_shape in H.
  destruct (is_compatible_with (shape t) (Some s)) eqn:E; [|discriminate].
  injection H as <-. cbn [shape].
  destruct (shape t) as [xs|]; [|reflexivity].
  cbn [is_compatible_with] in E. now rewrite merge_dims_known.
Qed.

Lemma dims_compatible_known : forall a b,
  dims_compatible (map Some a) (map Some b) = true -> a = b.
Proof.
  induction a as [|x a IH]; intros b H; destruct b as [|y b];
    try reflexivity; try discriminate.
  cbn [map dims_compatible dim_compatible] in H. apply andb_true_iff in H.
  destruct H as [Hd H]. apply Nat.eqb_eq in Hd. f_equal; [exact Hd | now apply IH].
Qed.

(** ** Names under the generator scope and under a discriminator scope *)

Lemma generator_prefix_no_discriminator : forall v,
  String.prefix "Generator" v = true -> String.prefix "Discriminator_stage_" v = false.
Proof.
  intros v H. destruct (prefix_app _ _ H) as [c ->]. reflexivity.
Qed.

Lemma generator_name_prefix : forall i l,
  String.prefix "Generator"
    (scoped (scoped "Generator" ("Generator_stage_" ++ str i)%string) l) = true.
Proof. intros i l. reflexivity. Qed.

End StackFacts.

(** ** The stack of [train.py]: shapes and variables *)

(** X1: in a stack that [main] builds, the real data of stage [i] has the
    static shape [[batch_size, 2^(5+i), 2^(5+i), 3]], and with the shape
    check on a generator output whose static shape is fully known has
    exactly that shape. *)
Theorem stage_data_have_the_stage_resolution :
  forall (FLAGS : TrainScript.Flags) (C : TrainScript.Collaborators) check w ms w',
  TrainScript.build_with FLAGS check w = Ok (ms, w') ->
  forall i m, nth_error ms i = Some m ->
    shape (TrainScript.real_data m)
    = Some (map Some [TrainScript.FLAGS_batch_size FLAGS; 2 ^ (5 + i); 2 ^ (5 + i); 3])
    /\ (check = true ->
        forall dims, shape (TrainScript.generated_data m) = Some (map Some dims) ->
          dims = [TrainScript.FLAGS_batch_size FLAGS; 2 ^ (5 + i); 2 ^ (5 + i); 3]).
Proof.
  intros FLAGS C check w ms w' H i m Hi.
  assert (Hreal : shape (TrainScript.real_data m)
                  = Some (map Some [TrainScript.FLAGS_batch_size FLAGS;
                                    2 ^ (5 + i); 2 ^ (5 + i); 3])).
  { destruct (TrainBuildFacts.build_with_built FLAGS _ _ H) as [-> Hb].
    pose proof (TrainScript.built_shapes Hb _ Hi) as Hr.
    unfold TrainScript._get_real_data_for_stage in Hr.
    apply StackFacts.set_shape_known in Hr; [exact Hr|].
    repeat constructor; discriminate. }
  split; [exact Hreal|].
  intros -> dims Hd.
  destruct (StackFacts.build_with_trace FLAGS _ _ H _ Hi)
    as (wa & wb & _ & _ & Hrun & Hmb & _ & _).
  destruct (@StackFacts.build_stage_model FLAGS C _ _ _ _ _ _ Hrun Hmb)
    as (_ & _ & _ & _ & _ & Hc).
  specialize (Hc eq_refl). unfold TrainScript.shapes_match in Hc.
  rewrite Hreal, Hd in Hc. cbn [is_compatible_with] in Hc.
  now apply StackFacts.dims_compatible_known.
Qed.

Lemma stage_data_have_the_stage_resolution_witness :
  exists ms w' m1,
    TrainScript.build_with (C := Demo.sized_script) (Demo.flags 2 50) true
      TrainScript.empty_world = Ok (ms, w')
    /\ nth_error ms 1 = Some m1
    /\ shape (TrainScript.real_data m1) = Some [Some 8; Some 64; Some 64; Some 3]
    /\ shape (TrainScript.generated_data m1) = Some [Some 8; Some 64; Some 64; Some 3].
Proof.
  destruct (TrainScript.build_with (C := Demo.sized_script) (Demo.flags 2 50) true
              TrainScript.empty_world) as [[ms w']|e] eqn:E; [|discriminate E].
  destruct (nth_error ms 1) as [m1|] eqn:E1.
  2:{ exfalso. revert E1. injection E as <- _. discriminate. }
  destruct (stage_data_have_the_stage_resolution (Demo.flags 2 50) Demo.sized_script
              true TrainScript.empty_world E 1 E1) as [Hr Hg].
  exists ms, w', m1. repeat apply conj; try reflexivity; try assumption.
  revert E1. injection E as <- _. intros E1. injection E1 as <-. reflexivity.
Defined.

(** X2: in a stack that [main] builds from a graph with no variable under
    a discriminator stage scope, the discriminator variables recorded at
    stage [i] are exactly the variables the discriminator asked for in its
    two calls of that stage (on the generated and on the real data), under
    the scope [Discriminator_stage_i]. *)
Theorem discriminator_variables_are_those_of_the_stage :
  forall (FLAGS : TrainScript.Flags) (C : TrainScript.Collaborators) w ms w',
  Forall (fun v => String.prefix "Discriminator_stage_" v = false) (TrainScript.graph w) ->
  TrainScript.build_stack FLAGS w = Ok (ms, w') ->
  forall i m, nth_error ms i = Some m ->
  forall v,
    In v (TrainScript.discriminator_variables m)
    <-> exists l,
          (In l (net_vars (TrainScript.discriminator (TrainScript.generated_data m)
                             (TrainScript.FLAGS_apply_batch_norm FLAGS)))
           \/ In l (net_vars (TrainScript.discriminator (TrainScript.real_data m)
                                (TrainScript.FLAGS_apply_batch_norm FLAGS))))
          /\ v = TrainScript.dis_name i l.
Proof.
  intros FLAGS C w ms w' Hclean H i m Hi v.
  destruct (StackFacts.build_with_trace FLAGS _ _ H _ Hi)
    as (wa & wb & Hba & Hca & Hrun & Hmb & _ & _).
  specialize (Hca Hclean).
  destruct (@StackFacts.build_stage_model FLAGS C _ _ _ _ _ _ Hrun Hmb)
    as (_ & _ & Hg & _ & Hdv & _).
  assert (Hsc : TrainScript.generator_scope m = TrainScript.default_scope).
  { pose proof (@TrainBuildFacts.built_step FLAGS C true _ _ _ _ Hba Hrun) as Hb'.
    apply (TrainScript.built_scope Hb' i).
    rewrite Hmb, nth_error_app2, (TrainScript.built_length Hba), Nat.sub_diag;
      [reflexivity | rewrite (TrainScript.built_length Hba); lia]. }
  rewrite Hsc in Hg. cbn [scope_name TrainScript.default_scope] in Hg.
  rewrite Hdv, in_trainable_variables, Hg, !StackFacts.in_get_variables.
  fold (TrainScript.dis_name i). split.
  - intros [[[[Hv|(l & Hl & ->)]|(l & Hl & ->)]|(l & Hl & ->)] Hp].
    + exfalso. pose proof (TrainScript.built_graph Hca) as F.
      rewrite Forall_forall in F. destruct (F _ Hv) as [Hno|(k & l & Hk & ->)].
      * rewrite (prefix_trans _ _ _ (TrainBuildFacts.stage_prefix_of_dis_scope i) Hp) in Hno.
        discriminate.
      * apply TrainBuildFacts.dis_name_prefix in Hp. lia.
    + exfalso.
      pose proof (prefix_trans _ _ _ (TrainBuildFacts.stage_prefix_of_dis_scope i) Hp) as Hd.
      rewrite TrainBuildFacts.dis_prefix_of_generator_name in Hd. discriminate.
    + exists l. auto.
    + exists l. auto.
  - intros (l & [Hl|Hl] & ->).
    + split; [|apply TrainBuildFacts.dis_scope_prefix_dis_name].
      left. right. exists l. auto.
    + split; [|apply TrainBuildFacts.dis_scope_prefix_dis_name].
      right. exists l. auto.
Qed.

Lemma discriminator_variables_are_those_of_the_stage_witness :
  exists ms w' m1,
    TrainScript.build_stack (C := Demo.sized_script) (Demo.flags 2 50)
      TrainScript.empty_world = Ok (ms, w')
    /\ nth_error ms 1 = Some m1
    /\ In "Discriminator_stage_1/weights" (TrainScript.discriminator_variables m1).
Proof.
  destruct (TrainScript.build_stack (C := Demo.sized_script) (Demo.flags 2 50)
              TrainScript.empty_world) as [[ms w']|e] eqn:E; [|discriminate E].
  destruct (nth_error ms 1) as [m1|] eqn:E1.
  2:{ exfalso. revert E1. injection E as <- _. discriminate. }
  exists ms, w', m1. split; [reflexivity|]. split; [exact E1|].
  apply (proj2 (discriminator_variables_are_those_of_the_stage (Demo.flags 2 50)
                  Demo.sized_script TrainScript.empty_world (Forall_nil _) E 1 E1
                  "Discriminator_stage_1/weights")).
  exists "weights". split; [|reflexivity]. left. left. reflexivity.
Defined.

(** X3: in a stack that [main] builds, no variable recorded as a generator
    variable of some stage is recorded as a discriminator variable of any
    stage: what the generator train operation updates and what a
    discriminator train operation updates never overlap. *)
Theorem generator_and_discriminator_variables_are_apart :
  forall (FLAGS : TrainScript.Flags) (C : TrainScript.Collaborators) check w ms w',
  TrainScript.build_with FLAGS check w = Ok (ms, w') ->
  forall ma mb, In ma ms -> In mb ms ->
  forall v, In v (TrainScript.generator_variables ma) ->
            ~ In v (TrainScript.discriminator_variables mb).
Proof.
  intros FLAGS C check w ms w' H ma mb Ha Hb v Hva Hvb.
  apply In_nth_error in Ha. destruct Ha as [a Ha].
  apply In_nth_error in Hb. destruct Hb as [b Hb].
  destruct (TrainBuildFacts.build_with_built FLAGS _ _ H) as [Hms Hbuilt].
  assert (Hsc : TrainScript.generator_scope ma = TrainScript.default_scope).
  { rewrite Hms in Ha. exact (TrainScript.built_scope Hbuilt _ Ha). }
  destruct (StackFacts.build_with_trace FLAGS _ _ H _ Ha)
    as (wa & wb & _ & _ & Hrun & Hmb & _ & _).
  destruct (@StackFacts.build_stage_model FLAGS C _ _ _ _ _ _ Hrun Hmb)
    as (_ & _ & _ & Hgv & _ & _).
  destruct (StackFacts.build_with_trace FLAGS _ _ H _ Hb)
    as (wa' & wb' & _ & _ & Hrun' & Hmb' & _ & _).
  destruct (@StackFacts.build_stage_model FLAGS C _ _ _ _ _ _ Hrun' Hmb')
    as (_ & _ & _ & _ & Hdv & _).
  rewrite Hgv, Hsc in Hva. cbn [scope_name TrainScript.default_scope] in Hva.
  apply in_trainable_variables in Hva. destruct Hva as [_ Hg].
  rewrite Hdv in Hvb. apply in_trainable_variables in Hvb. destruct Hvb as [_ Hd].
  pose proof (prefix_trans _ _ _ (TrainBuildFacts.stage_prefix_of_dis_scope b) Hd) as Hd'.
  rewrite (StackFacts.generator_prefix_no_discriminator _ Hg) in Hd'. discriminate.
Qed.

Lemma generator_and_discriminator_variables_are_apart_witness :
  exists ms w' m0 m1,
    TrainScript.build_with (C := Demo.sized_script) (Demo.flags 2 50) true
      TrainScript.empty_world = Ok (ms, w')
    /\ nth_error ms 0 = Some m0 /\ nth_error ms 1 = Some m1
    /\ In "Generator/Generator_stage_0/weights" (TrainScript.generator_variables m1)
    /\ ~ In "Generator/Generator_stage_0/weights" (TrainScript.discriminator_variables m0).
Proof.
  destruct (TrainScript.build_with (C := Demo.sized_script) (Demo.flags 2 50) true
              TrainScript.empty_world) as [[ms w']|e] eqn:E; [|discriminate E].
  destruct (nth_error ms 0) as [m0|] eqn:E0.
  2:{ exfalso. revert E0. injection E as <- _. discriminate. }
  destruct (nth_error ms 1) as [m1|] eqn:E1.
  2:{ exfalso. revert E1. injection E as <- _. discriminate. }
  assert (Hin : In "Generator/Generator_stage_0/weights" (TrainScript.generator_variables m1)).
  { revert E1. injection E as <- _. intros E1. injection E1 as <-. left. reflexivity. }
  exists ms, w', m0, m1. repeat apply conj; try reflexivity; try assumption.
  exact (generator_and_discriminator_variables_are_apart (Demo.flags 2 50)
           Demo.sized_script true TrainScript.empty_world E m1 m0
           (nth_error_In _ _ E1) (nth_error_In _ _ E0) _ Hin).
Defined.

(** X4: in a stack that [main] builds, every variable that the generator
    of any stage asked for is among the generator variables recorded in the
    last stage model, the ones the single generator train operation
    updates. *)
Theorem last_model_holds_the_variables_of_every_generator :
  forall (FLAGS : TrainScript.Flags) (C : TrainScript.Collaborators) check w ms w',
  TrainScript.build_with FLAGS check w = Ok (ms, w') ->
  forall last, py_last ms = Ok last ->
  forall i m, nth_error ms i = Some m ->
  forall l,
    In l (net_vars (TrainScript.generator (TrainScript.generator_inputs m)
                      (TrainScript.final_size i)
                      (TrainScript.FLAGS_apply_batch_norm FLAGS))) ->
    In (scoped (scoped "Generator" ("Generator_stage_" ++ str i)%string) l)
       (TrainScript.generator_variables last).
Proof.
  intros FLAGS C check w ms w' H last Hlast i m Hi l Hl.
  destruct (TrainBuildFacts.build_with_built FLAGS _ _ H) as [Hms Hbuilt].
  assert (Hlsc : TrainScript.generator_scope last = TrainScript.default_scope).
  { apply py_last_nth in Hlast. rewrite Hms in Hlast.
    exact (TrainScript.built_scope Hbuilt _ Hlast). }
  assert (Hsc : TrainScript.generator_scope m = TrainScript.default_scope).
  { rewrite Hms in Hi. exact (TrainScript.built_scope Hbuilt _ Hi). }
  rewrite (@StackFacts.build_with_last FLAGS C _ _ _ _ H _ Hlast), Hlsc.
  cbn [scope_name TrainScript.default_scope].
  apply in_trainable_variables. split; [|apply StackFacts.generator_name_prefix].
  destruct (StackFacts.build_with_trace FLAGS _ _ H _ Hi)
    as (wa & wb & _ & _ & Hrun & Hmb & _ & (extra & ->)).
  destruct (@StackFacts.build_stage_model FLAGS C _ _ _ _ _ _ Hrun Hmb)
    as (_ & _ & Hg & _ & _ & _).
  apply in_app_iff. left. rewrite Hg, Hsc. cbn [scope_name TrainScript.default_scope].
  rewrite !StackFacts.in_get_variables. left. left. right. exists l. auto.
Qed.

Lemma last_model_holds_the_variables_of_every_generator_witness :
  exists ms w' last,
    TrainScript.build_with (C := Demo.sized_script) (Demo.flags 2 50) true
      TrainScript.empty_world = Ok (ms, w')
    /\ py_last ms = Ok last
    /\ In "Generator/Generator_stage_0/weights" (TrainScript.generator_variables last).
Proof.
  destruct (TrainScript.build_with (C := Demo.sized_script) (Demo.flags 2 50) true
              TrainScript.empty_world) as [[ms w']|e] eqn:E; [|discriminate E].
  destruct (py_last ms) as [last|e] eqn:El.
  2:{ exfalso. revert El. injection E as <- _. discriminate. }
  destruct (nth_error ms 0) as [m0|] eqn:E0.
  2:{ exfalso. revert E0. injection E as <- _. discriminate. }
  exists ms, w', last. split; [reflexivity|]. split; [exact El|].
  exact (last_model_holds_the_variables_of_every_generator (Demo.flags 2 50)
           Demo.sized_script true TrainScript.empty_world E El 0 E0 "weights"
           (or_introl eq_refl)).
Defined.

(** ** The values of the losses *)

Module LossValueFacts.
Import TrainScript LossFacts GenLossFacts TrainMain.

Local Open Scope Q_scope.

Lemma weight_cases : forall w : Weight, negative w \/ positive w \/ zero_or_none w.
Proof.
  intros [q|]; [|right; right; now left].
  destruct (Q_dec q 0) as [[H|H]|H].
  - left. exists q. auto.
  - right. left. exists q. auto.
  - right. right. right. exists q. auto.
Qed.

Section Values.

Context (FLAGS : Flags) {L : LossLibrary}.

Lemma color_loss_asserts : forall models,
  List.length models <> FLAGS_stack_depth FLAGS ->
  color_loss FLAGS models = Err AssertionError.
Proof.
  intros models Hl. unfold color_loss. rewrite !length_map, Nat.eqb_refl.
  destruct (Nat.eqb_spec (List.length models) (FLAGS_stack_depth FLAGS)); [contradiction|].
  reflexivity.
Qed.

Lemma color_loss_ok : forall models c,
  color_loss FLAGS models = Ok c ->
  List.length models = FLAGS_stack_depth FLAGS
  /\ c == FLAGS_color_loss FLAGS
          * specified_color_loss (FLAGS_color_loss FLAGS) (stage_statistics models).
Proof.
  intros models c H.
  destruct (Nat.eq_dec (List.length models) (FLAGS_stack_depth FLAGS)) as [Hl|Hl].
  - split; [exact Hl|].
    destruct (color_loss_spec FLAGS _ Hl) as (t & Ht & Et).
    rewrite Ht in H. injection H as <-. exact Et.
  - rewrite (color_loss_asserts _ Hl) in H. discriminate.
Qed.

Lemma specified_color_loss_single : forall w (stats : list (Tensor * Tensor)),
  (List.length stats <= 1)%nat -> specified_color_loss w stats = 0.
Proof.
  intros w stats H. destruct stats as [|s1 [|s2 rest]]; try reflexivity.
  cbn in H. lia.
Qed.

Lemma gen_loss_stages_sum : forall models fn n i acc t,
  gen_loss_stages models fn None None (seq i n) acc = Ok t ->
  (n = 0 \/ i + n <= List.length models)%nat
  /\ t == acc + Qsum fn (firstn n (skipn i models)).
Proof.
  intros models fn n. induction n as [|n IH]; intros i acc t H.
  - cbn in H. injection H as <-. split; [now left|]. cbn. ring.
  - cbn [seq gen_loss_stages] in H. unfold py_index in H.
    destruct (nth_error models i) as [m|] eqn:Em; [|discriminate].
    cbn [rbind _use_aux_loss] in H.
    destruct (IH _ _ _ H) as [Hlen Ht].
    assert (Hi : (i < List.length models)%nat) by (apply nth_error_Some; congruence).
    split; [right; lia|].
    rewrite Ht, (skipn_nth_error _ _ Em). cbn [firstn Qsum fold_right].
    fold (Qsum fn (firstn n (skipn (S i) models))). ring.
Qed.

End Values.

End LossValueFacts.

(** X5: whenever [gen_loss] returns, both auxiliary weights were [None] or
    zero (the auxiliary terms of its loop are never added), the list holds
    at least [stack_depth] models (exactly that many when the colour weight
    is positive), and the loss is the colour term, plus the generator loss
    of each of the first [stack_depth] models, plus the regularization loss
    of the last model's generator scope; the colour term is the weight times
    the weighted sum over the adjacent stages. *)
Theorem gen_loss_value :
  forall (FLAGS : TrainScript.Flags) (L : TrainScript.LossLibrary) models fn mi aux loss,
  TrainScript.gen_loss FLAGS models fn mi aux = Ok loss ->
  TrainScript.zero_or_none mi /\ TrainScript.zero_or_none aux
  /\ TrainScript.FLAGS_stack_depth FLAGS <= List.length models
  /\ ((0 < TrainScript.FLAGS_color_loss FLAGS)%Q ->
      List.length models = TrainScript.FLAGS_stack_depth FLAGS)
  /\ exists last,
       py_last models = Ok last
       /\ (TrainScript.generator_loss loss
           == (if TrainScript.Qlt_bool 0 (TrainScript.FLAGS_color_loss FLAGS)
               then TrainScript.FLAGS_color_loss FLAGS
                    * TrainScript.specified_color_loss (TrainScript.FLAGS_color_loss FLAGS)
                        (TrainScript.stage_statistics models)
               else 0)
              + TrainMain.Qsum fn (firstn (TrainScript.FLAGS_stack_depth FLAGS) models)
              + TrainScript.get_regularization_loss_of (TrainScript.generator_scope last))%Q.
Proof.
  intros FLAGS L models fn mi aux loss H.
  destruct (GenLossFacts.gen_loss_outcomes FLAGS models fn mi aux)
    as (H1 & H2 & H3 & H4 & H5).
  assert (Hw : TrainScript.zero_or_none mi /\ TrainScript.zero_or_none aux).
  { destruct (LossValueFacts.weight_cases mi) as [Hm|[Hm|Hm]].
    - destruct (H1 Hm) as (msg & E). congruence.
    - destruct (LossValueFacts.weight_cases aux) as [Ha|[Ha|Ha]].
      + destruct (H2 (LossFacts.positive_not_negative Hm) Ha) as (msg & E). congruence.
      + rewrite (H3 Hm (LossFacts.positive_not_negative Ha)) in H. discriminate.
      + rewrite (H3 Hm (proj1 (LossFacts.zero_or_none_unused Ha))) in H. discriminate.
    - destruct (LossValueFacts.weight_cases aux) as [Ha|[Ha|Ha]].
      + destruct (H2 (proj1 (LossFacts.zero_or_none_unused Hm)) Ha) as (msg & E).
        congruence.
      + rewrite (H4 Hm Ha) in H. discriminate.
      + split; assumption. }
  destruct Hw as [Hm Ha]. split; [exact Hm|]. split; [exact Ha|].
  rewrite (H5 Hm Ha) in H. clear H1 H2 H3 H4 H5.
  unfold TrainScript.gen_loss in H.
  cbn [TrainScript._validate_aux_loss_weight rbind TrainScript._use_aux_loss
       TrainScript.truthy TrainScript._use_aux_loss_of] in H.
  destruct (TrainScript.Qlt_bool 0 (TrainScript.FLAGS_color_loss FLAGS)) eqn:Ec.
  - destruct (TrainScript.color_loss FLAGS models) as [c|e] eqn:Ecl; [|discriminate].
    cbn [rbind] in H.
    destruct (TrainScript.gen_loss_stages _ _ _ _ _ _) as [t|e] eqn:Et; [|discriminate].
    cbn [rbind] in H.
    destruct (py_last models) as [last|e] eqn:El; [|discriminate].
    cbn [rbind] in H. injection H as <-.
    destruct (LossValueFacts.color_loss_ok FLAGS _ Ecl) as [Hl Hc].
    unfold range in Et.
    destruct (LossValueFacts.gen_loss_stages_sum _ _ _ _ _ Et) as [Hn Ht].
    split; [lia|]. split; [intros _; exact Hl|].
    exists last. split; [reflexivity|].
    cbn [TrainScript.generator_loss skipn] in *. rewrite Ht, Hc. ring.
  - cbn [rbind] in H.
    destruct (TrainScript.gen_loss_stages _ _ _ _ _ _) as [t|e] eqn:Et; [|discriminate].
    cbn [rbind] in H.
    destruct (py_last models) as [last|e] eqn:El; [|discriminate].
    cbn [rbind] in H. injection H as <-.
    unfold range in Et.
    destruct (LossValueFacts.gen_loss_stages_sum _ _ _ _ _ Et) as [Hn Ht].
    split; [lia|]. split.
    { intros Hpos. apply LossFacts.Qlt_bool_iff in Hpos. congruence. }
    exists last. split; [reflexivity|].
    cbn [TrainScript.generator_loss skipn] in *. rewrite Ht. ring.
Qed.

Lemma gen_loss_value_witness :
  exists loss,
    TrainScript.gen_loss (L := Demo.losses) (Demo.flags 2 50) Demo.two_stages
      (@TrainScript.wasserstein_generator_loss Demo.losses) None None = Ok loss
    /\ (TrainScript.generator_loss loss == 2500 + (1 + (1 + 0)) + 0)%Q.
Proof.
  destruct (TrainScript.gen_loss (L := Demo.losses) (Demo.flags 2 50) Demo.two_stages
              (@TrainScript.wasserstein_generator_loss Demo.losses) None None)
    as [loss|e] eqn:E; [|discriminate E].
  exists loss. split; [reflexivity|].
  destruct (gen_loss_value (Demo.flags 2 50) Demo.losses Demo.two_stages _ None None E)
    as (_ & _ & _ & _ & last & _ & Hv).
  rewrite Hv. reflexivity.
Defined.

(** X6: [color_loss] fails its assertion exactly when the number of models
    differs from [stack_depth]; for a list of that length it returns, the
    value being the weight times the weighted sum over the adjacent stages,
    which is zero for a stack of at most one stage. *)
Theorem color_loss_checks_the_number_of_models :
  forall (FLAGS : TrainScript.Flags) (L : TrainScript.LossLibrary) models,
  (List.length models <> TrainScript.FLAGS_stack_depth FLAGS ->
   TrainScript.color_loss FLAGS models = Err AssertionError)
  /\ (List.length models = TrainScript.FLAGS_stack_depth FLAGS ->
      exists t,
        TrainScript.color_loss FLAGS models = Ok t
        /\ (t == TrainScript.FLAGS_color_loss FLAGS
                 * TrainScript.specified_color_loss (TrainScript.FLAGS_color_loss FLAGS)
                     (TrainScript.stage_statistics models))%Q
        /\ (TrainScript.FLAGS_stack_depth FLAGS <= 1 -> (t == 0)%Q)).
Proof.
  intros FLAGS L models. split.
  - apply LossValueFacts.color_loss_asserts.
  - intros Hl. destruct (GenLossFacts.color_loss_spec FLAGS _ Hl) as (t & Ht & Et).
    exists t. repeat apply conj; try assumption.
    intros Hd. rewrite Et, LossValueFacts.specified_color_loss_single.
    + ring.
    + unfold TrainScript.stage_statistics. rewrite length_map. lia.
Qed.

Lemma color_loss_checks_the_number_of_models_witness :
  TrainScript.color_loss (L := Demo.losses) (Demo.flags 3 50) Demo.two_stages
  = Err AssertionError
  /\ (exists t,
        TrainScript.color_loss (L := Demo.losses) (Demo.flags 1 50)
          [Demo.stage_model "generated_0" 0] = Ok t
        /\ (t == 0)%Q).
Proof.
  split.
  - apply (proj1 (color_loss_checks_the_number_of_models (Demo.flags 3 50) Demo.losses
                    Demo.two_stages)).
    discriminate.
  - destruct (proj2 (color_loss_checks_the_number_of_models (Demo.flags 1 50) Demo.losses
                       [Demo.stage_model "generated_0" 0]) eq_refl)
      as (t & Ht & _ & H0).
    exists t. split; [exact Ht|]. apply H0. apply le_n.
Defined.

(** X7: for an [ACGANModel], the discriminator loss does not depend on
    [aux_cond_generator_weight], as long as that weight is not negative:
    [dis_loss] computes the generator's classification loss and never adds
    it. *)
Theorem dis_loss_leaves_out_the_generator_classification_loss :
  forall (L : TrainScript.LossLibrary) model fn gp eps mi acg acg' acd pool,
  ~ TrainScript.negative acg -> ~ TrainScript.negative acg' ->
  TrainScript.dis_loss TrainScript.ACGANModelClass model fn gp eps mi acg acd pool
  = TrainScript.dis_loss TrainScript.ACGANModelClass model fn gp eps mi acg' acd pool.
Proof.
  intros L model fn gp eps mi acg acg' acd pool Ha Ha'. unfold TrainScript.dis_loss.
  destruct (TrainScript._validate_aux_loss_weight gp _); [|reflexivity].
  cbn [rbind].
  destruct (TrainScript._validate_aux_loss_weight mi _); [|reflexivity].
  cbn [rbind].
  rewrite (LossFacts.validate_not_negative _ Ha), (LossFacts.validate_not_negative _ Ha').
  cbn [rbind].
  destruct (TrainScript._validate_aux_loss_weight acd _); [|reflexivity].
  cbn [rbind TrainScript.is_ACGANModel negb]. rewrite !andb_false_r. reflexivity.
Qed.

Lemma dis_loss_leaves_out_the_generator_classification_loss_witness :
  TrainScript.dis_loss (L := Demo.losses) TrainScript.ACGANModelClass
    (Demo.stage_model "generated_0" 0)
    (@TrainScript.wasserstein_discriminator_loss Demo.losses)
    None 0 None (Some 1%Q) None None
  = TrainScript.dis_loss (L := Demo.losses) TrainScript.ACGANModelClass
      (Demo.stage_model "generated_0" 0)
      (@TrainScript.wasserstein_discriminator_loss Demo.losses)
      None 0 None None None None.
Proof.
  exact (@dis_loss_leaves_out_the_generator_classification_loss Demo.losses
           (Demo.stage_model "generated_0" 0) _ None 0%Q None (Some 1%Q) None None None
           one_is_not_negative none_is_not_negative).
Defined.

(** ** [main], from the stack to the training step *)

Module MainFacts.
Import TrainScript LossFacts TrainMain.

Section Main.

Context (FLAGS : Flags) {L : LossLibrary}.

Local Open Scope Q_scope.

Lemma dis_loss_of_main : forall m,
  (FLAGS_gradient_penalty FLAGS < 0 ->
   exists msg,
     dis_loss StackGANModelClass m wasserstein_discriminator_loss
       (Some (FLAGS_gradient_penalty FLAGS)) (1 # 10000000000) None None None None
     = Err (ValueError msg))
  /\ (~ FLAGS_gradient_penalty FLAGS < 0 ->
      exists loss,
        dis_loss StackGANModelClass m wasserstein_discriminator_loss
          (Some (FLAGS_gradient_penalty FLAGS)) (1 # 10000000000) None None None None
        = Ok loss
        /\ discriminator_loss loss == stage_dis_loss FLAGS m).
Proof.
  intros m. unfold dis_loss, stage_dis_loss. cbn [_validate_aux_loss_weight].
  split; intros Hg.
  - apply Qlt_bool_iff in Hg. rewrite Hg. cbn [rbind]. eauto.
  - apply Qlt_bool_false in Hg. rewrite Hg.
    cbn [rbind _use_aux_loss andb orb weight_value].
    destruct (Qlt_bool 0 (FLAGS_gradient_penalty FLAGS)) eqn:Ep.
    + eexists. split; [reflexivity|]. cbn [discriminator_loss]. ring.
    + eexists. split; [reflexivity|]. cbn [discriminator_loss].
      apply Qlt_bool_false in Ep. apply Qlt_bool_false in Hg.
      assert (E0 : FLAGS_gradient_penalty FLAGS == 0).
      { destruct (Q_dec (FLAGS_gradient_penalty FLAGS) 0) as [[H|H]|H];
          [contradiction | contradiction | exact H]. }
      rewrite E0. ring.
Qed.

Lemma dis_losses_of_raises : forall models n s,
  (s + n <= List.length models)%nat -> (1 <= n)%nat ->
  FLAGS_gradient_penalty FLAGS < 0 ->
  exists msg, dis_losses_of FLAGS models (seq s n) = Err (ValueError msg).
Proof.
  intros models n s Hl Hn Hg. destruct n as [|n]; [lia|].
  cbn [seq dis_losses_of].
  destruct (@py_index_length _ models s) as (m & -> & _); [lia|].
  cbn [rbind]. destruct (proj1 (dis_loss_of_main m) Hg) as (msg & ->).
  cbn [rbind]. eauto.
Qed.

Lemma dis_losses_of_returns : forall models n s,
  (s + n <= List.length models)%nat ->
  ~ FLAGS_gradient_penalty FLAGS < 0 ->
  exists losses,
    dis_losses_of FLAGS models (seq s n) = Ok losses
    /\ List.length losses = n
    /\ forall k m, nth_error models (s + k) = Some m -> (k < n)%nat ->
         exists loss, nth_error losses k = Some loss
                      /\ discriminator_loss loss == stage_dis_loss FLAGS m.
Proof.
  intros models n. induction n as [|n IH]; intros s Hl Hg.
  - exists []. repeat split. intros k m _ Hk. lia.
  - cbn [seq dis_losses_of].
    destruct (@py_index_length _ models s) as (m & -> & Hm); [lia|].
    cbn [rbind]. destruct (proj2 (dis_loss_of_main m) Hg) as (loss & -> & Hv).
    cbn [rbind]. destruct (IH (S s)) as (others & -> & Hlen & Hall); [lia | exact Hg|].
    cbn [rbind]. exists (loss :: others). repeat split.
    + simpl. lia.
    + intros k x Hx Hk. destruct k as [|k].
      * rewrite Nat.add_0_r in Hx. rewrite Hm in Hx. injection Hx as <-.
        exists loss. split; [reflexivity | exact Hv].
      * cbn [nth_error]. apply Hall; [|lia].
        replace (S s + k)%nat with (s + S k)%nat by lia. exact Hx.
Qed.

End Main.

Section Ops.

Context (FLAGS : Flags) (update_ops_collection : list string).

Lemma dis_update_ops_of_returns : forall models indices,
  (forall i, In i indices -> i < List.length models) ->
  exists ups, dis_update_ops_of update_ops_collection models indices = Ok ups.
Proof.
  intros models indices. induction indices as [|i rest IH]; intros Hin.
  - eexists. reflexivity.
  - cbn [dis_update_ops_of].
    destruct (@py_index_length _ models i) as (m & -> & _); [apply Hin; now left|].
    cbn [rbind]. destruct IH as (ups & ->); [intros k Hk; apply Hin; now right|].
    cbn [rbind]. eauto.
Qed.

Lemma disc_train_ops_of_returns : forall models losses ups indices,
  (forall i, In i indices ->
     i < List.length models /\ i < List.length losses /\ i < List.length ups) ->
  exists ops, disc_train_ops_of models losses ups indices = Ok ops.
Proof.
  intros models losses ups indices. induction indices as [|i rest IH]; intros Hin.
  - eexists. reflexivity.
  - cbn [disc_train_ops_of].
    destruct (Hin i (or_introl eq_refl)) as (Hm & Hl & Hu).
    destruct (@py_index_length _ losses i) as (l & -> & _); [exact Hl|].
    destruct (@py_index_length _ models i) as (m & -> & _); [exact Hm|].
    destruct (@py_index_length _ ups i) as (u & -> & _); [exact Hu|].
    cbn [rbind]. destruct IH as (ops & ->); [intros k Hk; apply Hin; now right|].
    cbn [rbind]. eauto.
Qed.

Lemma train_ops_of_returns : forall models dis_losses gen_loss_tuple,
  List.length models = FLAGS_stack_depth FLAGS ->
  List.length dis_losses = FLAGS_stack_depth FLAGS ->
  1 <= FLAGS_stack_depth FLAGS ->
  exists train_ops,
    train_ops_of FLAGS update_ops_collection models dis_losses gen_loss_tuple = Ok train_ops.
Proof.
  intros models dis_losses gen_loss_tuple Hm Hl Hd.
  unfold train_ops_of, generator_train_op, discriminator_train_ops.
  destruct models as [|m0 ms0] eqn:Ems; [simpl in Hm; lia|].
  destruct (@exists_last _ (m0 :: ms0)) as (xs & x & Ex); [discriminate|].
  rewrite Ex in *. rewrite py_last_snoc. cbn [rbind].
  unfold GeneratorTrainOp, DiscriminatorTrainOps, GANTrainOps.
  rewrite ScheduleFacts.GeneratorTrainOp_fields_eq,
          ScheduleFacts.DiscriminatorTrainOps_fields_eq.
  cbn [new_namedtuple List.length Nat.eqb rbind].
  destruct (@dis_update_ops_of_returns (xs ++ [x]) (range (FLAGS_stack_depth FLAGS)))
    as (ups & Eu).
  { intros i Hi. apply in_seq in Hi. lia. }
  rewrite Eu. cbn [rbind].
  destruct (ScheduleFacts.dis_update_ops_of_inv _ _ _ Eu) as [Hul _].
  unfold range in Hul. rewrite length_seq in Hul.
  destruct (@disc_train_ops_of_returns (xs ++ [x]) dis_losses ups
              (range (FLAGS_stack_depth FLAGS))) as (ops & Eo).
  { intros i Hi. apply in_seq in Hi. lia. }
  rewrite Eo. cbn [rbind]. eexists. reflexivity.
Qed.

End Ops.

End MainFacts.

(** X8: the discriminator losses that [main] instantiates.  With a
    negative [FLAGS.gradient_penalty] the first call of [dis_loss] raises
    [ValueError]; otherwise there is one loss per stage, in stage order,
    and the loss of a stage is the Wasserstein loss of its model, plus the
    gradient penalty weighted by the flag, plus the regularization loss of
    the stage's discriminator scope. *)
Theorem discriminator_losses_of_main :
  forall (FLAGS : TrainScript.Flags) (L : TrainScript.LossLibrary) models,
  TrainScript.FLAGS_stack_depth FLAGS <= List.length models ->
  ((TrainScript.FLAGS_gradient_penalty FLAGS < 0)%Q ->
   1 <= TrainScript.FLAGS_stack_depth FLAGS ->
   exists msg,
     TrainScript.dis_losses_of FLAGS models (range (TrainScript.FLAGS_stack_depth FLAGS))
     = Err (ValueError msg))
  /\ (~ (TrainScript.FLAGS_gradient_penalty FLAGS < 0)%Q ->
      exists losses,
        TrainScript.dis_losses_of FLAGS models (range (TrainScript.FLAGS_stack_depth FLAGS))
        = Ok losses
        /\ List.length losses = TrainScript.FLAGS_stack_depth FLAGS
        /\ forall i m, nth_error models i = Some m ->
             i < TrainScript.FLAGS_stack_depth FLAGS ->
             exists loss,
               nth_error losses i = Some loss
               /\ (TrainScript.discriminator_loss loss
                   == TrainMain.stage_dis_loss FLAGS m)%Q).
Proof.
  intros FLAGS L models Hl. unfold range. split.
  - intros Hg Hd. apply MainFacts.dis_losses_of_raises; [lia | exact Hd | exact Hg].
  - intros Hg. apply MainFacts.dis_losses_of_returns; [lia | exact Hg].
Qed.

Lemma discriminator_losses_of_main_witness :
  exists l0 l1,
    TrainScript.dis_losses_of (L := Demo.losses) (Demo.flags 2 50) Demo.two_stages
      (range 2) = Ok [l0; l1]
    /\ (TrainScript.discriminator_loss l1 == 1 + 1 * 0 + 0)%Q.
Proof.
  destruct (proj2 (discriminator_losses_of_main (Demo.flags 2 50) Demo.losses
                     Demo.two_stages (le_n 2)))
    as (losses & E & Hlen & Hall).
  { intros H. discriminate H. }
  destruct losses as [|l0 [|l1 [|l2 rest]]]; try discriminate Hlen.
  exists l0, l1. split; [exact E|].
  destruct (Hall 1 (Demo.stage_model "generated_1" 1) eq_refl (le_n 2))
    as (loss & Hn & Hv).
  injection Hn as <-. exact Hv.
Defined.

(** X9: [main] as a whole.  With [stack_depth = 0] it stops with
    [IndexError] at [gan_models[-1]].  When the stack of [stack_depth >= 1]
    stages is built, the rest of [main] raises only for a negative
    [FLAGS.gradient_penalty] (the [ValueError] of [dis_loss]); otherwise it
    reaches the training loop, and one iteration runs all [stack_depth]
    discriminator train operations in one run (the operation of stage [k]
    minimises the loss of stage [k] over the discriminator variables of the
    model of stage [k]), then the generator train operation of the last
    model, then the increment of the global step. *)
Theorem main_reaches_the_training_loop :
  forall (FLAGS : TrainScript.Flags) (C : TrainScript.Collaborators)
         (L : TrainScript.LossLibrary) update_ops w,
  (TrainScript.FLAGS_stack_depth FLAGS = 0 ->
   TrainMain.main FLAGS update_ops w = Err IndexError)
  /\ (forall e, TrainScript.build_stack FLAGS w = Err e ->
                TrainMain.main FLAGS update_ops w = Err e)
  /\ (forall ms w',
        TrainScript.build_stack FLAGS w = Ok (ms, w') ->
        1 <= TrainScript.FLAGS_stack_depth FLAGS ->
        ((TrainScript.FLAGS_gradient_penalty FLAGS < 0)%Q ->
         exists msg, TrainMain.main FLAGS update_ops w = Err (ValueError msg))
        /\ (~ (TrainScript.FLAGS_gradient_penalty FLAGS < 0)%Q ->
            exists ds g,
              TrainMain.main FLAGS update_ops w
              = Ok ([ds; [g]; [TrainScript.GlobalStepInc]], w')
              /\ List.length ds = TrainScript.FLAGS_stack_depth FLAGS
              /\ (forall k d, nth_error ds k = Some d ->
                    exists m loss,
                      nth_error ms k = Some m
                      /\ d = TrainScript.stage_train_op update_ops m loss
                      /\ (TrainScript.discriminator_loss loss
                          == TrainMain.stage_dis_loss FLAGS m)%Q)
              /\ exists last loss,
                   py_last ms = Ok last
                   /\ TrainScript.gen_loss_tuple_of FLAGS ms = Ok loss
                   /\ g = TrainScript.stack_train_op update_ops last loss)).
Proof.
  intros FLAGS C L update_ops w. repeat apply conj.
  - intros H0. unfold TrainMain.main, TrainScript.build_stack, TrainScript.build_with,
      TrainMain.train_with.
    rewrite H0. reflexivity.
  - intros e He. unfold TrainMain.main, bind. rewrite He. reflexivity.
  - intros ms w' Hb Hd.
    destruct (TrainBuildFacts.build_with_built FLAGS _ _ Hb) as [Hms Hbuilt].
    assert (Hlen : List.length ms = TrainScript.FLAGS_stack_depth FLAGS).
    { rewrite Hms. exact (TrainScript.built_length Hbuilt). }
    unfold TrainMain.main, bind. rewrite Hb. unfold lift, TrainMain.train_with.
    split.
    + intros Hg.
      destruct (@MainFacts.dis_losses_of_raises FLAGS L ms
                  (TrainScript.FLAGS_stack_depth FLAGS) 0) as (msg & E);
        [lia | exact Hd | exact Hg |].
      unfold range. rewrite E. cbn [rbind]. eauto.
    + intros Hg.
      destruct (@MainFacts.dis_losses_of_returns FLAGS L ms
                  (TrainScript.FLAGS_stack_depth FLAGS) 0) as (losses & E & Hll & Hall);
        [lia | exact Hg |].
      unfold range at 1. rewrite E. cbn [rbind].
      destruct (py_last ms) as [last|e] eqn:El.
      2:{ destruct ms as [|m0 ms0]; [simpl in Hlen; lia|].
          destruct (@exists_last _ (m0 :: ms0)) as (xs & x & Ex); [discriminate|].
          rewrite Ex, py_last_snoc in El. discriminate. }
      cbn [rbind].
      destruct (GenLossFacts.gen_loss_default_returns FLAGS ms
                  TrainScript.wasserstein_generator_loss Hlen Hd) as (gl & Egl).
      unfold TrainScript.gen_loss_tuple_of at 1. rewrite Egl. cbn [rbind].
      destruct (@MainFacts.train_ops_of_returns FLAGS update_ops ms losses gl Hlen Hll Hd)
        as (train_ops & Et).
      rewrite Et. cbn [rbind].
      destruct (ScheduleFacts.train_ops_of_inv _ _ _ _ _ Et)
        as (last' & disc_ops & El' & Hdl & Hdn & ->).
      rewrite (proj2 (ScheduleFacts.schedule_of_train_ops _ _ _)).
      cbn [TrainScript.default_train_steps TrainScript.discriminator_train_steps
           TrainScript.generator_train_steps repeat app].
      exists disc_ops, (TrainScript.stack_train_op update_ops last' gl).
      repeat apply conj.
      * reflexivity.
      * exact Hdl.
      * intros k d Hk. destruct (Hdn _ _ Hk) as (m & loss & Hm & Hloss & ->).
        exists m, loss. repeat apply conj; [exact Hm | reflexivity |].
        assert (Hkd : k < TrainScript.FLAGS_stack_depth FLAGS).
        { rewrite <- Hll. apply nth_error_Some. congruence. }
        destruct (Hall k m Hm Hkd) as (loss' & Hl' & Hv).
        cbn [Nat.add] in Hl'. congruence.
      * exists last', gl. repeat apply conj; [congruence | exact Egl | reflexivity].
Qed.

Lemma main_reaches_the_training_loop_witness :
  TrainMain.main (C := Demo.sized_script) (L := Demo.losses) (Demo.flags 0 50) []
    TrainScript.empty_world = Err IndexError
  /\ (exists ds g w',
        TrainMain.main (C := Demo.sized_script) (L := Demo.losses) (Demo.flags 2 50) []
          TrainScript.empty_world = Ok ([ds; [g]; [TrainScript.GlobalStepInc]], w')
        /\ List.length ds = 2).
Proof.
  split.
  - exact (proj1 (main_reaches_the_training_loop (Demo.flags 0 50) Demo.sized_script
                    Demo.losses [] TrainScript.empty_world) eq_refl).
  - destruct (TrainScript.build_stack (C := Demo.sized_script) (Demo.flags 2 50)
                TrainScript.empty_world) as [[ms w']|e] eqn:E; [|discriminate E].
    destruct (proj2 (proj2 (proj2 (main_reaches_the_training_loop (Demo.flags 2 50)
                                     Demo.sized_script Demo.losses []
                                     TrainScript.empty_world))
                           ms w' E (le_S _ _ (le_n 1))))
      as (ds & g & Hmain & Hlen & _).
    { intros H. discriminate H. }
    exists ds, g, w'. split; [exact Hmain | exact Hlen].
Defined.

(** ** Update operations and hooks *)

Module UpdateOpsFacts.
Import TrainScript TrainBuildFacts.

Lemma in_get_dis_update_ops : forall coll scope op,
  In op (_get_dis_update_ops coll scope) <-> In op coll /\ String.prefix scope op = true.
Proof.
  intros coll scope op. unfold _get_dis_update_ops. rewrite !filter_In. split.
  - intros [[Hin Hp] _]. auto.
  - intros [Hin Hp]. repeat split; try assumption.
    apply existsb_exists. exists op. split; [exact Hin | apply String.eqb_refl].
Qed.

Lemma str_times_ten : forall i d,
  1 <= i -> d < 10 -> str (10 * i + d) = (str i ++ String (digit_char d) "")%string.
Proof.
  intros i d Hi Hd. rewrite str_unfold.
  destruct (Nat.ltb_spec (10 * i + d) 10) as [H|_]; [lia|].
  replace ((10 * i + d) / 10) with i
    by (apply (Nat.div_unique (10 * i + d) 10 i d); [exact Hd | reflexivity]).
  replace ((10 * i + d) mod 10) with d
    by (apply (Nat.mod_unique (10 * i + d) 10 i d); [exact Hd | reflexivity]).
  reflexivity.
Qed.

Lemma dis_name_unfold : forall k l,
  dis_name k l = (("Discriminator_stage_" ++ str k) ++ String "/" l)%string.
Proof. intros k l. reflexivity. Qed.

Lemma dis_scope_prefix_next_digit : forall i d l,
  1 <= i -> d < 10 ->
  String.prefix (dis_scope_name i) (dis_name (10 * i + d) l) = true.
Proof.
  intros i d l Hi Hd. rewrite dis_name_unfold, (str_times_ten Hi Hd).
  unfold dis_scope_name. rewrite <- (append_assoc "Discriminator_stage_" (str i)).
  rewrite append_assoc. apply app_prefix.
Qed.

Lemma dis_name_prefix_str : forall j k l,
  String.prefix (dis_scope_name j) (dis_name k l) = true ->
  String.prefix (str j) (str k ++ String "/" l) = true.
Proof.
  intros j k l H. unfold dis_name, dis_scope_name, scoped in H.
  cbn [append String.eqb Ascii.eqb Bool.eqb] in H.
  repeat (cbn [prefix] in H;
          match type of H with
          | (if ascii_dec ?a ?b then _ else _) = true =>
              destruct (ascii_dec a b); [|discriminate]
          end).
  exact H.
Qed.

Lemma single_digit_prefix : forall i j l,
  i < 10 -> j < 10 ->
  String.prefix (dis_scope_name i) (dis_name j l) = true -> i = j.
Proof.
  intros i j l Hi Hj H. apply dis_name_prefix_str in H.
  rewrite (str_unfold i), (str_unfold j) in H.
  destruct (Nat.ltb_spec i 10) as [_|]; [|lia].
  destruct (Nat.ltb_spec j 10) as [_|]; [|lia].
  cbn [append prefix] in H.
  destruct (ascii_dec (digit_char i) (digit_char j)) as [E|]; [|discriminate].
  destruct (digit_char_is_digit Hi) as [_ <-].
  destruct (digit_char_is_digit Hj) as [_ <-].
  now rewrite E.
Qed.

Lemma repeat_flat_map_ops : forall n ds,
  flat_map before_run (map (fun t => RunTrainOpsHook t n) (map PyOp ds))
  = flat_map (fun d => repeat [d] n) ds.
Proof.
  intros n ds. induction ds as [|d ds IH]; [reflexivity|].
  cbn [map flat_map]. rewrite IH. unfold before_run at 1.
  cbn [RunTrainOpsHook is_list_or_tuple _train_ops _train_steps fetched_ops flat_map app].
  reflexivity.
Qed.

End UpdateOpsFacts.

(** X10: which update operations the train operation of a discriminator
    stage gathers.  [_get_dis_update_ops] takes the update operations whose
    name has the stage's scope name as a prefix: those of the stage itself,
    never those of an earlier stage, and, for stages below 10, those of no
    other stage; but the scope name of stage [i >= 1] is a prefix of the
    scope names of the stages [10 * i + d], so the update operations of
    those stages are gathered by stage [i] as well. *)
Theorem discriminator_update_ops_follow_the_scope_prefix :
  forall update_ops i j l,
  In (TrainScript.dis_name j l) update_ops ->
  (In (TrainScript.dis_name j l)
      (TrainScript._get_dis_update_ops update_ops (TrainScript.dis_scope_name i)) ->
   i <= j)
  /\ (i = j ->
      In (TrainScript.dis_name j l)
         (TrainScript._get_dis_update_ops update_ops (TrainScript.dis_scope_name i)))
  /\ (i < 10 -> j < 10 ->
      In (TrainScript.dis_name j l)
         (TrainScript._get_dis_update_ops update_ops (TrainScript.dis_scope_name i)) ->
      i = j)
  /\ (1 <= i -> (exists d, d < 10 /\ j = 10 * i + d) ->
      In (TrainScript.dis_name j l)
         (TrainScript._get_dis_update_ops update_ops (TrainScript.dis_scope_name i))).
Proof.
  intros update_ops i j l Hin. repeat apply conj.
  - intros H. apply UpdateOpsFacts.in_get_dis_update_ops in H. destruct H as [_ Hp].
    exact (TrainBuildFacts.dis_name_prefix _ _ _ Hp).
  - intros ->. apply UpdateOpsFacts.in_get_dis_update_ops.
    split; [exact Hin | apply TrainBuildFacts.dis_scope_prefix_dis_name].
  - intros Hi Hj H. apply UpdateOpsFacts.in_get_dis_update_ops in H. destruct H as [_ Hp].
    exact (UpdateOpsFacts.single_digit_prefix _ Hi Hj Hp).
  - intros Hi (d & Hd & ->). apply UpdateOpsFacts.in_get_dis_update_ops.
    split; [exact Hin | now apply UpdateOpsFacts.dis_scope_prefix_next_digit].
Qed.

Lemma discriminator_update_ops_follow_the_scope_prefix_witness :
  In "Discriminator_stage_10/moving_mean"
     (TrainScript._get_dis_update_ops
        ["Discriminator_stage_1/moving_mean"; "Discriminator_stage_10/moving_mean"]
        "Discriminator_stage_1").
Proof.
  apply (proj2 (proj2 (proj2
           (discriminator_update_ops_follow_the_scope_prefix
              ["Discriminator_stage_1/moving_mean"; "Discriminator_stage_10/moving_mean"]
              1 10 "moving_mean" (or_intror (or_introl eq_refl)))))).
  - apply le_n.
  - exists 0. split; [repeat constructor | reflexivity].
Defined.

(** X11: [get_hooks] makes one hook per item of
    [train_ops.discriminator_train_op], in order, and then the generator
    hook.  Given a plain list of operations in that field, a training step
    is the specified one: each discriminator operation in a run of its own,
    the configured number of times, then the generator operation, then the
    increment.  Given a single operation in that field it raises
    [TypeError]. *)
Theorem get_hooks_makes_one_hook_per_item :
  forall train_steps gen items inc,
  TrainScript.get_hooks train_steps
    (TrainScript.PyNamedTuple TrainScript.GANTrainOps_fields
       [gen; TrainScript.PyList items; inc])
  = Ok (map (fun train_op =>
               TrainScript.RunTrainOpsHook train_op
                 (TrainScript.discriminator_train_steps train_steps)) items
        ++ [TrainScript.RunTrainOpsHook gen (TrainScript.generator_train_steps train_steps)])
  /\ (forall g ds,
        TrainScript.training_step train_steps
          (TrainScript.PyNamedTuple TrainScript.GANTrainOps_fields
             [TrainScript.PyOp g; TrainScript.PyList (map TrainScript.PyOp ds);
              TrainScript.PyOp TrainScript.GlobalStepInc])
        = Ok (TrainScript.specified_training_step train_steps ds g))
  /\ (forall d,
        TrainScript.get_hooks train_steps
          (TrainScript.PyNamedTuple TrainScript.GANTrainOps_fields
             [gen; TrainScript.PyOp d; inc])
        = Err (TypeError "object is not iterable")).
Proof.
  intros train_steps gen items inc. repeat apply conj.
  - reflexivity.
  - intros g ds. unfold TrainScript.training_step.
    change (TrainScript.get_hooks train_steps
              (TrainScript.PyNamedTuple TrainScript.GANTrainOps_fields
                 [TrainScript.PyOp g; TrainScript.PyList (map TrainScript.PyOp ds);
                  TrainScript.PyOp TrainScript.GlobalStepInc]))
      with (Ok (map (fun train_op =>
                       TrainScript.RunTrainOpsHook train_op
                         (TrainScript.discriminator_train_steps train_steps))
                    (map TrainScript.PyOp ds)
                ++ [TrainScript.RunTrainOpsHook (TrainScript.PyOp g)
                      (TrainScript.generator_train_steps train_steps)])).
    cbn [rbind].
    change (TrainScript.getattr
              (TrainScript.PyNamedTuple TrainScript.GANTrainOps_fields
                 [TrainScript.PyOp g; TrainScript.PyList (map TrainScript.PyOp ds);
                  TrainScript.PyOp TrainScript.GlobalStepInc]) "global_step_inc_op")
      with (Ok (TrainScript.PyOp TrainScript.GlobalStepInc)).
    cbn [rbind]. rewrite flat_map_app, UpdateOpsFacts.repeat_flat_map_ops.
    unfold TrainScript.specified_training_step. rewrite <- app_assoc.
    cbn [flat_map TrainScript.before_run TrainScript.RunTrainOpsHook
         TrainScript.is_list_or_tuple TrainScript._train_ops TrainScript._train_steps
         TrainScript.fetched_ops app].
    rewrite app_nil_r. reflexivity.
  - intros d. reflexivity.
Qed.

(** ** The stage builder calls of the estimator *)

Module EstimatorCallFacts.
Import Estimator EstimatorFacts EstimatorCalls.

Lemma firstn_snoc : forall A (xs : list A) j x,
  nth_error xs j = Some x -> firstn (S j) xs = firstn j xs ++ [x].
Proof.
  intros A xs. induction xs as [|y xs IH]; intros j x H.
  - destruct j; discriminate.
  - destruct j as [|j].
    + injection H as <-. reflexivity.
    + cbn [firstn app]. f_equal. change (firstn (S j) xs = firstn j xs ++ [x]).
      now apply IH.
Qed.

Section Facts.

Context {C : Collaborators}.

Lemma stage_kwargs_value : forall stack_depth labels noise augmented mu0 logvar0
    apply_batch_norm w kw w',
  stage_kwargs stack_depth labels noise augmented mu0 logvar0 apply_batch_norm
               (List.length (gan_models w)) w = Ok (kw, w') ->
  w' = w
  /\ exists real,
       stage_real_data stack_depth labels (List.length (gan_models w)) = Ok real
       /\ kw = kwargs_after (gan_models w) real noise augmented mu0 logvar0 apply_batch_norm.
Proof.
  intros until w'. intros H.
  unfold stage_kwargs, previous_generator_scope, stage_real_data, kwargs_after in *.
  run_builder.
  destruct (if stack_depth =? 1 then _ else _) as [real|]; [|discriminate].
  destruct (gan_models w) as [|x xs] eqn:Eg.
  - cbn [List.length Nat.ltb Nat.leb] in H. injection H as <- <-.
    split; [reflexivity|]. exists real. split; reflexivity.
  - cbn [List.length Nat.ltb Nat.leb] in H. rewrite ?Eg in H.
    destruct (py_last (x :: xs)) as [last|]; [|discriminate].
    injection H as <- <-. split; [reflexivity|]. exists real. split; reflexivity.
Qed.

Lemma make_stages_calls : forall stack_depth gen_fn dis_fn labels noise augmented
    mu0 logvar0 apply_batch_norm n w w',
  make_stages stack_depth gen_fn dis_fn labels noise augmented mu0 logvar0
              apply_batch_norm (seq (List.length (gan_models w)) n) w = Ok (tt, w') ->
  exists new,
    gan_models w' = gan_models w ++ new
    /\ List.length new = n
    /\ forall k m, nth_error new k = Some m ->
         exists real wa g,
           stage_real_data stack_depth labels (List.length (gan_models w) + k) = Ok real
           /\ gan_models wa = gan_models w ++ firstn k new
           /\ gan_model gen_fn dis_fn
                (kwargs_after (gan_models w ++ firstn k new) real noise augmented
                              mu0 logvar0 apply_batch_norm) wa = Ok (m, g).
Proof.
  intros stack_depth gen_fn dis_fn labels noise augmented mu0 logvar0 apply_batch_norm n.
  induction n as [|n IH]; intros w w' H.
  - cbn in H. injection H as <-. exists []. rewrite app_nil_r.
    repeat split. intros k m Hk. destruct k; discriminate.
  - cbn [seq make_stages] in H. unfold bind at 1 in H.
    destruct (stage_kwargs _ _ _ _ _ _ _ _ w) as [[kw w0]|] eqn:Ekw; [|discriminate].
    destruct (stage_kwargs_value _ _ _ _ _ _ _ _ Ekw) as (-> & real & Hreal & ->).
    unfold bind at 1, call_gan_model in H.
    destruct (gan_model gen_fn dis_fn _ w) as [[m g1]|] eqn:Em; [|discriminate].
    unfold bind at 1, append_model, modify in H.
    cbn [gan_models graph] in H.
    specialize (IH (mkWorld g1 (gan_models w ++ [m])) w').
    cbn [gan_models] in IH. rewrite length_app in IH. cbn [List.length] in IH.
    replace (List.length (gan_models w) + 1) with (S (List.length (gan_models w))) in IH
      by lia.
    destruct (IH H) as (new & Hnew & Hn & Hall).
    exists (m :: new). repeat split.
    + rewrite Hnew, <- app_assoc. reflexivity.
    + simpl. lia.
    + intros k x Hk. destruct k as [|k].
      * injection Hk as <-. cbn [firstn]. rewrite app_nil_r, Nat.add_0_r.
        exists real, w, g1. repeat split; assumption.
      * cbn [nth_error] in Hk. destruct (Hall _ _ Hk) as (real' & wa & g & Hr & Hwa & Hg).
        exists real', wa, g. cbn [firstn].
        rewrite <- app_assoc in Hwa, Hg. cbn [app] in Hwa, Hg.
        replace (List.length (gan_models w) + S k)
          with (S (List.length (gan_models w)) + k) by lia.
        repeat split; assumption.
Qed.

Lemma _make_gan_models_calls : forall stack_depth batch_size noise_dim gen_fn dis_fn
    labels features super_scope apply_batch_norm mode w ms w',
  _make_gan_models stack_depth batch_size noise_dim gen_fn dis_fn labels features
                   super_scope apply_batch_norm mode w = Ok (ms, w') ->
  List.length ms = stack_depth
  /\ forall k m, nth_error ms k = Some m ->
       exists real wa g,
         stage_real_data stack_depth labels k = Ok real
         /\ gan_models wa = firstn k ms
         /\ gan_model (generator_with_mode gen_fn mode) (discriminator_with_mode dis_fn mode)
              (kwargs_after (firstn k ms) real (random_normal [batch_size; noise_dim])
                 (fst (fst (net_out (augment features))))
                 (snd (fst (net_out (augment features))))
                 (snd (net_out (augment features)))
                 apply_batch_norm) wa = Ok (m, g).
Proof.
  intros until w'. intros H. unfold _make_gan_models, range in H. run_builder.
  cbn [net_out] in H. destruct (net_out (augment features)) as [[a mu0'] lv].
  destruct (make_stages _ _ _ _ _ _ _ _ _ _ _) as [[[] w1]|] eqn:E; [|discriminate].
  injection H as <- <-.
  apply (@make_stages_calls stack_depth _ _ labels _ _ _ _ _ stack_depth
           (mkWorld (get_variables "" (net_vars (augment features)) (graph w)) [])) in E.
  destruct E as (new & Hnew & Hn & Hall). cbn [gan_models app List.length Nat.add] in *.
  rewrite Hnew. split; [exact Hn|]. exact Hall.
Qed.

End Facts.

End EstimatorCallFacts.

(** X12: what the estimator hands to its stage builder.  When
    [_make_gan_models] returns, the model at position [k] is the result of
    a call of the stage builder, made while the list held the [k] earlier
    models, with the stage [k], the shape check off, [mu] and [logvar] of
    the conditioning augmentation, as real data the pair of [mu] and the
    labels of that stage (the whole [labels] when [stack_depth] is 1,
    [labels[k]] otherwise), and as generator super scope [None] at stage 0
    and the generator scope of the model of stage [k - 1] afterwards. *)
Theorem stage_builder_calls_of_the_estimator :
  forall (C : Estimator.Collaborators) stack_depth batch_size noise_dim gen_fn dis_fn
         labels features super_scope apply_batch_norm mode w ms w',
  Estimator._make_gan_models stack_depth batch_size noise_dim gen_fn dis_fn labels
    features super_scope apply_batch_norm mode w = Ok (ms, w') ->
  forall k m, nth_error ms k = Some m ->
    exists real kw wa g,
      Estimator.gan_model (Estimator.generator_with_mode gen_fn mode)
        (Estimator.discriminator_with_mode dis_fn mode) kw wa = Ok (m, g)
      /\ Estimator.gan_models wa = firstn k ms
      /\ kw = EstimatorCalls.kwargs_after (firstn k ms) real
                (Estimator.random_normal [batch_size; noise_dim])
                (fst (fst (net_out (Estimator.augment features))))
                (snd (fst (net_out (Estimator.augment features))))
                (snd (net_out (Estimator.augment features)))
                apply_batch_norm
      /\ Estimator.kw_stage kw = k
      /\ Estimator.kw_check_shapes kw = false
      /\ Estimator.kw_discriminator_inputs kw
         = (real, snd (fst (net_out (Estimator.augment features))))
      /\ (if stack_depth =? 1 then real = labels
          else Estimator.labels_getitem labels k = Ok real)
      /\ Estimator.kw_generator_super_scope kw
         = match k with
           | 0 => None
           | S j => option_map Estimator.generator_scope (nth_error ms j)
           end.
Proof.
  intros C stack_depth batch_size noise_dim gen_fn dis_fn labels features super_scope
         apply_batch_norm mode w ms w' H k m Hk.
  destruct (EstimatorCallFacts._make_gan_models_calls _ _ _ _ _ _ _ _ _ _ _ H) as [Hl Hall].
  destruct (Hall _ _ Hk) as (real & wa & g & Hr & Hwa & Hg).
  assert (Hlt : k < List.length ms) by (apply nth_error_Some; congruence).
  eexists real, _, wa, g. split; [exact Hg|]. split; [exact Hwa|].
  split; [reflexivity|].
  cbn [EstimatorCalls.kwargs_after Estimator.kw_stage Estimator.kw_check_shapes
       Estimator.kw_discriminator_inputs Estimator.kw_generator_super_scope].
  repeat apply conj.
  - rewrite length_firstn. lia.
  - reflexivity.
  - reflexivity.
  - unfold EstimatorCalls.stage_real_data in Hr.
    destruct (stack_depth =? 1); [congruence | exact Hr].
  - destruct k as [|j]; [reflexivity|].
    destruct (nth_error ms j) as [x|] eqn:Ex.
    2:{ apply nth_error_None in Ex. lia. }
    rewrite (EstimatorCallFacts.firstn_snoc _ _ Ex), py_last_snoc. reflexivity.
Qed.

Lemma stage_builder_calls_of_the_estimator_witness :
  exists ms w' m0 m1 real kw wa g,
    Estimator._make_gan_models (C := Demo.estimator) 2 8 64 Demo.estimator_generator
      Demo.estimator_discriminator
      (Estimator.LabelList [Demo.provider_images; Demo.text_embedding])
      Demo.text_embedding (mkScope "Generator" "Generator/") false Estimator.TRAIN
      Estimator.empty_world = Ok (ms, w')
    /\ nth_error ms 0 = Some m0 /\ nth_error ms 1 = Some m1
    /\ Estimator.gan_model (Collaborators := Demo.estimator)
         (Estimator.generator_with_mode Demo.estimator_generator Estimator.TRAIN)
         (Estimator.discriminator_with_mode Demo.estimator_discriminator Estimator.TRAIN)
         kw wa = Ok (m1, g)
    /\ Estimator.kw_discriminator_inputs kw = (real, mkTensor "mu" None)
    /\ real = Estimator.LabelTensor Demo.text_embedding
    /\ Estimator.kw_generator_super_scope kw = Some (Estimator.generator_scope m0).
Proof.
  destruct (Estimator._make_gan_models (C := Demo.estimator) 2 8 64
              Demo.estimator_generator Demo.estimator_discriminator
              (Estimator.LabelList [Demo.provider_images; Demo.text_embedding])
              Demo.text_embedding (mkScope "Generator" "Generator/") false
              Estimator.TRAIN Estimator.empty_world) as [[ms w']|e] eqn:E;
    [|discriminate E].
  destruct (nth_error ms 0) as [m0|] eqn:E0.
  2:{ exfalso. revert E0. injection E as <- _. discriminate. }
  destruct (nth_error ms 1) as [m1|] eqn:E1.
  2:{ exfalso. revert E1. injection E as <- _. discriminate. }
  destruct (stage_builder_calls_of_the_estimator Demo.estimator 2 8 64
              Demo.estimator_generator Demo.estimator_discriminator
              (Estimator.LabelList [Demo.provider_images; Demo.text_embedding])
              Demo.text_embedding (mkScope "Generator" "Generator/") false
              Estimator.TRAIN Estimator.empty_world E 1 E1)
    as (real & kw & wa & g & Hg & _ & _ & _ & _ & Hd & Hr & Hs).
  exists ms, w', m0, m1, real, kw, wa, g.
  repeat apply conj; try reflexivity; try assumption.
  - cbn in Hr. injection Hr as <-. reflexivity.
  - rewrite Hs, E0. reflexivity.
Defined.

(** X13: the labels the estimator accepts in training and evaluation.
    With [stack_depth = 0] (the default of the constructor) the build
    returns an empty list of models, whatever the labels.  With
    [stack_depth >= 2] and [labels = None] it raises [TypeError] at the
    first stage, before the stage builder is called.  With
    [stack_depth >= 2] and a list of fewer than [stack_depth] labels it
    never returns a stack. *)
Theorem estimator_labels_edge_cases :
  forall (C : Estimator.Collaborators) batch_size noise_dim gen_fn dis_fn features
         super_scope apply_batch_norm mode w,
  (forall labels, exists w',
     Estimator._make_gan_models 0 batch_size noise_dim gen_fn dis_fn labels features
       super_scope apply_batch_norm mode w = Ok ([], w'))
  /\ (forall stack_depth, 2 <= stack_depth ->
        Estimator._make_gan_models stack_depth batch_size noise_dim gen_fn dis_fn
          Estimator.NoLabels features super_scope apply_batch_norm mode w
        = Err (TypeError "'NoneType' object is not subscriptable"))
  /\ (forall stack_depth ts, 2 <= stack_depth -> List.length ts < stack_depth ->
        forall ms w',
          Estimator._make_gan_models stack_depth batch_size noise_dim gen_fn dis_fn
            (Estimator.LabelList ts) features super_scope apply_batch_norm mode w
          <> Ok (ms, w')).
Proof.
  intros C batch_size noise_dim gen_fn dis_fn features super_scope apply_batch_norm mode w.
  repeat apply conj.
  - intros labels. unfold Estimator._make_gan_models. EstimatorFacts.run_builder.
    cbn [net_out]. destruct (net_out (Estimator.augment features)) as [[a m] l].
    eexists. reflexivity.
  - intros stack_depth Hd. unfold Estimator._make_gan_models. EstimatorFacts.run_builder.
    cbn [net_out]. destruct (net_out (Estimator.augment features)) as [[a m] l].
    destruct stack_depth as [|[|d]]; [lia | lia |]. reflexivity.
  - intros stack_depth ts Hd Hl ms w' H.
    destruct (EstimatorCallFacts._make_gan_models_calls _ _ _ _ _ _ _ _ _ _ _ H)
      as [Hlen Hall].
    destruct (nth_error ms (List.length ts)) as [m|] eqn:Em.
    2:{ apply nth_error_None in Em. lia. }
    destruct (Hall _ _ Em) as (real & _ & _ & Hr & _).
    unfold EstimatorCalls.stage_real_data in Hr.
    destruct (Nat.eqb_spec stack_depth 1) as [E1|_]; [lia|].
    cbn [Estimator.labels_getitem] in Hr. unfold py_index in Hr.
    destruct (nth_error ts (List.length ts)) eqn:En.
    + assert (List.length ts < List.length ts) by (apply nth_error_Some; congruence). lia.
    + discriminate Hr.
Qed.

Lemma estimator_labels_edge_cases_witness :
  Estimator._make_gan_models (C := Demo.estimator) 2 8 64 Demo.estimator_generator
    Demo.estimator_discriminator Estimator.NoLabels Demo.text_embedding
    (mkScope "Generator" "Generator/") false Estimator.TRAIN Estimator.empty_world
  = Err (TypeError "'NoneType' object is not subscriptable")
  /\ Estimator._make_gan_models (C := Demo.estimator) 2 8 64 Demo.estimator_generator
       Demo.estimator_discriminator (Estimator.LabelList [Demo.provider_images])
       Demo.text_embedding (mkScope "Generator" "Generator/") false Estimator.TRAIN
       Estimator.empty_world
     = Err IndexError.
Proof.
  split.
  - exact (proj1 (proj2 (estimator_labels_edge_cases Demo.estimator 8 64
                           Demo.estimator_generator Demo.estimator_discriminator
                           Demo.text_embedding (mkScope "Generator" "Generator/")
                           false Estimator.TRAIN Estimator.empty_world))
                 2 (le_n 2)).
  - destruct (Estimator._make_gan_models (C := Demo.estimator) 2 8 64
                Demo.estimator_generator Demo.estimator_discriminator
                (Estimator.LabelList [Demo.provider_images]) Demo.text_embedding
                (mkScope "Generator" "Generator/") false Estimator.TRAIN
                Estimator.empty_world) as [[ms w']|e] eqn:E.
    + exfalso.
      exact (proj2 (proj2 (estimator_labels_edge_cases Demo.estimator 8 64
                             Demo.estimator_generator Demo.estimator_discriminator
                             Demo.text_embedding (mkScope "Generator" "Generator/")
                             false Estimator.TRAIN Estimator.empty_world))
                   2 [Demo.provider_images] (le_n 2) (le_n 2) ms w' E).
    + revert E. vm_compute. intros E. injection E as <-. reflexivity.
Defined.

(** ** The summaries of the estimator *)

Module SummaryFacts.
Import Summaries.

Lemma apply_summaries_known : forall types fs applied,
  map _summary_type_map types = map Some fs ->
  apply_summaries types applied = inl (applied ++ fs).
Proof.
  induction types as [|s types IH]; intros fs applied H.
  - destruct fs; [|discriminate]. cbn. now rewrite app_nil_r.
  - destruct fs as [|f fs]; [discriminate|]. cbn [map] in H. injection H as Hs H.
    cbn [apply_summaries]. rewrite Hs, (IH fs) by exact H.
    rewrite <- app_assoc. reflexivity.
Qed.

Lemma no_NONE_known : forall types,
  ~ In NONE types -> exists fs, map _summary_type_map types = map Some fs.
Proof.
  induction types as [|s types IH]; intros H.
  - exists []. reflexivity.
  - destruct IH as (fs & E); [intros Hin; apply H; now right|].
    destruct s.
    + exfalso. apply H. now left.
    + exists (add_gan_model_summaries :: fs). cbn. now rewrite E.
    + exists (add_gan_model_image_summaries :: fs). cbn. now rewrite E.
    + exists (add_image_comparison_summaries :: fs). cbn. now rewrite E.
Qed.

Lemma apply_summaries_NONE : forall types applied,
  In NONE types -> exists done, apply_summaries types applied = inr (done, NONE).
Proof.
  induction types as [|s types IH]; intros applied H; [destruct H|].
  cbn [apply_summaries]. destruct s; cbn [_summary_type_map].
  - eauto.
  - apply IH. destruct H as [H|H]; [discriminate | exact H].
  - apply IH. destruct H as [H|H]; [discriminate | exact H].
  - apply IH. destruct H as [H|H]; [discriminate | exact H].
Qed.

Lemma apply_summaries_error_key : forall types applied done key,
  apply_summaries types applied = inr (done, key) -> key = NONE /\ In NONE types.
Proof.
  induction types as [|s types IH]; intros applied done key H; [discriminate|].
  cbn [apply_summaries] in H. destruct s; cbn [_summary_type_map] in H.
  - injection H as _ <-. split; [reflexivity | now left].
  - destruct (IH _ _ _ H) as [-> Hin]. split; [reflexivity | now right].
  - destruct (IH _ _ _ H) as [-> Hin]. split; [reflexivity | now right].
  - destruct (IH _ _ _ H) as [-> Hin]. split; [reflexivity | now right].
Qed.

Lemma stage_summaries_list : forall types fs n,
  map _summary_type_map types = map Some fs ->
  stage_summaries n (ManySummaries types)
  = (repeat (if List.length types =? 0 then [] else fs) n, None).
Proof.
  intros types fs n H. induction n as [|n IH]; [reflexivity|].
  cbn [stage_summaries]. unfold add_stage_summaries. cbn [truthy].
  destruct (List.length types =? 0) eqn:E; cbn [negb].
  - rewrite IH. reflexivity.
  - rewrite (@apply_summaries_known types fs [] H). cbn [app]. rewrite IH. reflexivity.
Qed.

End SummaryFacts.

(** X14: the summary block of [_make_gan_models].  It raises [KeyError]
    exactly when [add_summaries] is a list that contains
    [SummaryType.NONE], which is no key of [_summary_type_map]; then the
    loop stops in its first iteration, after the summaries requested before
    [NONE].  A single [SummaryType.NONE] is falsy and adds nothing.  A list
    without [NONE] and a single type other than [NONE] add the same
    summaries at every stage. *)
Theorem summaries_of_the_stages :
  (forall a,
     (exists applied key, Summaries.add_stage_summaries a = Summaries.KeyError applied key)
     <-> (exists l, a = Summaries.ManySummaries l /\ In Summaries.NONE l))
  /\ (forall n,
        Summaries.stage_summaries n (Summaries.OneSummary Summaries.NONE)
        = (repeat [] n, None))
  /\ (forall l n, In Summaries.NONE l ->
        exists applied,
          Summaries.stage_summaries (S n) (Summaries.ManySummaries l)
          = ([applied], Some Summaries.NONE))
  /\ (forall l, ~ In Summaries.NONE l ->
        exists fs,
          map Summaries._summary_type_map l = map Some fs
          /\ forall n, Summaries.stage_summaries n (Summaries.ManySummaries l)
                       = (repeat fs n, None))
  /\ (forall s, s <> Summaries.NONE ->
        exists f,
          Summaries._summary_type_map s = Some f
          /\ forall n, Summaries.stage_summaries n (Summaries.OneSummary s)
                       = (repeat [f] n, None)).
Proof.
  repeat apply conj.
  - intros a. split.
    + intros (applied & key & H). unfold Summaries.add_stage_summaries in H.
      destruct a as [|s|l].
      * discriminate.
      * destruct s; discriminate.
      * exists l. split; [reflexivity|].
        destruct (Summaries.truthy (Summaries.ManySummaries l)); [|discriminate].
        destruct (Summaries.apply_summaries l []) as [fs|[done k]] eqn:E; [discriminate|].
        exact (proj2 (SummaryFacts.apply_summaries_error_key _ _ E)).
    + intros (l & -> & Hin). unfold Summaries.add_stage_summaries.
      destruct l as [|s l]; [destruct Hin|]. cbn [Summaries.truthy List.length Nat.eqb negb].
      destruct (@SummaryFacts.apply_summaries_NONE (s :: l) [] Hin) as (done & ->). eauto.
  - intros n. induction n as [|n IH]; [reflexivity|].
    cbn [Summaries.stage_summaries Summaries.add_stage_summaries Summaries.truthy
         Summaries.SummaryType_value Nat.eqb negb].
    rewrite IH. reflexivity.
  - intros l n Hin. cbn [Summaries.stage_summaries].
    unfold Summaries.add_stage_summaries.
    destruct l as [|s l]; [destruct Hin|]. cbn [Summaries.truthy List.length Nat.eqb negb].
    destruct (@SummaryFacts.apply_summaries_NONE (s :: l) [] Hin) as (done & ->). eauto.
  - intros l Hl. destruct (@SummaryFacts.no_NONE_known l Hl) as (fs & E).
    exists fs. split; [exact E|]. intros n.
    rewrite (@SummaryFacts.stage_summaries_list l fs n E).
    destruct l as [|s l]; [|reflexivity].
    destruct fs; [|discriminate]. cbn [List.length Nat.eqb]. reflexivity.
  - intros s Hs.
    assert (H : exists f, Summaries._summary_type_map s = Some f).
    { destruct s; [congruence | | |]; eexists; reflexivity. }
    destruct H as (f & Hf). exists f. split; [exact Hf|].
    intros n. destruct n as [|n]; [reflexivity|].
    cbn [Summaries.stage_summaries]. unfold Summaries.add_stage_summaries.
    assert (Ht : Summaries.truthy (Summaries.OneSummary s) = true)
      by (destruct s; [congruence | | |]; reflexivity).
    rewrite Ht. cbn [Summaries.apply_summaries]. rewrite Hf.
    cbn [Summaries.apply_summaries app].
    rewrite (@SummaryFacts.stage_summaries_list [s] [f] n) by (cbn; now rewrite Hf).
    reflexivity.
Qed.

Lemma summaries_of_the_stages_witness :
  (exists applied,
     Summaries.stage_summaries 2
       (Summaries.ManySummaries [Summaries.IMAGES; Summaries.NONE; Summaries.VARIABLES])
     = ([applied], Some Summaries.NONE))
  /\ (exists f,
        Summaries._summary_type_map Summaries.IMAGES = Some f
        /\ Summaries.stage_summaries 2 (Summaries.OneSummary Summaries.IMAGES)
           = ([[f]; [f]], None)).
Proof.
  split.
  - exact (proj1 (proj2 (proj2 summaries_of_the_stages))
             [Summaries.IMAGES; Summaries.NONE; Summaries.VARIABLES] 1
             (or_intror (or_introl eq_refl))).
  - destruct (proj2 (proj2 (proj2 (proj2 summaries_of_the_stages))) Summaries.IMAGES)
      as (f & Hf & Hn).
    { discriminate. }
    exists f. split; [exact Hf | exact (Hn 2)].
Defined.

(** ** The networks of [networks.py] *)

Module NetworkFacts.
Import Networks.


Lemma pow2_nonzero : forall k, (2 ^ k =? 0) = false.
Proof. intros k. apply Nat.eqb_neq. apply Nat.pow_nonzero. discriminate. Qed.

Lemma zrange_length : forall a b, List.length (zrange a b) = Z.to_nat (b - a).
Proof. intros a b. unfold zrange. now rewrite length_map, length_seq. Qed.

Lemma getitem_setitem : forall end_points k v,
  getitem (setitem end_points k v) k = Returns v.
Proof.
  intros end_points k v. cbn [setitem getitem].
  assert (E : Key_eqb k k = true) by (destruct k; cbn; try apply Z.eqb_refl; reflexivity).
  now rewrite E.
Qed.

Section Exact.

Context (log2f : nat -> Q).

(** The session computes the logarithm of a power of two exactly. *)
Hypothesis log_exact : forall k, (log2f (2 ^ k) == inject_Z (Z.of_nat k))%Q.

Lemma log_pow2 : forall k, log log2f (2 ^ k) = Finite (log2f (2 ^ k)).
Proof. intros k. unfold log. now rewrite pow2_nonzero. Qed.

Lemma int_log_pow2 : forall k, int (log log2f (2 ^ k)) = Returns (Z.of_nat k).
Proof.
  intros k. rewrite log_pow2. cbn [int]. f_equal.
  assert (H0 : Qle_bool 0 (log2f (2 ^ k)) = true).
  { apply Qle_bool_iff. rewrite log_exact.
    change 0%Q with (inject_Z 0). rewrite <- Zle_Qle. lia. }
  rewrite H0, (Qfloor_comp _ _ (log_exact k)). apply Qfloor_Z.
Qed.

Lemma ne_log_pow2 : forall k, ne (log log2f (2 ^ k)) (Z.of_nat k) = false.
Proof.
  intros k. rewrite log_pow2. cbn [ne]. apply negb_false_iff.
  apply Qeq_bool_iff. apply log_exact.
Qed.

End Exact.

(** The stride-2 layers double the spatial sizes. *)
Lemma deconv_layers_double : forall indices depth num_layers b h w c end_points,
  exists c' end_points',
    deconv_layers depth num_layers indices [b; Some h; Some w; Some c] end_points
    = Returns ([b; Some (h * 2 ^ List.length indices);
                Some (w * 2 ^ List.length indices); Some c'], end_points').
Proof.
  induction indices as [|i rest IH]; intros depth num_layers b h w c end_points.
  - exists c, end_points. cbn. now rewrite !Nat.mul_1_r.
  - cbn [deconv_layers conv2d_transpose deconv_output_length obind].
    destruct (IH depth num_layers b (h * 2) (w * 2)
                (depth * 2 ^ Z.to_nat (num_layers - i))
                (setitem end_points (deconv i)
                   [b; Some (h * 2); Some (w * 2);
                    Some (depth * 2 ^ Z.to_nat (num_layers - i))]))
      as (c' & ep' & ->).
    exists c', ep'. cbn [List.length]. rewrite Nat.pow_succ_r'.
    replace (h * 2 * 2 ^ List.length rest) with (h * (2 * 2 ^ List.length rest)) by ring.
    replace (w * 2 * 2 ^ List.length rest) with (w * (2 * 2 ^ List.length rest)) by ring.
    reflexivity.
Qed.


Section Generator.

Context (log2f : nat -> Q).

Hypothesis log_exact : forall k, (log2f (2 ^ k) == inject_Z (Z.of_nat k))%Q.

Lemma dim_compatible_None : forall d, dim_compatible d None = true.
Proof. intros [n|]; reflexivity. Qed.

Lemma conv2d_1x1 : forall b h w c num_outputs,
  1 <= h -> 1 <= w ->
  conv2d [b; Some h; Some w; Some c] num_outputs 1 1 VALID
  = Returns [b; Some h; Some w; Some num_outputs].
Proof.
  intros b h w c num_outputs Hh Hw. cbn [conv2d conv_output_length].
  rewrite !Nat.div_1_r.
  replace (h - 1 + 1 + 1 - 1) with h by lia.
  replace (w - 1 + 1 + 1 - 1) with w by lia. reflexivity.
Qed.


Lemma pow2_ne_3 : forall j, 2 ^ j <> 3.
Proof.
  intros [|[|j]]; cbn [Nat.pow]; lia.
Qed.

Lemma dcgan_generator_next : forall b j c k depth num_outputs tr,
  3 <= k ->
  (k = S j ->
   dcgan_generator log2f [b; Some (2 ^ j); Some (2 ^ j); Some c] depth (2 ^ k)
     num_outputs tr
   = Returns ([b; Some (2 ^ k); Some (2 ^ k); Some num_outputs],
              [(logits, [b; Some (2 ^ k); Some (2 ^ k); Some num_outputs]);
               (deconv 1, [b; Some (2 ^ k); Some (2 ^ k); Some depth])]))
  /\ (k <> S j ->
      dcgan_generator log2f [b; Some (2 ^ j); Some (2 ^ j); Some c] depth (2 ^ k)
        num_outputs tr
      = Raises (Value_error "Shapes are incompatible")).
Proof.
  intros b j c k depth num_outputs tr Hk.
  assert (H8 : 8 <= 2 ^ k).
  { change 8 with (2 ^ 3). apply Nat.pow_le_mono_r; lia. }
  assert (Hj : 1 <= 2 ^ j) by (pose proof (Nat.pow_nonzero 2 j); lia).
  unfold dcgan_generator.
  rewrite (@int_log_pow2 log2f log_exact). cbn [obind].
  rewrite (@ne_log_pow2 log2f log_exact).
  destruct (Nat.ltb_spec (2 ^ k) 8) as [Hlt|_]; [lia|].
  cbn [List.length Nat.eqb obind get_dim nth_error log_dim].
  rewrite (@int_log_pow2 log2f log_exact). cbn [obind].
  split.
  - intros ->.
    replace (Z.of_nat (S j) - (Z.of_nat j - 1) - 1)%Z with 1%Z by lia.
    cbn [Z.ltb Z.compare Pos.compare Pos.compare_cont obind zrange Z.sub Z.add Z.opp
         Z.pos_sub Z.to_nat seq map deconv_layers conv2d_transpose deconv_output_length
         Z.succ_double Z.pred_double Z.double Pos.pred_double].
    replace (2 ^ j * 2) with (2 ^ S j) by (rewrite Nat.pow_succ_r'; lia).
    rewrite conv2d_1x1 by lia.
    cbn [obind dims_compatible]. rewrite dim_compatible_None.
    cbn [dim_compatible]. rewrite !Nat.eqb_refl. cbn [andb]. reflexivity.
  - intros Hne.
    destruct (Z.ltb_spec 1 (Z.of_nat k - (Z.of_nat j - 1) - 1)) as [Hnl|Hnl].
    + cbn [obind conv2d_transpose deconv_output_length].
      match goal with
      | |- context [deconv_layers ?d ?nl ?idx [?b0; Some ?h; Some ?w; Some ?c0] ?ep] =>
          destruct (deconv_layers_double idx d nl b0 h w c0 ep) as (c' & ep' & ->)
      end.
      cbn [obind conv2d_transpose deconv_output_length].
      rewrite zrange_length.
      set (len := Z.to_nat (Z.of_nat k - (Z.of_nat j - 1) - 1 - 2)).
      assert (Hlen : k = j + 2 + len) by (unfold len; lia).
      assert (Hp : 1 <= 2 ^ len) by (pose proof (Nat.pow_nonzero 2 len); lia).
      change (Nat.max (4 - 1) 0) with 3.
      rewrite conv2d_1x1 by nia.
      cbn [obind dims_compatible]. rewrite dim_compatible_None.
      cbn [dim_compatible andb].
      assert (Hx : ((2 ^ j * 1 + 3) * 2 ^ len * 2 =? 2 ^ k) = false).
      { apply Nat.eqb_neq. rewrite Hlen, !Nat.pow_add_r. change (2 ^ 2) with 4.
        pose proof (pow2_ne_3 j). nia. }
      rewrite Hx. reflexivity.
    + cbn [obind].
      match goal with
      | |- context [deconv_layers ?d ?nl ?idx [?b0; Some ?h; Some ?w; Some ?c0] ?ep] =>
          destruct (deconv_layers_double idx d nl b0 h w c0 ep) as (c' & ep' & ->)
      end.
      cbn [obind conv2d_transpose deconv_output_length].
      rewrite zrange_length.
      replace (Z.to_nat (Z.of_nat k - (Z.of_nat j - 1) - 1 - 2)) with 0 by lia.
      change (2 ^ 0) with 1.
      rewrite conv2d_1x1 by lia.
      cbn [obind dims_compatible]. rewrite dim_compatible_None.
      cbn [dim_compatible andb].
      assert (Hx : (2 ^ j * 1 * 2 =? 2 ^ k) = false).
      { apply Nat.eqb_neq. assert (Hkj : k <= j) by lia.
        pose proof (Nat.pow_le_mono_r 2 k j ltac:(lia) Hkj). lia. }
      rewrite Hx. reflexivity.
Qed.








(** A single rank-4 tensor, which is no list: [generator] counts the
    layers from scratch, [dcgan_generator] from the size of the tensor. *)
Lemma generator_single_rank4 : forall b j c bn,
  2 <= j ->
  generator log2f (One [b; Some (2 ^ j); Some (2 ^ j); Some c]) (2 ^ S j) bn
  = Raises (Key_error (Key_name (deconv (Z.of_nat j)))).
Proof.
  intros b j c bn Hj. unfold generator.
  rewrite (@int_log_pow2 log2f log_exact). cbn [obind].
  rewrite (proj1 (dcgan_generator_next b j c 64 3 bn (k:=S j) ltac:(lia)) eq_refl).
  cbn [obind getitem Key_eqb].
  replace (Z.of_nat (S j) - 1)%Z with (Z.of_nat j) by lia.
  destruct (Z.eqb_spec 1 (Z.of_nat j)) as [E|_]; [lia|]. reflexivity.
Qed.

End Generator.

Section Lookup.

Context (log2f : nat -> Q).

Ltac raised E :=
  unfold int, get_dim, get_last_dim, log_dim, expand_dims_1, conv2d_transpose, conv2d,
         tile, concat_last in E;
  repeat match type of E with
         | context [match ?x with _ => _ end] => destruct x
         end;
  try discriminate E; injection E as <-; intros key; discriminate.

Lemma deconv_layers_raises : forall indices depth num_layers net end_points e,
  deconv_layers depth num_layers indices net end_points = Raises e ->
  forall key, e <> Key_error key.
Proof.
  induction indices as [|i rest IH]; intros depth num_layers net end_points e H;
    [discriminate|].
  cbn [deconv_layers] in H.
  destruct (conv2d_transpose net _ 4 2 SAME) as [net'|e'] eqn:E; cbn [obind] in H.
  - eapply IH; eauto.
  - injection H as <-. raised E.
Qed.

Ltac step H :=
  match type of H with
  | context [obind ?r _] =>
      lazymatch r with
      | obind _ _ => fail
      | (if _ then _ else _) => fail
      | Returns _ => fail
      | Raises _ => fail
      | _ => idtac
      end;
      let E := fresh "E" in
      destruct r eqn:E; cbn [obind] in H;
      [|injection H as <-;
        first [eapply deconv_layers_raises; eassumption | raised E]]
  | context [if ?c then _ else _] =>
      destruct c; cbn [obind] in H;
      try (injection H as <-; intros key; discriminate)
  | context [let (_, _) := ?p in _] => destruct p; cbn [obind] in H
  end.

Lemma dcgan_generator_raises : forall inputs depth final_size num_outputs tr e,
  dcgan_generator log2f inputs depth final_size num_outputs tr = Raises e ->
  forall key, e <> Key_error key.
Proof.
  intros inputs depth final_size num_outputs tr e H. unfold dcgan_generator in H.
  repeat step H; discriminate H.
Qed.

Ltac walk H :=
  match type of H with
  | context [obind ?r _] =>
      lazymatch r with
      | obind _ _ => fail
      | (if _ then _ else _) => fail
      | Returns _ => fail
      | Raises _ => fail
      | _ => idtac
      end;
      let E := fresh "E" in
      destruct r eqn:E; cbn [obind] in H; [|discriminate H]
  | context [if ?c then _ else _] =>
      let E := fresh "E" in
      destruct c eqn:E; cbn [obind] in H; try discriminate H
  | context [let (_, _) := ?p in _] => destruct p; cbn [obind] in H
  end.

(** When [dcgan_generator] returns, [end_points] holds the output of the
    last transposed convolution under the key of the number of layers it
    counted. *)
Lemma dcgan_generator_hidden : forall inputs depth final_size num_outputs tr images end_points,
  dcgan_generator log2f inputs depth final_size num_outputs tr
  = Returns (images, end_points) ->
  exists num_layers v,
    getitem end_points (deconv num_layers) = Returns v
    /\ (((List.length inputs =? 2) = true
         /\ exists a, int (log log2f final_size) = Returns a /\ num_layers = (a - 1)%Z)
        \/ ((List.length inputs =? 2) = false
            /\ exists a d l b,
                 int (log log2f final_size) = Returns a
                 /\ get_dim inputs 1 = Returns d
                 /\ log_dim log2f d = Returns l
                 /\ int l = Returns b
                 /\ num_layers = (a - (b - 1) - 1)%Z)).
Proof.
  intros inputs depth final_size num_outputs tr images end_points H.
  unfold dcgan_generator in H.
  repeat walk H;
    injection H as <- <-;
    eexists; eexists;
    (split; [cbn [setitem getitem Key_eqb]; rewrite Z.eqb_refl; reflexivity|]);
    first [left; split; [reflexivity|]; eexists; split; reflexivity
          |right; split; [reflexivity|]; do 4 eexists;
           repeat split; first [reflexivity | eassumption]].
Qed.

Lemma tile_dims_length : forall s ms,
  List.length s = List.length ms -> List.length (tile_dims s ms) = List.length ms.
Proof.
  induction s as [|d s IH]; intros ms H; destruct ms as [|m ms]; try discriminate;
    [reflexivity|].
  cbn [tile_dims List.length]. f_equal. apply IH. now injection H.
Qed.

Lemma concat_dims_cons : forall x x' a y b,
  concat_dims (x :: x' :: a) (y :: b)
  = if dim_compatible x y then
      match concat_dims (x' :: a) b with
      | Some rest => Some (merge_dim x y :: rest)
      | None => None
      end
    else None.
Proof. intros x x' a y b. destruct b; reflexivity. Qed.

Lemma concat_dims_length : forall a b s,
  concat_dims a b = Some s -> List.length s = List.length a.
Proof.
  induction a as [|x a IH]; intros b s H; [discriminate|].
  destruct b as [|y b]; [destruct a; cbn in H; discriminate H|].
  destruct a as [|x' a].
  - destruct b as [|y' b].
    + injection H as <-. reflexivity.
    + cbn in H. destruct (dim_compatible x y); discriminate.
  - rewrite concat_dims_cons in H. destruct (dim_compatible x y); [|discriminate].
    destruct (concat_dims (x' :: a) b) as [rest|] eqn:E; [|discriminate].
    injection H as <-. cbn [List.length]. f_equal. exact (IH _ _ E).
Qed.

Ltac no_key E H :=
  injection H as ->;
  unfold get_last_dim in E;
  unfold int, get_dim, log_dim, expand_dims_1, tile, concat_last in E;
  repeat match type of E with
         | context [match ?x with _ => _ end] => destruct x
         end;
  discriminate E.

(** For a rank-2 noise tensor and for a list, [generator] looks the
    hidden code up under the key [dcgan_generator] assigned last: it never
    ends in [KeyError]. *)
Lemma generator_finds_the_hidden_code : forall inputs final_size bn key,
  match inputs with
  | One t => List.length t = 2
  | Several _ => True
  end ->
  generator log2f inputs final_size bn <> Raises (Key_error key).
Proof.
  intros inputs final_size bn key Hin H. unfold generator in H.
  destruct inputs as [t|ts].
  - cbn [obind] in H.
    destruct (int (log log2f final_size)) as [a|e] eqn:Ea; cbn [obind] in H;
      [|no_key Ea H].
    destruct (dcgan_generator log2f t 64 final_size 3 bn) as [[images ep]|e] eqn:Ed;
      cbn [obind] in H.
    + destruct (dcgan_generator_hidden _ _ _ _ _ Ed) as (nl & v & Hg & [[_ Hc]|[Hl _]]).
      * destruct Hc as (a' & Ha' & ->). rewrite Ea in Ha'. injection Ha' as <-.
        rewrite Hg in H. discriminate H.
      * rewrite Hin in Hl. discriminate Hl.
    + injection H as ->. exact (@dcgan_generator_raises _ _ _ _ _ _ Ed key eq_refl).
  - destruct ts as [|hidden [|noise [|x rest]]]; try discriminate H.
    cbn [obind] in H.
    destruct (get_last_dim hidden) as [hd|e] eqn:E1; cbn [obind] in H; [|no_key E1 H].
    destruct (get_dim hidden 1) as [hs|e] eqn:E2; cbn [obind] in H; [|no_key E2 H].
    destruct (expand_dims_1 noise) as [n1|e] eqn:E3; cbn [obind] in H; [|no_key E3 H].
    destruct (expand_dims_1 n1) as [n2|e] eqn:E4; cbn [obind] in H; [|no_key E4 H].
    destruct (tile n2 [Some 1; hs; hs; Some 1]) as [n3|e] eqn:E5; cbn [obind] in H;
      [|no_key E5 H].
    destruct (concat_last n3 hidden) as [n4|e] eqn:E6; cbn [obind] in H; [|no_key E6 H].
    destruct (int (log log2f final_size)) as [a|e] eqn:E7; cbn [obind] in H;
      [|no_key E7 H].
    destruct (get_dim n4 1) as [d|e] eqn:E8; cbn [obind] in H; [|no_key E8 H].
    destruct (log_dim log2f d) as [l|e] eqn:E9; cbn [obind] in H; [|no_key E9 H].
    destruct (int l) as [b|e] eqn:E10; cbn [obind] in H; [|no_key E10 H].
    destruct (dcgan_generator log2f n4 64 final_size 3 bn) as [[images ep]|e] eqn:Ed;
      cbn [obind] in H.
    + destruct (dcgan_generator_hidden _ _ _ _ _ Ed) as (nl & v & Hg & [[Hl _]|[_ Hc]]).
      * exfalso.
        assert (L3 : List.length n3 = 4).
        { unfold tile in E5. cbn [fold_right] in E5.
          destruct hs as [h|]; [|discriminate E5]. cbn [List.length] in E5.
          destruct (Nat.eqb_spec (List.length n2) 4) as [L2|]; [|discriminate E5].
          injection E5 as <-. now rewrite tile_dims_length. }
        assert (L4 : List.length n4 = 4).
        { unfold concat_last in E6.
          destruct (concat_dims n3 hidden) as [s|] eqn:Ec; [|discriminate E6].
          injection E6 as <-. now rewrite (concat_dims_length _ _ Ec). }
        rewrite L4 in Hl. discriminate Hl.
      * destruct Hc as (a' & d' & l' & b' & Ha & Hd & Hlg & Hb & ->).
        rewrite E7 in Ha. injection Ha as <-.
        rewrite E8 in Hd. injection Hd as <-.
        rewrite E9 in Hlg. injection Hlg as <-.
        rewrite E10 in Hb. injection Hb as <-.
        rewrite Hg in H. discriminate H.
    + injection H as ->. exact (@dcgan_generator_raises _ _ _ _ _ _ Ed key eq_refl).
Qed.

End Lookup.

Section Discriminator.

Context (log2f : nat -> Q).

Hypothesis log_exact : forall k, (log2f (2 ^ k) == inject_Z (Z.of_nat k))%Q.


End Discriminator.


Lemma exact_log2f_exact : forall k,
  (Networks.exact_log2f (2 ^ k) == inject_Z (Z.of_nat k))%Q.
Proof.
  intros k. unfold Networks.exact_log2f.
  rewrite Nat.log2_pow2 by lia. rewrite Nat.eqb_refl. reflexivity.
Qed.

End NetworkFacts.





(** X17: the hidden code [generator] looks up in [end_points].  For a
    rank-2 noise tensor and for a list, the lookup never ends in
    [KeyError]: the key is the one [dcgan_generator] assigned last.  For a
    single rank-4 tensor that is no list, [generator] counts the layers as
    for the first stage while [dcgan_generator] counts them from the size
    of the tensor, and the lookup fails: for a tensor of size [2^j],
    [j >= 2], and the final size [2^(j+1)] it raises [KeyError] for the
    key ['deconv%i' % j]. *)
Theorem generator_hidden_code_lookup :
  forall log2f : nat -> Q,
  (forall inputs final_size bn key,
     match inputs with
     | Networks.One t => List.length t = 2
     | Networks.Several _ => True
     end ->
     Networks.generator log2f inputs final_size bn
     <> Networks.Raises (Networks.Key_error key))
  /\ ((forall k : nat, (log2f (2 ^ k)%nat == inject_Z (Z.of_nat k))%Q) ->
      forall b j c bn, 2 <= j ->
        Networks.generator log2f
          (Networks.One [b; Some (2 ^ j); Some (2 ^ j); Some c]) (2 ^ S j) bn
        = Networks.Raises
            (Networks.Key_error (Networks.Key_name (Networks.deconv (Z.of_nat j))))).
Proof.
  intros log2f. split.
  - intros inputs final_size bn key Hin.
    exact (@NetworkFacts.generator_finds_the_hidden_code log2f inputs final_size bn key Hin).
  - intros Hlog b j c bn Hj.
    exact (@NetworkFacts.generator_single_rank4 log2f Hlog b j c bn Hj).
Qed.

Lemma generator_hidden_code_lookup_witness :
  Networks.generator Networks.exact_log2f
    (Networks.One [Some 8; Some 4; Some 4; Some 64]) 8 false
  = Networks.Raises (Networks.Key_error "deconv2").
Proof.
  exact (proj2 (generator_hidden_code_lookup Networks.exact_log2f)
               NetworkFacts.exact_log2f_exact (Some 8) 2 64 false (le_n 2)).
Defined.





(** ** Where the builds can fail *)

Module TrainErrorFacts.
Import TrainScript TrainBuildFacts.

Section Errors.

Context (FLAGS : Flags) {C : Collaborators}.





End Errors.

End TrainErrorFacts.

Module EstimatorErrorFacts.
Import Estimator EstimatorFacts EstimatorCalls EstimatorCallFacts.

Section Errors.

Context {C : Collaborators}.




End Errors.

End EstimatorErrorFacts.





(** X22: the update operations of the generator train operation.
    [_get_gen_update_ops], called with the name of the generator super
    scope, takes the update operations whose name starts with [Generator]:
    those made under the scope of any generator stage, and none made under
    a discriminator stage scope. *)
Theorem generator_update_ops_cover_every_stage :
  forall update_ops,
  (forall op,
     In op (TrainScript._get_gen_update_ops update_ops "Generator")
     <-> In op update_ops /\ String.prefix "Generator" op = true)
  /\ (forall i l,
        In (scoped (scoped "Generator" ("Generator_stage_" ++ str i)%string) l) update_ops ->
        In (scoped (scoped "Generator" ("Generator_stage_" ++ str i)%string) l)
           (TrainScript._get_gen_update_ops update_ops "Generator"))
  /\ (forall j l,
        ~ In (TrainScript.dis_name j l)
             (TrainScript._get_gen_update_ops update_ops "Generator")).
Proof.
  intros update_ops.
  assert (Hin : forall op,
             In op (TrainScript._get_gen_update_ops update_ops "Generator")
             <-> In op update_ops /\ String.prefix "Generator" op = true).
  { intros op. unfold TrainScript._get_gen_update_ops. rewrite !filter_In. split.
    - intros [[H Hp] _]. auto.
    - intros [H Hp]. repeat split; try assumption.
      apply existsb_exists. exists op. split; [exact H | apply String.eqb_refl]. }
  repeat apply conj.
  - exact Hin.
  - intros i l H. apply Hin. split; [exact H | apply StackFacts.generator_name_prefix].
  - intros j l H. apply Hin in H. destruct H as [_ Hp].
    apply StackFacts.generator_prefix_no_discriminator in Hp.
    pose proof (TrainBuildFacts.dis_scope_prefix_dis_name j l) as Hd.
    rewrite (prefix_trans _ _ _ (TrainBuildFacts.stage_prefix_of_dis_scope j) Hd) in Hp.
    discriminate.
Qed.

Lemma generator_update_ops_cover_every_stage_witness :
  In "Generator/Generator_stage_1/moving_mean"
     (TrainScript._get_gen_update_ops
        ["Discriminator_stage_0/moving_mean"; "Generator/Generator_stage_1/moving_mean"]
        "Generator")
  /\ ~ In "Discriminator_stage_0/moving_mean"
          (TrainScript._get_gen_update_ops
             ["Discriminator_stage_0/moving_mean"; "Generator/Generator_stage_1/moving_mean"]
             "Generator").
Proof.
  split.
  - exact (proj1 (proj2 (generator_update_ops_cover_every_stage
                           ["Discriminator_stage_0/moving_mean";
                            "Generator/Generator_stage_1/moving_mean"]))
                 1 "moving_mean" (or_intror (or_introl eq_refl))).
  - exact (proj2 (proj2 (generator_update_ops_cover_every_stage
                           ["Discriminator_stage_0/moving_mean";
                            "Generator/Generator_stage_1/moving_mean"]))
                 0 "moving_mean").
Defined.
